(** * GPU blacklist: a shallow embedding of chrome/browser/gpu_blacklist.cc

    The development follows the source file top to bottom: the helpers of
    the anonymous namespace, the criterion matchers ([VersionInfo],
    [OsInfo], [StringInfo], [FloatInfo]), the entry ([GpuBlacklistEntry])
    with its parser and its recursive [Contains], and the blacklist itself
    ([GpuBlacklist]) with [LoadGpuBlacklist], [DetermineGpuFeatureType]
    and [GetVersion].

    Conventions.
    - [uint16], [uint32] and [int] values are [Z]; conversions that wrap
      are written out.
    - [std::string] is [string]; [std::vector<T>] is [list T].
    - A [scoped_ptr<T>] or a [T*] that may be NULL is [option T].
    - Code that can run into undefined behaviour (an index past the end of
      a vector, a NULL pointer dereferenced) returns [option]: [None] is
      the fault, [Some r] the result of a run free of it.
    - [DCHECK] and [LOG] have no effect on the results (a release build)
      and are left out. *)

From Stdlib Require Import ZArith List String Ascii Bool Lia.
From Stdlib Require Import Floats.SpecFloat.
From Stdlib Require Import DecimalString.
From Stdlib Require Import Permutation.
Import ListNotations.

Local Open Scope string_scope.
Local Open Scope Z_scope.

(** ** The fault monad *)

Notation "x <- c ;; k" := (match c with Some x => k | None => None end)
  (at level 61, c at next level, right associativity).

(** A function that can also give up early (return NULL, return false)
    has two layers: [None] is the fault, [null] the early return and
    [ok x] the result [x] of a run that went on. *)
Definition ok {A} (x : A) : option (option A) := Some (Some x).
Definition null {A} : option (option A) := Some None.

Notation "' pat <-- c ;; k" :=
  (match c with
   | Some (Some pat) => k
   | Some None => Some None
   | None => None
   end)
  (at level 61, pat pattern, c at next level, right associativity).

(** ** Strings (std::string and base/string_util.h) *)

Module Str.

Definition IsAsciiDigit (c : ascii) : bool :=
  let n := nat_of_ascii c in (48 <=? n)%nat && (n <=? 57)%nat.

Definition ToLowerASCII (c : ascii) : ascii :=
  let n := nat_of_ascii c in
  if (65 <=? n)%nat && (n <=? 90)%nat then ascii_of_nat (n + 32) else c.

Fixpoint StringToLowerASCII (s : string) : string :=
  match s with
  | EmptyString => EmptyString
  | String c s' => String (ToLowerASCII c) (StringToLowerASCII s')
  end.

(** [s.find_first_of(c)]: the index of the first [c], [None] for npos. *)
Fixpoint find_first_of (c : ascii) (s : string) : option nat :=
  match s with
  | EmptyString => None
  | String a s' =>
      if Ascii.eqb a c then Some O
      else match find_first_of c s' with
           | Some i => Some (S i)
           | None => None
           end
  end.

(** [s.find_first_not_of(set)]. *)
Fixpoint find_first_not_of (keep : ascii -> bool) (s : string) : option nat :=
  match s with
  | EmptyString => None
  | String a s' =>
      if keep a
      then match find_first_not_of keep s' with
           | Some i => Some (S i)
           | None => None
           end
      else Some O
  end.

(** [s.substr(0, n)]. *)
Definition substr0 (n : nat) (s : string) : string := substring 0 n s.

(** [s.substr(n)]. *)
Fixpoint drop (n : nat) (s : string) : string :=
  match n, s with
  | O, _ => s
  | S n', String _ s' => drop n' s'
  | S _, EmptyString => EmptyString
  end.

Fixpoint rev_acc (s acc : string) : string :=
  match s with
  | EmptyString => acc
  | String c s' => rev_acc s' (String c acc)
  end.

Definition rev (s : string) : string := rev_acc s EmptyString.

(** Modelled from the spec: base::SplitString is not under src/. The
    string is cut at every occurrence of the separator; a string with
    [n] separators gives [n + 1] pieces. *)
Fixpoint SplitString_acc (sep : ascii) (s : string) (cur : string)
  : list string :=
  match s with
  | EmptyString => [rev cur]
  | String c s' =>
      if Ascii.eqb c sep
      then rev cur :: SplitString_acc sep s' EmptyString
      else SplitString_acc sep s' (String c cur)
  end.

Definition SplitString (s : string) (sep : ascii) : list string :=
  SplitString_acc sep s EmptyString.

(** [s.c_str()] read as a C string: the characters before the first NUL. *)
Fixpoint c_str (s : string) : string :=
  match s with
  | EmptyString => EmptyString
  | String c s' =>
      if Ascii.eqb c zero then EmptyString else String c (c_str s')
  end.

(** [strstr(hay, needle) != NULL]: substring search. *)
Fixpoint strstr (hay needle : string) : bool :=
  prefix needle hay
  || match hay with
     | EmptyString => false
     | String _ hay' => strstr hay' needle
     end.

(** Modelled from the spec: StartsWithASCII and EndsWith of
    base/string_util.h are not under src/; with [case_sensitive] false
    they are the prefix and the suffix test on the lowercased strings. *)
Definition StartsWithASCII (str search : string) : bool :=
  prefix (StringToLowerASCII search) (StringToLowerASCII str).

Definition EndsWith (str search : string) : bool :=
  prefix (rev (StringToLowerASCII search)) (rev (StringToLowerASCII str)).

(** Modelled from the spec: base::UintToString is not under src/; the
    decimal numeral of a non-negative integer. *)
Definition UintToString (n : N) : string :=
  NilZero.string_of_uint (N.to_uint n).

(** The value of a decimal numeral, [None] when a character is not a
    digit or the string is empty. *)
Fixpoint digits_value (s : string) (acc : Z) : option Z :=
  match s with
  | EmptyString => Some acc
  | String c s' =>
      if IsAsciiDigit c
      then digits_value s' (10 * acc + Z.of_nat (nat_of_ascii c - 48))
      else None
  end.

Definition DecimalToInt (s : string) : option Z :=
  match s with
  | EmptyString => None
  | _ => digits_value s 0
  end.

Definition hex_digit (c : ascii) : option Z :=
  let n := nat_of_ascii c in
  if (48 <=? n)%nat && (n <=? 57)%nat then Some (Z.of_nat (n - 48))
  else if (97 <=? n)%nat && (n <=? 102)%nat then Some (Z.of_nat (n - 87))
  else if (65 <=? n)%nat && (n <=? 70)%nat then Some (Z.of_nat (n - 55))
  else None.

Fixpoint hex_value (s : string) (acc : Z) : option Z :=
  match s with
  | EmptyString => Some acc
  | String c s' =>
      match hex_digit c with
      | Some d => hex_value s' (16 * acc + d)
      | None => None
      end
  end.

(** Modelled from the spec: base::HexStringToInt is not under src/. A
    hexadecimal numeral with an optional [0x] prefix whose value fits the
    32 bits of the ids (the spec types them u32); the [int] written is
    the one with that bit pattern, negative from [0x80000000] on. *)
Definition HexStringToInt (s : string) : option Z :=
  let body :=
    match s with
    | String "0" (String ("x" | "X") rest) => rest
    | _ => s
    end in
  match body with
  | EmptyString => None
  | _ => match hex_value body 0 with
         | Some v =>
             if v <=? 2147483647 then Some v
             else if v <=? 4294967295 then Some (v - 4294967296)
             else None
         | None => None
         end
  end.

End Str.

(** ** base::Version *)

Module Version.

(** A version is its vector of [uint16] components. *)
Record t := Build { components : list N }.

Fixpoint parse_components (pieces : list string) : option (list N) :=
  match pieces with
  | [] => Some []
  | p :: rest =>
      match Str.DecimalToInt p with
      | Some n =>
          if n <=? 65535
          then match parse_components rest with
               | Some ns => Some (Z.to_N n :: ns)
               | None => None
               end
          else None
      | None => None
      end
  end.

(** Modelled from the spec: Version::GetVersionFromString (base/version.h)
    is not under src/. A dotted numeric string is parsed into its list of
    16-bit components; anything else gives NULL. *)
Definition GetVersionFromString (s : string) : option t :=
  match parse_components (Str.SplitString s "."%char) with
  | Some ns => Some (Build ns)
  | None => None
  end.

Definition any_positive (l : list N) : bool :=
  existsb (fun x => (0 <? x)%N) l.

Fixpoint compare_components (a b : list N) : Z :=
  match a, b with
  | [], _ => if any_positive b then -1 else 0
  | _, [] => if any_positive a then 1 else 0
  | x :: a', y :: b' =>
      if (y <? x)%N then 1
      else if (x <? y)%N then -1
      else compare_components a' b'
  end.

(** Modelled from the spec: Version::CompareTo (base/version.h) is not
    under src/. The component-wise lexicographic integer comparison of the
    two versions, [-1], [0] or [1]; where one version is shorter its
    missing components count as zero. *)
Definition CompareTo (v other : t) : Z :=
  compare_components (components v) (components other).

End Version.

(** ** The platform

    What the translation unit takes from its build and its run-time
    environment. Nothing is assumed about any of it: every theorem below
    holds for all platforms. *)

Definition float := spec_float.

Inductive OsType :=
  kOsWin | kOsMacosx | kOsLinux | kOsChromeOS | kOsAny | kOsUnknown.

Inductive VersionStyle :=
  kVersionStyleNumerical | kVersionStyleLexical | kVersionStyleUnknown.

Class Platform := {
  (** [base::StringToDouble]: the parsed [double], [None] when it fails. *)
  StringToDouble : string -> option float;
  (** [static_cast<float>] of a [double]. *)
  static_cast_float : float -> float;
  (** What a [VersionInfo]'s [version_style_] holds when the constructor
      returns before assigning it (the member has no initialiser). *)
  uninitialized_version_style : VersionStyle;
  (** [GpuBlacklist::GetOsType()], fixed by the [OS_*] macros. *)
  GetOsType : OsType;
  (** [base::SysInfo::OperatingSystemVersion()]. *)
  OperatingSystemVersion : string
}.

(** ** The anonymous namespace *)

(** Encode a date as Version, where [0] is year, [1] is month, and [2]
    is day. *)
Definition GetDateFromString (date_string : string) : option Version.t :=
  match Str.SplitString date_string "-"%char with
  | [p0; p1; p2] =>
      Version.GetVersionFromString (p2 ++ "." ++ p0 ++ "." ++ p1)%string
  | _ => None
  end.

(** The loop of [NumericalToLexical] over the characters after the dot:
    [None] when one of them is not a digit. *)
Fixpoint lexical_tail (s : string) : option string :=
  match s with
  | EmptyString => Some EmptyString
  | String c s' =>
      if Str.IsAsciiDigit c
      then match lexical_tail s' with
           | Some t => Some (String "."%char (String c t))
           | None => None
           end
      else None
  end.

Definition NumericalToLexical (numerical : string) : string :=
  match Str.find_first_of "."%char numerical with
  | Some pos =>
      if (pos + 1 <? String.length numerical)%nat
      then match lexical_tail (Str.drop (pos + 1) numerical) with
           | Some t => (Str.substr0 pos numerical ++ t)%string
           | None => numerical
           end
      else numerical
  | None => numerical
  end.

Definition kMultiGpuStyleStringAMDSwitchable := "amd_switchable".
Definition kMultiGpuStyleStringOptimus := "optimus".
Definition kVersionStyleStringNumerical := "numerical".
Definition kVersionStyleStringLexical := "lexical".

(** ** GpuBlacklist::NumericOp *)

Inductive NumericOp :=
  kBetween | kEQ | kLT | kLE | kGT | kGE | kAny | kUnknown.

Definition StringToNumericOp (op : string) : NumericOp :=
  if String.eqb op "=" then kEQ
  else if String.eqb op "<" then kLT
  else if String.eqb op "<=" then kLE
  else if String.eqb op ">" then kGT
  else if String.eqb op ">=" then kGE
  else if String.eqb op "any" then kAny
  else if String.eqb op "between" then kBetween
  else kUnknown.

(** ** GpuBlacklist::VersionInfo *)

Module VersionInfo.

Record t := Build {
  op_ : NumericOp;
  version_style_ : VersionStyle;
  version_ : option Version.t;
  version2_ : option Version.t
}.

Definition StringToVersionStyle (version_style : string) : VersionStyle :=
  if String.eqb version_style ""
     || String.eqb version_style kVersionStyleStringNumerical
  then kVersionStyleNumerical
  else if String.eqb version_style kVersionStyleStringLexical
  then kVersionStyleLexical
  else kVersionStyleUnknown.

Definition is_lexical (s : VersionStyle) : bool :=
  match s with kVersionStyleLexical => true | _ => false end.

(** The constructor. *)
Definition New `{Platform}
    (version_op version_style version_string version_string2 : string) : t :=
  match StringToNumericOp version_op with
  | kUnknown => Build kUnknown uninitialized_version_style None None
  | kAny => Build kAny uninitialized_version_style None None
  | op =>
      let style := StringToVersionStyle version_style in
      let processed_version_string :=
        if is_lexical style then NumericalToLexical version_string
        else version_string in
      let processed_version_string2 :=
        if is_lexical style then NumericalToLexical version_string2
        else version_string2 in
      match Version.GetVersionFromString processed_version_string with
      | None => Build kUnknown style None None
      | Some v =>
          match op with
          | kBetween =>
              match Version.GetVersionFromString processed_version_string2 with
              | None => Build kUnknown style (Some v) None
              | Some v2 => Build kBetween style (Some v) (Some v2)
              end
          | _ => Build op style (Some v) None
          end
      end
  end.

(** The loop of the [kEQ] case, at index [i]; [rest] holds
    [components_reference[i..]], so that its head is
    [components_reference[i]]. [components[i]] is [nth_error], which is
    [None] past the end of the vector. *)
Fixpoint eq_loop (i : nat) (rest components : list N) : option bool :=
  match rest with
  | [] => Some true
  | r :: rest' =>
      if (List.length components <=? i)%nat && negb (r =? 0)%N
      then Some false
      else
        c <- nth_error components i ;;
        if negb (c =? r)%N then Some false
        else eq_loop (S i) rest' components
  end.

Definition Contains (vi : t) (version : Version.t) : option bool :=
  match op_ vi with
  | kUnknown => Some false
  | kAny => Some true
  | kEQ =>
      (* Handles cases where 10.6 is considered as containing 10.6.*. *)
      reference <- version_ vi ;;
      eq_loop 0 (Version.components reference) (Version.components version)
  | op =>
      reference <- version_ vi ;;
      let relation := Version.CompareTo version reference in
      match op with
      | kLT => Some (relation <? 0)
      | kLE => Some (relation <=? 0)
      | kGT => Some (0 <? relation)
      | kGE => Some (0 <=? relation)
      | _ =>
          (* op_ == kBetween *)
          if relation <? 0 then Some false
          else
            reference2 <- version2_ vi ;;
            Some (Version.CompareTo version reference2 <=? 0)
      end
  end.

Definition IsValid (vi : t) : bool :=
  match op_ vi, version_style_ vi with
  | kUnknown, _ => false
  | _, kVersionStyleUnknown => false
  | _, _ => true
  end.

Definition IsLexical (vi : t) : bool := is_lexical (version_style_ vi).

End VersionInfo.

(** ** GpuBlacklist::OsInfo *)

Module OsInfo.

Record t := Build {
  type_ : OsType;
  version_info_ : option VersionInfo.t
}.

Definition StringToOsType (os : string) : OsType :=
  if String.eqb os "win" then kOsWin
  else if String.eqb os "macosx" then kOsMacosx
  else if String.eqb os "linux" then kOsLinux
  else if String.eqb os "chromeos" then kOsChromeOS
  else if String.eqb os "any" then kOsAny
  else kOsUnknown.

Definition OsType_eqb (a b : OsType) : bool :=
  match a, b with
  | kOsWin, kOsWin | kOsMacosx, kOsMacosx | kOsLinux, kOsLinux
  | kOsChromeOS, kOsChromeOS | kOsAny, kOsAny | kOsUnknown, kOsUnknown => true
  | _, _ => false
  end.

(** The constructor. *)
Definition New `{Platform}
    (os version_op version_string version_string2 : string) : t :=
  let type := StringToOsType os in
  match type with
  | kOsUnknown => Build type None
  | _ => Build type
           (Some (VersionInfo.New version_op "" version_string version_string2))
  end.

Definition IsValid (o : t) : option bool :=
  match type_ o with
  | kOsUnknown => Some false
  | _ => vi <- version_info_ o ;; Some (VersionInfo.IsValid vi)
  end.

Definition Contains (o : t) (type : OsType) (version : Version.t)
  : option bool :=
  valid <- IsValid o ;;
  if negb valid then Some false
  else if negb (OsType_eqb (type_ o) type) && negb (OsType_eqb (type_ o) kOsAny)
  then Some false
  else vi <- version_info_ o ;; VersionInfo.Contains vi version.

Definition type (o : t) : OsType := type_ o.

End OsInfo.

(** ** GpuBlacklist::StringInfo *)

Module StringInfo.

Inductive Op := kContains | kBeginWith | kEndWith | kEQ | kUnknown.

Record t := Build {
  op_ : Op;
  value_ : string
}.

Definition StringToOp (string_op : string) : Op :=
  if String.eqb string_op "=" then kEQ
  else if String.eqb string_op "contains" then kContains
  else if String.eqb string_op "beginwith" then kBeginWith
  else if String.eqb string_op "endwith" then kEndWith
  else kUnknown.

(** The constructor. *)
Definition New (string_op string_value : string) : t :=
  Build (StringToOp string_op) (Str.StringToLowerASCII string_value).

Definition Contains (si : t) (value : string) : bool :=
  let my_value := Str.StringToLowerASCII value in
  match op_ si with
  | kContains => Str.strstr (Str.c_str my_value) (Str.c_str (value_ si))
  | kBeginWith => Str.StartsWithASCII my_value (value_ si)
  | kEndWith => Str.EndsWith my_value (value_ si)
  | kEQ => String.eqb (value_ si) my_value
  | kUnknown => false
  end.

Definition IsValid (si : t) : bool :=
  match op_ si with kUnknown => false | _ => true end.

End StringInfo.

(** ** GpuBlacklist::FloatInfo

    A [float] is an IEEE 754 value ([spec_float]); [==], [<] and [<=] are
    [SFeqb], [SFltb] and [SFleb], all false on a NaN. *)

Module FloatInfo.

Record t := Build {
  op_ : NumericOp;
  value_ : float;
  value2_ : float
}.

Definition zero_f : float := S754_zero false.

(** The constructor. *)
Definition New `{Platform} (float_op float_value float_value2 : string) : t :=
  match StringToDouble float_value with
  | None => Build kUnknown zero_f zero_f
  | Some dvalue =>
      let value := static_cast_float dvalue in
      match StringToNumericOp float_op with
      | kBetween =>
          match StringToDouble float_value2 with
          | None => Build kUnknown value zero_f
          | Some dvalue2 => Build kBetween value (static_cast_float dvalue2)
          end
      | op => Build op value zero_f
      end
  end.

Definition Contains (fi : t) (value : float) : bool :=
  match op_ fi with
  | kUnknown => false
  | kAny => true
  | kEQ => SFeqb value (value_ fi)
  | kLT => SFltb value (value_ fi)
  | kLE => SFleb value (value_ fi)
  | kGT => SFltb (value_ fi) value
  | kGE => SFleb (value_ fi) value
  | kBetween =>
      (SFleb (value_ fi) value && SFleb value (value2_ fi))
      || (SFleb (value2_ fi) value && SFleb value (value_ fi))
  end.

Definition IsValid (fi : t) : bool :=
  match op_ fi with kUnknown => false | _ => true end.

End FloatInfo.

(** ** content::GPUInfo, as far as the blacklist reads it *)

Record GPUDevice := {
  vendor_id : Z;
  device_id : Z
}.

Record GpuPerformanceStats := {
  graphics : float;
  gaming : float;
  overall : float
}.

Record GPUInfo := {
  optimus : bool;
  amd_switchable : bool;
  gpu : GPUDevice;
  driver_vendor : string;
  driver_version : string;
  driver_date : string;
  gl_vendor : string;
  gl_renderer : string;
  performance_stats : GpuPerformanceStats
}.

(** ** content::GpuFeatureType *)

Inductive GpuFeatureType :=
  | GPU_FEATURE_TYPE_ACCELERATED_2D_CANVAS
  | GPU_FEATURE_TYPE_ACCELERATED_COMPOSITING
  | GPU_FEATURE_TYPE_WEBGL
  | GPU_FEATURE_TYPE_MULTISAMPLING
  | GPU_FEATURE_TYPE_FLASH3D
  | GPU_FEATURE_TYPE_FLASH_STAGE3D
  | GPU_FEATURE_TYPE_ALL
  | GPU_FEATURE_TYPE_UNKNOWN.

(** Modelled from the spec: the enumerators' values
    (content/public/common/gpu_feature_type.h) are not under src/. One
    bit per feature, [ALL] their union, [UNKNOWN] the empty mask. *)
Definition GpuFeatureType_bits (f : GpuFeatureType) : Z :=
  match f with
  | GPU_FEATURE_TYPE_ACCELERATED_2D_CANVAS => 1
  | GPU_FEATURE_TYPE_ACCELERATED_COMPOSITING => 2
  | GPU_FEATURE_TYPE_WEBGL => 4
  | GPU_FEATURE_TYPE_MULTISAMPLING => 8
  | GPU_FEATURE_TYPE_FLASH3D => 16
  | GPU_FEATURE_TYPE_FLASH_STAGE3D => 32
  | GPU_FEATURE_TYPE_ALL => 63
  | GPU_FEATURE_TYPE_UNKNOWN => 0
  end.

(** Modelled from the spec: gpu_util::StringToGpuFeatureType
    (chrome/browser/gpu_util.cc) is not under src/. A feature name gives
    its flag, any other string [GPU_FEATURE_TYPE_UNKNOWN]. *)
Definition StringToGpuFeatureType (feature_string : string) : GpuFeatureType :=
  if String.eqb feature_string "accelerated_2d_canvas"
  then GPU_FEATURE_TYPE_ACCELERATED_2D_CANVAS
  else if String.eqb feature_string "accelerated_compositing"
  then GPU_FEATURE_TYPE_ACCELERATED_COMPOSITING
  else if String.eqb feature_string "webgl" then GPU_FEATURE_TYPE_WEBGL
  else if String.eqb feature_string "multisampling"
  then GPU_FEATURE_TYPE_MULTISAMPLING
  else if String.eqb feature_string "flash_3d" then GPU_FEATURE_TYPE_FLASH3D
  else if String.eqb feature_string "flash_stage3d"
  then GPU_FEATURE_TYPE_FLASH_STAGE3D
  else if String.eqb feature_string "all" then GPU_FEATURE_TYPE_ALL
  else GPU_FEATURE_TYPE_UNKNOWN.

(** ** base::Value

    The parsed JSON tree the loader consumes. *)

Module Values.

#[warnings="-register-all"]
Inductive Value :=
  | NullValue
  | BooleanValue (b : bool)
  | IntegerValue (i : Z)
  | DoubleValue (d : float)
  | StringValue (s : string)
  | ListValue (l : list Value)
  | DictionaryValue (d : list (string * Value)).

(** A dictionary is its list of bindings; a key is bound at most once
    and [size] is the number of bindings. *)
Definition Dictionary := list (string * Value).

Definition size (d : Dictionary) : nat := List.length d.

Fixpoint Get (d : Dictionary) (key : string) : option Value :=
  match d with
  | [] => None
  | (k, v) :: d' => if String.eqb k key then Some v else Get d' key
  end.

(** Modelled from the spec: the typed accessors of base/values.h are not
    under src/. Each gives the value when the key is bound to a value of
    the asked type and fails otherwise (the out-parameter is then left as
    it was). *)
Definition AsInteger (v : Value) : option Z :=
  match v with IntegerValue i => Some i | _ => None end.
Definition AsBoolean (v : Value) : option bool :=
  match v with BooleanValue b => Some b | _ => None end.
Definition AsString (v : Value) : option string :=
  match v with StringValue s => Some s | _ => None end.
Definition AsList (v : Value) : option (list Value) :=
  match v with ListValue l => Some l | _ => None end.
Definition AsDictionary (v : Value) : option Dictionary :=
  match v with DictionaryValue d => Some d | _ => None end.

Definition GetInteger (d : Dictionary) (key : string) : option Z :=
  match Get d key with Some v => AsInteger v | None => None end.
Definition GetBoolean (d : Dictionary) (key : string) : option bool :=
  match Get d key with Some v => AsBoolean v | None => None end.
Definition GetString (d : Dictionary) (key : string) : option string :=
  match Get d key with Some v => AsString v | None => None end.
Definition GetList (d : Dictionary) (key : string) : option (list Value) :=
  match Get d key with Some v => AsList v | None => None end.
Definition GetDictionary (d : Dictionary) (key : string) : option Dictionary :=
  match Get d key with Some v => AsDictionary v | None => None end.

(** [std::string out = init; d->GetString(key, &out);] *)
Definition GetStringOr (d : Dictionary) (key init : string) : string :=
  match GetString d key with Some s => s | None => init end.

(** [for (i = 0; i < l->GetSize(); ++i) if (!l->GetX(i, &x)) return NULL;]
    collects the elements, or fails at the first that is not of the asked
    type. *)
Fixpoint GetAll {A} (as_x : Value -> option A) (l : list Value)
  : option (list A) :=
  match l with
  | [] => Some []
  | v :: l' =>
      match as_x v with
      | Some x => match GetAll as_x l' with
                  | Some xs => Some (x :: xs)
                  | None => None
                  end
      | None => None
      end
  end.

(** [d->Set(key, v)] for a key without a dot: the binding of [key] is
    replaced, or added when there is none. *)
Fixpoint Set_ (d : Dictionary) (key : string) (v : Value) : Dictionary :=
  match d with
  | [] => [(key, v)]
  | (k, v0) :: d' =>
      if String.eqb k key then (k, v) :: d' else (k, v0) :: Set_ d' key v
  end.

Definition SetString (d : Dictionary) (key s : string) : Dictionary :=
  Set_ d key (StringValue s).

End Values.

(** ** GpuBlacklist::GpuBlacklistEntry *)

Module GpuBlacklistEntry.

Inductive MultiGpuStyle :=
  kMultiGpuStyleOptimus | kMultiGpuStyleAMDSwitchable | kMultiGpuStyleNone.

(** The entry owns its exceptions: a tree. [feature_type_] is the [int]
    holding the union of the blacklisted features' bits. *)
#[warnings="-register-all"]
Inductive t := Build {
  id_ : Z;
  disabled_ : bool;
  description_ : string;
  cr_bugs_ : list Z;
  webkit_bugs_ : list Z;
  os_info_ : option OsInfo.t;
  vendor_id_ : Z;
  device_id_list_ : list Z;
  multi_gpu_style_ : MultiGpuStyle;
  driver_vendor_info_ : option StringInfo.t;
  driver_version_info_ : option VersionInfo.t;
  driver_date_info_ : option VersionInfo.t;
  gl_vendor_info_ : option StringInfo.t;
  gl_renderer_info_ : option StringInfo.t;
  perf_graphics_info_ : option FloatInfo.t;
  perf_gaming_info_ : option FloatInfo.t;
  perf_overall_info_ : option FloatInfo.t;
  feature_type_ : Z;
  exceptions_ : list t;
  contains_unknown_fields_ : bool;
  contains_unknown_features_ : bool
}.

(** The constructor. *)
Definition New : t :=
  Build 0 false "" [] [] None 0 [] kMultiGpuStyleNone None None None None None
        None None None (GpuFeatureType_bits GPU_FEATURE_TYPE_UNKNOWN) []
        false false.

Definition StringToMultiGpuStyle (style : string) : MultiGpuStyle :=
  if String.eqb style kMultiGpuStyleStringOptimus then kMultiGpuStyleOptimus
  else if String.eqb style kMultiGpuStyleStringAMDSwitchable
  then kMultiGpuStyleAMDSwitchable
  else kMultiGpuStyleNone.

(** The loop over [exceptions_] that ends [Contains]; [contains] is the
    call [exceptions_[i]->Contains(os_type, os_version, gpu_info)]. *)
Definition exceptions_loop {A} (contains : A -> option bool)
  : list A -> option bool :=
  fix loop (l : list A) : option bool :=
    match l with
    | [] => Some true
    | x :: l' =>
        hit <- contains x ;;
        if hit then Some false else loop l'
    end.

(** [performance_stats.x == 0.0 || !info->Contains(performance_stats.x)] *)
Definition perf_fails (info : FloatInfo.t) (stat : float) : bool :=
  SFeqb stat FloatInfo.zero_f || negb (FloatInfo.Contains info stat).

Fixpoint Contains (e : t) (os_type : OsType) (os_version : Version.t)
    (gpu_info : GPUInfo) {struct e} : option bool :=
  os_hit <- match os_info_ e with
            | Some os_info => OsInfo.Contains os_info os_type os_version
            | None => Some true
            end ;;
  if negb os_hit then Some false
  else if negb (vendor_id_ e =? 0)
          && negb (vendor_id_ e =? vendor_id (gpu gpu_info))
  then Some false
  else if (0 <? List.length (device_id_list_ e))%nat
          && negb (existsb (fun d => d =? device_id (gpu gpu_info))
                           (device_id_list_ e))
  then Some false
  else if match multi_gpu_style_ e with
          | kMultiGpuStyleOptimus => negb (optimus gpu_info)
          | kMultiGpuStyleAMDSwitchable => negb (amd_switchable gpu_info)
          | kMultiGpuStyleNone => false
          end
  then Some false
  else if match driver_vendor_info_ e with
          | Some info =>
              negb (StringInfo.Contains info (driver_vendor gpu_info))
          | None => false
          end
  then Some false
  else
    driver_version_hit <-
      match driver_version_info_ e with
      | Some info =>
          let processed_driver_version :=
            if VersionInfo.IsLexical info
            then NumericalToLexical (driver_version gpu_info)
            else driver_version gpu_info in
          match Version.GetVersionFromString processed_driver_version with
          | None => Some false
          | Some v => VersionInfo.Contains info v
          end
      | None => Some true
      end ;;
    if negb driver_version_hit then Some false
    else
      driver_date_hit <-
        match driver_date_info_ e with
        | Some info =>
            match GetDateFromString (driver_date gpu_info) with
            | None => Some false
            | Some d => VersionInfo.Contains info d
            end
        | None => Some true
        end ;;
      if negb driver_date_hit then Some false
      else if match gl_vendor_info_ e with
              | Some info =>
                  negb (StringInfo.Contains info (gl_vendor gpu_info))
              | None => false
              end
      then Some false
      else if match gl_renderer_info_ e with
              | Some info =>
                  negb (StringInfo.Contains info (gl_renderer gpu_info))
              | None => false
              end
      then Some false
      else if match perf_graphics_info_ e with
              | Some info =>
                  perf_fails info (graphics (performance_stats gpu_info))
              | None => false
              end
      then Some false
      else if match perf_gaming_info_ e with
              | Some info =>
                  perf_fails info (gaming (performance_stats gpu_info))
              | None => false
              end
      then Some false
      else if match perf_overall_info_ e with
              | Some info =>
                  perf_fails info (overall (performance_stats gpu_info))
              | None => false
              end
      then Some false
      else
        exceptions_loop (fun x => Contains x os_type os_version gpu_info)
                        (exceptions_ e).

(** *** The setters

    A setter of the source writes one member and returns whether the
    value is valid; here it returns the member's new value and that
    flag. *)

Definition SetId (id : Z) : bool := negb (id =? 0).

Definition SetOsInfo `{Platform}
    (os version_op version_string version_string2 : string)
  : option (OsInfo.t * bool) :=
  let os_info := OsInfo.New os version_op version_string version_string2 in
  valid <- OsInfo.IsValid os_info ;;
  Some (os_info, valid).

(** [reinterpret_cast<int*>(&x)] on a [uint32]: the [int] written is read
    back modulo [2^32]. *)
Definition as_uint32 (i : Z) : Z := i mod 2 ^ 32.

Definition SetVendorId (vendor_id_string : string) : Z * bool :=
  match Str.HexStringToInt vendor_id_string with
  | Some v => (as_uint32 v, true)
  | None => (0, false)
  end.

Definition AddDeviceId (device_id_list : list Z) (device_id_string : string)
  : list Z * bool :=
  match Str.HexStringToInt device_id_string with
  | Some v => ((device_id_list ++ [as_uint32 v])%list, true)
  | None => (device_id_list, false)
  end.

Definition SetMultiGpuStyle (multi_gpu_style_string : string)
  : MultiGpuStyle * bool :=
  match StringToMultiGpuStyle multi_gpu_style_string with
  | kMultiGpuStyleNone => (kMultiGpuStyleNone, false)
  | style => (style, true)
  end.

Definition SetStringInfo (op value : string) : StringInfo.t * bool :=
  let info := StringInfo.New op value in (info, StringInfo.IsValid info).

Definition SetDriverVendorInfo := SetStringInfo.
Definition SetGLVendorInfo := SetStringInfo.
Definition SetGLRendererInfo := SetStringInfo.

Definition SetDriverVersionInfo `{Platform}
    (version_op version_style version_string version_string2 : string)
  : VersionInfo.t * bool :=
  let info :=
    VersionInfo.New version_op version_style version_string version_string2 in
  (info, VersionInfo.IsValid info).

Definition SetDriverDateInfo `{Platform}
    (date_op date_string date_string2 : string) : VersionInfo.t * bool :=
  let info := VersionInfo.New date_op "" date_string date_string2 in
  (info, VersionInfo.IsValid info).

Definition SetFloatInfo `{Platform} (op float_string float_string2 : string)
  : FloatInfo.t * bool :=
  let info := FloatInfo.New op float_string float_string2 in
  (info, FloatInfo.IsValid info).

Definition SetPerfGraphicsInfo `{Platform} := SetFloatInfo.
Definition SetPerfGamingInfo `{Platform} := SetFloatInfo.
Definition SetPerfOverallInfo `{Platform} := SetFloatInfo.

(** One turn of the loop of [SetBlacklistedFeatures], on the pair of
    [feature_type] and [contains_unknown_features_]. *)
Definition add_feature (acc : Z * bool) (feature : string) : Z * bool :=
  match StringToGpuFeatureType feature with
  | GPU_FEATURE_TYPE_UNKNOWN => (fst acc, true)
  | type => (Z.lor (fst acc) (GpuFeatureType_bits type), snd acc)
  end.

(** [None] when the setter returns false, otherwise [feature_type_] and
    [contains_unknown_features_]. *)
Definition SetBlacklistedFeatures (blacklisted_features : list string)
  : option (Z * bool) :=
  match blacklisted_features with
  | [] => None
  | _ =>
      Some (fold_left add_feature blacklisted_features
                      (GpuFeatureType_bits GPU_FEATURE_TYPE_UNKNOWN, false))
  end.

(** *** GetGpuBlacklistEntryFromValue

    The function reads the dictionary key by key. Each block of the
    source is a reader below; a reader gives

    - [ok (x, n)]: the members [x] it wrote and the number [n] it added
      to [dictionary_entry_count];
    - [null]: the function returns NULL here;
    - [None]: a fault. *)

Import Values.

Definition read_id (value : Dictionary) (top_level : bool)
  : option (option (Z * bool * nat)) :=
  if top_level then
    match GetInteger value "id" with
    | None => null
    | Some i =>
        let id := as_uint32 i in
        if negb (SetId id) then null
        else match GetBoolean value "disabled" with
             | Some disabled => ok (id, disabled, 2%nat)
             | None => ok (id, false, 1%nat)
             end
    end
  else ok (0, false, 0%nat).

Definition read_description (value : Dictionary)
  : option (option (string * nat)) :=
  match GetString value "description" with
  | Some description => ok (description, 1%nat)
  | None => ok ("The GPU is unavailable for an unexplained reason.", 0%nat)
  end.

(** [cr_bugs] and [webkit_bugs]. *)
Definition read_bugs (value : Dictionary) (key : string)
  : option (option (list Z * nat)) :=
  match GetList value key with
  | Some bugs =>
      match GetAll AsInteger bugs with
      | Some ids => ok (ids, 1%nat)
      | None => null
      end
  | None => ok ([], 0%nat)
  end.

Definition read_os `{Platform} (value : Dictionary)
  : option (option (option OsInfo.t * nat)) :=
  match GetDictionary value "os" with
  | Some os_value =>
      let os_type := GetStringOr os_value "type" "" in
      let '(os_version_op, os_version_string, os_version_string2) :=
        match GetDictionary os_value "version" with
        | Some os_version_value =>
            (GetStringOr os_version_value "op" "any",
             GetStringOr os_version_value "number" "",
             GetStringOr os_version_value "number2" "")
        | None => ("any", "", "")
        end in
      set_os <- SetOsInfo os_type os_version_op os_version_string
                          os_version_string2 ;;
      if negb (snd set_os) then null
      else ok (Some (fst set_os), 1%nat)
  | None => ok (None, 0%nat)
  end.

Definition read_vendor_id (value : Dictionary) : option (option (Z * nat)) :=
  match GetString value "vendor_id" with
  | Some vendor_id =>
      let set_vendor := SetVendorId vendor_id in
      if negb (snd set_vendor) then null
      else ok (fst set_vendor, 1%nat)
  | None => ok (0, 0%nat)
  end.

(** The loop over [device_id_list]. *)
Fixpoint add_device_ids (device_id_list : list Z) (l : list Value)
  : option (list Z) :=
  match l with
  | [] => Some device_id_list
  | v :: l' =>
      match AsString v with
      | Some device_id =>
          let added := AddDeviceId device_id_list device_id in
          if snd added then add_device_ids (fst added) l' else None
      | None => None
      end
  end.

Definition read_device_id (value : Dictionary)
  : option (option (list Z * nat)) :=
  match GetList value "device_id" with
  | Some device_id_list =>
      match add_device_ids [] device_id_list with
      | Some ids => ok (ids, 1%nat)
      | None => null
      end
  | None => ok ([], 0%nat)
  end.

Definition read_multi_gpu_style (value : Dictionary)
  : option (option (MultiGpuStyle * nat)) :=
  match GetString value "multi_gpu_style" with
  | Some multi_gpu_style =>
      let set_style := SetMultiGpuStyle multi_gpu_style in
      if negb (snd set_style) then null
      else ok (fst set_style, 1%nat)
  | None => ok (kMultiGpuStyleNone, 0%nat)
  end.

(** [driver_vendor], [gl_vendor] and [gl_renderer]. *)
Definition read_string_info (value : Dictionary) (key : string)
  : option (option (option StringInfo.t * nat)) :=
  match GetDictionary value key with
  | Some info_value =>
      let op := GetStringOr info_value "op" "" in
      let string_value := GetStringOr info_value "value" "" in
      let set_info := SetStringInfo op string_value in
      if negb (snd set_info) then null
      else ok (Some (fst set_info), 1%nat)
  | None => ok (None, 0%nat)
  end.

Definition read_driver_version `{Platform} (value : Dictionary)
  : option (option (option VersionInfo.t * nat)) :=
  match GetDictionary value "driver_version" with
  | Some driver_version_value =>
      let driver_version_op := GetStringOr driver_version_value "op" "any" in
      let driver_version_style :=
        GetStringOr driver_version_value "style" "" in
      let driver_version_string :=
        GetStringOr driver_version_value "number" "" in
      let driver_version_string2 :=
        GetStringOr driver_version_value "number2" "" in
      let set_info :=
        SetDriverVersionInfo driver_version_op driver_version_style
                             driver_version_string driver_version_string2 in
      if negb (snd set_info) then null
      else ok (Some (fst set_info), 1%nat)
  | None => ok (None, 0%nat)
  end.

Definition read_driver_date `{Platform} (value : Dictionary)
  : option (option (option VersionInfo.t * nat)) :=
  match GetDictionary value "driver_date" with
  | Some driver_date_value =>
      let driver_date_op := GetStringOr driver_date_value "op" "any" in
      let driver_date_string := GetStringOr driver_date_value "number" "" in
      let driver_date_string2 := GetStringOr driver_date_value "number2" "" in
      let set_info :=
        SetDriverDateInfo driver_date_op driver_date_string
                          driver_date_string2 in
      if negb (snd set_info) then null
      else ok (Some (fst set_info), 1%nat)
  | None => ok (None, 0%nat)
  end.

(** [perf_graphics], [perf_gaming] and [perf_overall]. *)
Definition read_float_info `{Platform} (value : Dictionary) (key : string)
  : option (option (option FloatInfo.t * nat)) :=
  match GetDictionary value key with
  | Some perf_value =>
      let op := GetStringOr perf_value "op" "" in
      let float_value := GetStringOr perf_value "value" "" in
      let float_value2 := GetStringOr perf_value "value2" "" in
      let set_info := SetFloatInfo op float_value float_value2 in
      if negb (snd set_info) then null
      else ok (Some (fst set_info), 1%nat)
  | None => ok (None, 0%nat)
  end.

(** Gives [feature_type_] and [contains_unknown_features_]. *)
Definition read_blacklist (value : Dictionary) (top_level : bool)
  : option (option (Z * bool * nat)) :=
  if top_level then
    match GetList value "blacklist" with
    | None => null
    | Some blacklist_value =>
        match GetAll AsString blacklist_value with
        | None => null
        | Some blacklist =>
            match SetBlacklistedFeatures blacklist with
            | None => null
            | Some (feature_type, unknown_features) =>
                ok (feature_type, unknown_features, 1%nat)
            end
        end
    end
  else ok (GpuFeatureType_bits GPU_FEATURE_TYPE_UNKNOWN, false, 0%nat).

(** The loop over [exception_list_value], on the pair of [exceptions_]
    and [contains_unknown_fields_]; [recur] is the recursive call
    [GetGpuBlacklistEntryFromValue(exception_value, false)]. *)
Fixpoint add_exceptions (recur : Dictionary -> option (option t))
    (exceptions : list t) (unknown_fields : bool) (l : list Value)
  : option (option (list t * bool)) :=
  match l with
  | [] => ok (exceptions, unknown_fields)
  | v :: l' =>
      match AsDictionary v with
      | None => null
      | Some exception_value =>
          ' exception <-- recur exception_value ;;
          if contains_unknown_fields_ exception
          then add_exceptions recur exceptions true l'
          else add_exceptions recur (exceptions ++ [exception])%list
                              unknown_fields l'
      end
  end.

Definition read_exceptions (recur : Dictionary -> option (option t))
    (value : Dictionary) (top_level : bool)
  : option (option (list t * bool * nat)) :=
  if top_level then
    match GetList value "exceptions" with
    | Some exception_list_value =>
        ' (exceptions, unknown_fields) <--
          add_exceptions recur [] false exception_list_value ;;
        ok (exceptions, unknown_fields, 1%nat)
    | None => ok ([], false, 0%nat)
    end
  else ok ([], false, 0%nat).

(** [browser_version] is processed in [LoadGpuBlacklist]; here it is only
    counted. *)
Definition read_browser_version (value : Dictionary) (top_level : bool) : nat :=
  if top_level then
    match GetDictionary value "browser_version" with
    | Some _ => 1%nat
    | None => 0%nat
    end
  else 0%nat.

Definition FromValue `{Platform} (recur : Dictionary -> option (option t))
    (value : Dictionary) (top_level : bool) : option (option t) :=
  ' (id, disabled, n_id) <-- read_id value top_level ;;
  ' (description, n_description) <-- read_description value ;;
  ' (cr_bugs, n_cr_bugs) <-- read_bugs value "cr_bugs" ;;
  ' (webkit_bugs, n_webkit_bugs) <-- read_bugs value "webkit_bugs" ;;
  ' (os_info, n_os) <-- read_os value ;;
  ' (vendor_id, n_vendor_id) <-- read_vendor_id value ;;
  ' (device_id_list, n_device_id) <-- read_device_id value ;;
  ' (multi_gpu_style, n_multi_gpu_style) <-- read_multi_gpu_style value ;;
  ' (driver_vendor_info, n_driver_vendor) <--
    read_string_info value "driver_vendor" ;;
  ' (driver_version_info, n_driver_version) <-- read_driver_version value ;;
  ' (driver_date_info, n_driver_date) <-- read_driver_date value ;;
  ' (gl_vendor_info, n_gl_vendor) <-- read_string_info value "gl_vendor" ;;
  ' (gl_renderer_info, n_gl_renderer) <--
    read_string_info value "gl_renderer" ;;
  ' (perf_graphics_info, n_perf_graphics) <--
    read_float_info value "perf_graphics" ;;
  ' (perf_gaming_info, n_perf_gaming) <--
    read_float_info value "perf_gaming" ;;
  ' (perf_overall_info, n_perf_overall) <--
    read_float_info value "perf_overall" ;;
  ' (feature_type, unknown_features, n_blacklist) <--
    read_blacklist value top_level ;;
  ' (exceptions, unknown_fields, n_exceptions) <--
    read_exceptions recur value top_level ;;
  let dictionary_entry_count :=
    (n_id + n_description + n_cr_bugs + n_webkit_bugs + n_os + n_vendor_id
     + n_device_id + n_multi_gpu_style + n_driver_vendor + n_driver_version
     + n_driver_date + n_gl_vendor + n_gl_renderer + n_perf_graphics
     + n_perf_gaming + n_perf_overall + n_blacklist + n_exceptions
     + read_browser_version value top_level)%nat in
  ok (Build id disabled description cr_bugs webkit_bugs os_info vendor_id
            device_id_list multi_gpu_style driver_vendor_info
            driver_version_info driver_date_info gl_vendor_info
            gl_renderer_info perf_graphics_info perf_gaming_info
            perf_overall_info feature_type exceptions
            (unknown_fields
             || negb (size value =? dictionary_entry_count)%nat)
            unknown_features).

(** The recursion of the source is one level deep: only a top-level entry
    reads [exceptions], and an exception is read with [top_level] false. *)
Definition GetGpuBlacklistEntryFromValue `{Platform}
    (value : Dictionary) (top_level : bool) : option (option t) :=
  FromValue (fun exception_value =>
               FromValue (fun _ => null) exception_value false)
            value top_level.

Definition GetOsType (e : t) : OsType :=
  match os_info_ e with
  | None => kOsAny
  | Some os_info => OsInfo.type os_info
  end.

Definition id (e : t) : Z := id_ e.
Definition disabled (e : t) : bool := disabled_ e.
Definition contains_unknown_fields (e : t) : bool := contains_unknown_fields_ e.
Definition contains_unknown_features (e : t) : bool :=
  contains_unknown_features_ e.
Definition GetGpuFeatureType (e : t) : Z := feature_type_ e.

End GpuBlacklistEntry.

(** ** GpuBlacklist *)

Module GpuBlacklist.

Import Values.

Inductive OsFilter := kCurrentOsOnly | kAllOs.

Inductive BrowserVersionSupport := kSupported | kUnsupported | kMalformed.

(** The members of the blacklist object. [active_entries_] shares its
    entries with [blacklist_]; entries are never written after they are
    built, so both hold them by value here. *)
Record t := Build {
  version_ : option Version.t;
  browser_version_ : option Version.t;
  blacklist_ : list GpuBlacklistEntry.t;
  active_entries_ : list GpuBlacklistEntry.t;
  max_entry_id_ : Z;
  contains_unknown_fields_ : bool
}.

(** The state the constructor leaves. *)
Definition New : t := Build None None [] [] 0 false.

Definition Clear (b : t) : t :=
  Build (version_ b) (browser_version_ b) [] [] 0 false.

Definition set_version (b : t) (v : option Version.t) : t :=
  Build v (browser_version_ b) (blacklist_ b) (active_entries_ b)
        (max_entry_id_ b) (contains_unknown_fields_ b).

Definition set_active_entries (b : t) (l : list GpuBlacklistEntry.t) : t :=
  Build (version_ b) (browser_version_ b) (blacklist_ b) l
        (max_entry_id_ b) (contains_unknown_fields_ b).

Section WithPlatform.

Context `{Platform}.

Definition IsEntrySupportedByCurrentBrowserVersion (b : t)
    (value : Dictionary) : option BrowserVersionSupport :=
  match GetDictionary value "browser_version" with
  | Some browser_version_value =>
      let version_op := GetStringOr browser_version_value "op" "any" in
      let version_string := GetStringOr browser_version_value "number" "" in
      let version_string2 := GetStringOr browser_version_value "number2" "" in
      let browser_version_info :=
        VersionInfo.New version_op "" version_string version_string2 in
      if negb (VersionInfo.IsValid browser_version_info) then Some kMalformed
      else
        browser_version <- browser_version_ b ;;
        hit <- VersionInfo.Contains browser_version_info browser_version ;;
        Some (if hit then kSupported else kUnsupported)
  | None => Some kSupported
  end.

(** The first loop of [LoadGpuBlacklist], on its three locals [entries],
    [max_entry_id] and [contains_unknown_fields]. [Some None] is
    [return false]. *)
Fixpoint load_entries (b : t) (list_value : list Value)
    (entries : list GpuBlacklistEntry.t) (max_entry_id : Z)
    (contains_unknown_fields : bool)
  : option (option (list GpuBlacklistEntry.t * Z * bool)) :=
  match list_value with
  | [] => ok (entries, max_entry_id, contains_unknown_fields)
  | v :: list' =>
      match AsDictionary v with
      | None => null
      | Some list_item =>
          (* Check browser version compatibility: if the entry is not for
             the current browser version, don't process it. *)
          browser_version_support <-
            IsEntrySupportedByCurrentBrowserVersion b list_item ;;
          match browser_version_support with
          | kMalformed => null
          | kUnsupported =>
              load_entries b list' entries max_entry_id contains_unknown_fields
          | kSupported =>
              ' entry <--
                GpuBlacklistEntry.GetGpuBlacklistEntryFromValue
                  list_item true ;;
              let max_entry_id :=
                if max_entry_id <? GpuBlacklistEntry.id entry
                then GpuBlacklistEntry.id entry else max_entry_id in
              (* If an unknown field is encountered, skip the entry; if an
                 unknown feature is encountered, ignore the feature, but
                 keep the entry. *)
              if GpuBlacklistEntry.contains_unknown_fields entry
              then load_entries b list' entries max_entry_id true
              else
                load_entries b list' (entries ++ [entry])%list max_entry_id
                  (contains_unknown_fields
                   || GpuBlacklistEntry.contains_unknown_features entry)
          end
      end
  end.

(** The test of the second loop of [LoadGpuBlacklist]. *)
Definition os_filter_keeps (os_filter : OsFilter) (my_os : OsType)
    (entry : GpuBlacklistEntry.t) : bool :=
  let entry_os := GpuBlacklistEntry.GetOsType entry in
  match os_filter with
  | kAllOs => true
  | kCurrentOsOnly =>
      OsInfo.OsType_eqb entry_os kOsAny || OsInfo.OsType_eqb entry_os my_os
  end.

(** [LoadGpuBlacklist(const DictionaryValue&, OsFilter)]: the returned
    [bool] and the object afterwards. *)
Definition LoadGpuBlacklist (b : t) (parsed_json : Dictionary)
    (os_filter : OsFilter) : option (bool * t) :=
  let version_string := GetStringOr parsed_json "version" "" in
  let b := set_version b (Version.GetVersionFromString version_string) in
  match version_ b with
  | None => Some (false, b)
  | Some _ =>
      match GetList parsed_json "entries" with
      | None => Some (false, b)
      | Some list_value =>
          match load_entries b list_value [] 0 false with
          | None => None
          | Some None => Some (false, b)
          | Some (Some (entries, max_entry_id, contains_unknown_fields)) =>
              let b := Clear b in
              let my_os := GetOsType in
              Some (true,
                    Build (version_ b) (browser_version_ b)
                          (filter (os_filter_keeps os_filter my_os) entries)
                          (active_entries_ b)
                          max_entry_id contains_unknown_fields)
          end
      end
  end.

(** The loop of [DetermineGpuFeatureType], on [type] and
    [active_entries_]; [os_version] is the pointer, dereferenced at every
    call of [Contains]. *)
Fixpoint determine_loop (blacklist : list GpuBlacklistEntry.t) (os : OsType)
    (os_version : option Version.t) (gpu_info : GPUInfo)
    (type : Z) (active_entries : list GpuBlacklistEntry.t)
  : option (Z * list GpuBlacklistEntry.t) :=
  match blacklist with
  | [] => Some (type, active_entries)
  | entry :: blacklist' =>
      version <- os_version ;;
      hit <- GpuBlacklistEntry.Contains entry os version gpu_info ;;
      if hit
      then determine_loop blacklist' os os_version gpu_info
             (if negb (GpuBlacklistEntry.disabled entry)
              then Z.lor type (GpuBlacklistEntry.GetGpuFeatureType entry)
              else type)
             (active_entries ++ [entry])%list
      else determine_loop blacklist' os os_version gpu_info type active_entries
  end.

Definition is_version_char (c : ascii) : bool :=
  Str.IsAsciiDigit c || Ascii.eqb c "."%char.

(** [if (os == kOsAny) os = GetOsType();] *)
Definition effective_os (os : OsType) : OsType :=
  if OsInfo.OsType_eqb os kOsAny then GetOsType else os.

(** [os_version] after the block that replaces a NULL argument by the
    version of the running system (NULL again when that does not parse). *)
Definition effective_os_version (os_version : option Version.t)
  : option Version.t :=
  match os_version with
  | Some v => Some v
  | None =>
      let version_string := OperatingSystemVersion in
      let version_string :=
        match Str.find_first_not_of is_version_char version_string with
        | Some pos => Str.substr0 pos version_string
        | None => version_string
        end in
      Version.GetVersionFromString version_string
  end.

(** The returned feature mask and the object afterwards. *)
Definition DetermineGpuFeatureType (b : t) (os : OsType)
    (os_version : option Version.t) (gpu_info : GPUInfo) : option (Z * t) :=
  let os := effective_os os in
  let os_version := effective_os_version os_version in
  result <- determine_loop (blacklist_ b) os os_version gpu_info 0 [] ;;
  Some (fst result, set_active_entries b (snd result)).

End WithPlatform.

Definition GetGpuFeatureTypeEntries (b : t) (feature : Z) (disabled : bool)
  : list Z :=
  map GpuBlacklistEntry.id
      (filter (fun e =>
                 negb (Z.land feature (GpuBlacklistEntry.GetGpuFeatureType e)
                       =? 0)
                 && Bool.eqb disabled (GpuBlacklistEntry.disabled e))
              (active_entries_ b)).

(** The dictionary [GetBlacklistReasons] builds for an entry. *)
Definition problem_of (entry : GpuBlacklistEntry.t) : Value :=
  let problem := SetString [] "description"
                           (GpuBlacklistEntry.description_ entry) in
  let cr_bugs := map IntegerValue (GpuBlacklistEntry.cr_bugs_ entry) in
  let problem := Set_ problem "crBugs" (ListValue cr_bugs) in
  let webkit_bugs := map IntegerValue (GpuBlacklistEntry.webkit_bugs_ entry) in
  let problem := Set_ problem "webkitBugs" (ListValue webkit_bugs) in
  DictionaryValue problem.

(** The loop of [GetBlacklistReasons], on the elements of
    [problem_list]. *)
Fixpoint reasons_loop (active_entries : list GpuBlacklistEntry.t)
    (problem_list : list Value) : list Value :=
  match active_entries with
  | [] => problem_list
  | entry :: active_entries' =>
      if GpuBlacklistEntry.disabled entry
      then reasons_loop active_entries' problem_list
      else reasons_loop active_entries'
                        (problem_list ++ [problem_of entry])%list
  end.

(** The elements of [problem_list] afterwards. *)
Definition GetBlacklistReasons (b : t) (problem_list : list Value)
  : list Value :=
  reasons_loop (active_entries_ b) problem_list.

Definition set_browser_version (b : t) (v : option Version.t) : t :=
  Build (version_ b) v (blacklist_ b) (active_entries_ b)
        (max_entry_id_ b) (contains_unknown_fields_ b).

Section Overloads.

Context `{Platform}.

(** [base::JSONReader::Read]: the parsed value, [None] for NULL. *)
Variable JSONReader_Read : string -> option Value.

(** [LoadGpuBlacklist(browser_version_string, json_context, os_filter)] *)
Definition LoadGpuBlacklist_json (b : t)
    (browser_version_string json_context : string) (os_filter : OsFilter)
  : option (bool * t) :=
  let b :=
    set_browser_version b
      (Version.GetVersionFromString browser_version_string) in
  match JSONReader_Read json_context with
  | Some (DictionaryValue root_dictionary) =>
      LoadGpuBlacklist b root_dictionary os_filter
  | _ => Some (false, b)
  end.

(** [chrome::VersionInfo]: [is_valid()] and [Version()]. *)
Variable chrome_version_info_is_valid : bool.
Variable chrome_version_info_Version : string.

(** [LoadGpuBlacklist(json_context, os_filter)] *)
Definition LoadGpuBlacklist_current (b : t) (json_context : string)
    (os_filter : OsFilter) : option (bool * t) :=
  let chrome_version_string :=
    if chrome_version_info_is_valid then chrome_version_info_Version
    else "0" in
  LoadGpuBlacklist_json b chrome_version_string json_context os_filter.

End Overloads.

Definition num_entries (b : t) : nat := List.length (blacklist_ b).

Definition max_entry_id (b : t) : Z := max_entry_id_ b.

Definition GetVersion (b : t) : string :=
  match version_ b with
  | None => ""
  | Some version =>
      match Version.components version with
      | [major; minor] =>
          (Str.UintToString major ++ "." ++ Str.UintToString minor)%string
      | _ => ""
      end
  end.

End GpuBlacklist.

(** ** The vocabulary of the properties

    The interval of the float Between is stated with [min] and [max]; on
    floats they are the minimum and the maximum of IEEE 754, a NaN when
    either argument is one. *)

Definition is_nan (f : float) : bool :=
  match f with S754_nan => true | _ => false end.

Definition SFmin (a b : float) : float :=
  if is_nan a || is_nan b then S754_nan
  else if SFltb b a then b else a.

Definition SFmax (a b : float) : float :=
  if is_nan a || is_nan b then S754_nan
  else if SFltb a b then b else a.

(** [v] lies in the closed interval from [lo] to [hi]. *)
Definition in_interval (lo hi v : float) : bool := SFleb lo v && SFleb v hi.

(** The entry with its exceptions taken away: its [Contains] is the
    entry's own criteria. *)
Definition criteria_only (e : GpuBlacklistEntry.t) : GpuBlacklistEntry.t :=
  let (id, disabled, description, cr_bugs, webkit_bugs, os_info, vendor_id,
       device_id_list, multi_gpu_style, driver_vendor_info,
       driver_version_info, driver_date_info, gl_vendor_info,
       gl_renderer_info, perf_graphics_info, perf_gaming_info,
       perf_overall_info, feature_type, _, unknown_fields,
       unknown_features) := e in
  GpuBlacklistEntry.Build id disabled description cr_bugs webkit_bugs os_info
    vendor_id device_id_list multi_gpu_style driver_vendor_info
    driver_version_info driver_date_info gl_vendor_info gl_renderer_info
    perf_graphics_info perf_gaming_info perf_overall_info feature_type []
    unknown_fields unknown_features.

(** The entry with its performance criteria and its exceptions taken
    away: its [Contains] is the checks that come before them. *)
Definition before_perf (e : GpuBlacklistEntry.t) : GpuBlacklistEntry.t :=
  let (id, disabled, description, cr_bugs, webkit_bugs, os_info, vendor_id,
       device_id_list, multi_gpu_style, driver_vendor_info,
       driver_version_info, driver_date_info, gl_vendor_info,
       gl_renderer_info, _, _, _, feature_type, _, unknown_fields,
       unknown_features) := e in
  GpuBlacklistEntry.Build id disabled description cr_bugs webkit_bugs os_info
    vendor_id device_id_list multi_gpu_style driver_vendor_info
    driver_version_info driver_date_info gl_vendor_info gl_renderer_info
    None None None feature_type [] unknown_fields unknown_features.


Definition enabled (e : GpuBlacklistEntry.t) : bool :=
  negb (GpuBlacklistEntry.disabled e).

(** The bitwise OR of the feature masks of the entries, onto [type]. *)
Definition or_features (type : Z) (entries : list GpuBlacklistEntry.t) : Z :=
  fold_left (fun acc e => Z.lor acc (GpuBlacklistEntry.GetGpuFeatureType e))
            entries type.





Definition is_some {A} (o : option A) : bool :=
  match o with Some _ => true | None => false end.

(** *** A criterion that the input gets wrong

    What follows reads the strings of the entry only: the names the
    operators, styles and systems may have, and whether a number parses.
    It does not ask the parser. *)

Definition one_of (names : list string) (s : string) : bool :=
  existsb (String.eqb s) names.

Definition numeric_ops : list string :=
  ["="; "<"; "<="; ">"; ">="; "any"; "between"]%string.

Definition string_ops : list string :=
  ["="; "contains"; "beginwith"; "endwith"]%string.

Definition os_types : list string :=
  ["win"; "macosx"; "linux"; "chromeos"; "any"]%string.

Definition version_styles : list string :=
  [""; "numerical"; "lexical"]%string.

Definition multi_gpu_styles : list string :=
  ["optimus"; "amd_switchable"]%string.

(** The number is no version; under the lexical style it is the number
    with its digits split that has to be one. *)
Definition unparsable_version (style number : string) : bool :=
  negb (is_some (Version.GetVersionFromString
                   (if String.eqb style "lexical"
                    then NumericalToLexical number else number))).

(** A version block: the operator or the style is not a known name, or a
    number that the operator compares with is no version ("any" compares
    with none, "between" with both). *)
Definition bad_version_block (op style number number2 : string) : bool :=
  negb (one_of numeric_ops op)
  || (negb (String.eqb op "any")
      && (negb (one_of version_styles style)
          || unparsable_version style number
          || (String.eqb op "between" && unparsable_version style number2))).

(** A float block: the value is no number (whatever the operator), the
    operator is not a known name, or the second value of "between" is no
    number. *)
Definition bad_float_block `{Platform} (op value value2 : string) : bool :=
  negb (is_some (StringToDouble value))
  || negb (one_of numeric_ops op)
  || (String.eqb op "between" && negb (is_some (StringToDouble value2))).

(** The [os] block names no known system, or its version block is bad. *)
Definition bad_os (value : Values.Dictionary) : bool :=
  match Values.GetDictionary value "os" with
  | Some os_value =>
      negb (one_of os_types (Values.GetStringOr os_value "type" ""))
      || match Values.GetDictionary os_value "version" with
         | Some version_value =>
             bad_version_block (Values.GetStringOr version_value "op" "any")
                               ""
                               (Values.GetStringOr version_value "number" "")
                               (Values.GetStringOr version_value "number2" "")
         | None => false
         end
  | None => false
  end.

Definition bad_hex_id (v : Values.Value) : bool :=
  match Values.AsString v with
  | Some id => negb (is_some (Str.HexStringToInt id))
  | None => true
  end.

Definition bad_vendor_id (value : Values.Dictionary) : bool :=
  match Values.GetString value "vendor_id" with
  | Some id => negb (is_some (Str.HexStringToInt id))
  | None => false
  end.

(** One element of the [device_id] list is no string or no hex id. *)
Definition bad_device_id (value : Values.Dictionary) : bool :=
  match Values.GetList value "device_id" with
  | Some ids => existsb bad_hex_id ids
  | None => false
  end.

Definition bad_multi_gpu_style (value : Values.Dictionary) : bool :=
  match Values.GetString value "multi_gpu_style" with
  | Some style => negb (one_of multi_gpu_styles style)
  | None => false
  end.

(** [driver_vendor], [gl_vendor] and [gl_renderer]. *)
Definition bad_string_block (value : Values.Dictionary) (key : string)
  : bool :=
  match Values.GetDictionary value key with
  | Some block => negb (one_of string_ops (Values.GetStringOr block "op" ""))
  | None => false
  end.

Definition bad_driver_version (value : Values.Dictionary) : bool :=
  match Values.GetDictionary value "driver_version" with
  | Some block =>
      bad_version_block (Values.GetStringOr block "op" "any")
                        (Values.GetStringOr block "style" "")
                        (Values.GetStringOr block "number" "")
                        (Values.GetStringOr block "number2" "")
  | None => false
  end.

Definition bad_driver_date (value : Values.Dictionary) : bool :=
  match Values.GetDictionary value "driver_date" with
  | Some block =>
      bad_version_block (Values.GetStringOr block "op" "any") ""
                        (Values.GetStringOr block "number" "")
                        (Values.GetStringOr block "number2" "")
  | None => false
  end.

(** [perf_graphics], [perf_gaming] and [perf_overall]. *)
Definition bad_perf_block `{Platform} (value : Values.Dictionary)
    (key : string) : bool :=
  match Values.GetDictionary value key with
  | Some block =>
      bad_float_block (Values.GetStringOr block "op" "")
                      (Values.GetStringOr block "value" "")
                      (Values.GetStringOr block "value2" "")
  | None => false
  end.

(** A criterion of the entry is present and wrong. *)
Definition bad_criterion `{Platform} (value : Values.Dictionary) : bool :=
  bad_os value
  || bad_vendor_id value
  || bad_device_id value
  || bad_multi_gpu_style value
  || bad_string_block value "driver_vendor"
  || bad_driver_version value
  || bad_driver_date value
  || bad_string_block value "gl_vendor"
  || bad_string_block value "gl_renderer"
  || bad_perf_block value "perf_graphics"
  || bad_perf_block value "perf_gaming"
  || bad_perf_block value "perf_overall".

(** A performance value that was not measured is 0. *)
Definition unmeasured (stat : float) : bool := SFeqb stat FloatInfo.zero_f.

(** The entry has a performance criterion whose hardware value is
    unmeasured. *)
Definition unmeasured_perf_criterion (e : GpuBlacklistEntry.t)
    (gpu_info : GPUInfo) : bool :=
  (is_some (GpuBlacklistEntry.perf_graphics_info_ e)
   && unmeasured (graphics (performance_stats gpu_info)))
  || (is_some (GpuBlacklistEntry.perf_gaming_info_ e)
      && unmeasured (gaming (performance_stats gpu_info)))
  || (is_some (GpuBlacklistEntry.perf_overall_info_ e)
      && unmeasured (overall (performance_stats gpu_info))).

(** ** Sample inputs

    A platform and the configurations of the end-to-end scenarios, used
    where a property is run on a concrete input. *)

Module Sample.

Import Values.

(** A Linux build on which no performance string parses. *)
Definition linux : Platform := {|
  StringToDouble := fun _ => None;
  static_cast_float := fun d => d;
  uninitialized_version_style := kVersionStyleNumerical;
  GetOsType := kOsLinux;
  OperatingSystemVersion := "3.2.0-generic"
|}.

Definition version (components : list N) : Version.t :=
  Version.Build components.

(** The criterion [{"op": "=", "number": number}]. *)
Definition eq_criterion (number : string) : VersionInfo.t :=
  @VersionInfo.New linux "=" "" number "".

(** Hardware of vendor 0x10de with the given device and all performance
    values unmeasured. *)
Definition nvidia (device : Z) : GPUInfo := {|
  optimus := false;
  amd_switchable := false;
  gpu := {| vendor_id := 4318; device_id := device |};
  driver_vendor := "NVIDIA";
  driver_version := "8.17";
  driver_date := "03-21-2013";
  gl_vendor := "";
  gl_renderer := "";
  performance_stats :=
    {| graphics := FloatInfo.zero_f;
       gaming := FloatInfo.zero_f;
       overall := FloatInfo.zero_f |}
|}.

(** An entry with the given id, vendor id, feature mask, performance
    criterion and exceptions, the other members as the constructor
    leaves them. *)
Definition entry (id : Z) (disabled : bool) (vendor : Z)
    (perf_overall : option FloatInfo.t) (features : Z)
    (exceptions : list GpuBlacklistEntry.t) : GpuBlacklistEntry.t :=
  GpuBlacklistEntry.Build id disabled "" [] [] None vendor []
    GpuBlacklistEntry.kMultiGpuStyleNone None None None None None None None
    perf_overall features exceptions false false.

(** An exception for the given device, with exceptions of its own. *)
Definition exception (device : Z) (exceptions : list GpuBlacklistEntry.t)
  : GpuBlacklistEntry.t :=
  GpuBlacklistEntry.Build 0 false "" [] [] None 0 [device]
    GpuBlacklistEntry.kMultiGpuStyleNone None None None None None None None
    None 0 exceptions false false.

(** Vendor 0x10de is blacklisted for webgl, device 0x1234 excepted. *)
Definition webgl_entry : GpuBlacklistEntry.t :=
  entry 1 false 4318 None 4 [exception 4660 []].

(** The same for any performance, even unmeasured. *)
Definition any_perf_entry : GpuBlacklistEntry.t :=
  entry 2 false 4318 (Some (FloatInfo.Build kAny FloatInfo.zero_f
                                            FloatInfo.zero_f)) 4 [].

(** A blacklist object holding the given entries. *)
Definition blacklist (entries : list GpuBlacklistEntry.t) : GpuBlacklist.t :=
  GpuBlacklist.Build (Some (version [1; 0]%N)) (Some (version [25]%N))
                     entries [] 0 false.

(** [{"id": 1, "os": {"type": "linux"}, "vendor_id": "0x10de",
      "blacklist": ["webgl"]}] *)
Definition webgl_item : Dictionary :=
  [("id", IntegerValue 1);
   ("os", DictionaryValue [("type", StringValue "linux")]);
   ("vendor_id", StringValue "0x10de");
   ("blacklist", ListValue [StringValue "webgl"])].

(** The same with a key the parser does not know. *)
Definition unknown_key_item : Dictionary :=
  (webgl_item ++ [("foo", StringValue "bar")])%list.

(** The entry [unknown_key_item] parses to. *)
Definition unknown_key_entry : GpuBlacklistEntry.t :=
  GpuBlacklistEntry.Build 1 false
    "The GPU is unavailable for an unexplained reason." [] []
    (Some (OsInfo.Build kOsLinux
             (Some (VersionInfo.Build kAny kVersionStyleNumerical None None))))
    4318 [] GpuBlacklistEntry.kMultiGpuStyleNone None None None None None
    None None None 4 [] true false.

(** An entry whose os block names no known system. *)
Definition bad_os_type_item : Dictionary :=
  [("id", IntegerValue 1);
   ("os", DictionaryValue [("type", StringValue "bogus")]);
   ("blacklist", ListValue [StringValue "webgl"])].

(** An entry whose os block has a version that does not parse. *)
Definition bad_os_version_item : Dictionary :=
  [("id", IntegerValue 1);
   ("os", DictionaryValue
            [("type", StringValue "linux");
             ("version", DictionaryValue [("op", StringValue "<");
                                          ("number", StringValue "abc")])]);
   ("blacklist", ListValue [StringValue "webgl"])].

(** [{"version": version, "entries": items}] *)
Definition config (version : string) (items : list Dictionary) : Dictionary :=
  [("version", StringValue version);
   ("entries", ListValue (map DictionaryValue items))].

(** The binary32 values 1, 5 and 10, mantissa and exponent. *)
Definition f1 : float := S754_finite false 8388608 (-23).
Definition f5 : float := S754_finite false 10485760 (-21).
Definition f10 : float := S754_finite false 10485760 (-20).

End Sample.

(** ** The vocabulary of the further properties *)

(** The string with a dot before each of its characters: "103" gives
    ".1.0.3". *)
Fixpoint dotted (digits : string) : string :=
  match digits with
  | EmptyString => EmptyString
  | String d digits' => String "."%char (String d (dotted digits'))
  end.

Fixpoint all_digits (s : string) : bool :=
  match s with
  | EmptyString => true
  | String c s' => Str.IsAsciiDigit c && all_digits s'
  end.

(** The number of occurrences of a character in a string. *)
Fixpoint occurrences (c : ascii) (s : string) : nat :=
  match s with
  | EmptyString => O
  | String a s' =>
      if Ascii.eqb a c then S (occurrences c s') else occurrences c s'
  end.

(** The property holds of the value of the pointer, if it is not NULL. *)
Definition if_present {A} (o : option A) (P : A -> Prop) : Prop :=
  match o with Some x => P x | None => True end.

(** Every criterion the entry specifies is met by the hardware: the AND
    chain of the entry's own criteria, exceptions apart. *)
Definition criteria_hold (e : GpuBlacklistEntry.t) (os_type : OsType)
    (os_version : Version.t) (gpu_info : GPUInfo) : Prop :=
  if_present (GpuBlacklistEntry.os_info_ e)
    (fun info => OsInfo.Contains info os_type os_version = Some true)
  /\ (GpuBlacklistEntry.vendor_id_ e = 0
      \/ GpuBlacklistEntry.vendor_id_ e = vendor_id (gpu gpu_info))
  /\ (GpuBlacklistEntry.device_id_list_ e = []
      \/ In (device_id (gpu gpu_info)) (GpuBlacklistEntry.device_id_list_ e))
  /\ match GpuBlacklistEntry.multi_gpu_style_ e with
     | GpuBlacklistEntry.kMultiGpuStyleOptimus => optimus gpu_info = true
     | GpuBlacklistEntry.kMultiGpuStyleAMDSwitchable =>
         amd_switchable gpu_info = true
     | GpuBlacklistEntry.kMultiGpuStyleNone => True
     end
  /\ if_present (GpuBlacklistEntry.driver_vendor_info_ e)
       (fun info => StringInfo.Contains info (driver_vendor gpu_info) = true)
  /\ if_present (GpuBlacklistEntry.driver_version_info_ e)
       (fun info =>
          exists version,
            Version.GetVersionFromString
              (if VersionInfo.IsLexical info
               then NumericalToLexical (driver_version gpu_info)
               else driver_version gpu_info) = Some version
            /\ VersionInfo.Contains info version = Some true)
  /\ if_present (GpuBlacklistEntry.driver_date_info_ e)
       (fun info =>
          exists date,
            GetDateFromString (driver_date gpu_info) = Some date
            /\ VersionInfo.Contains info date = Some true)
  /\ if_present (GpuBlacklistEntry.gl_vendor_info_ e)
       (fun info => StringInfo.Contains info (gl_vendor gpu_info) = true)
  /\ if_present (GpuBlacklistEntry.gl_renderer_info_ e)
       (fun info => StringInfo.Contains info (gl_renderer gpu_info) = true)
  /\ if_present (GpuBlacklistEntry.perf_graphics_info_ e)
       (fun info =>
          unmeasured (graphics (performance_stats gpu_info)) = false
          /\ FloatInfo.Contains info (graphics (performance_stats gpu_info))
             = true)
  /\ if_present (GpuBlacklistEntry.perf_gaming_info_ e)
       (fun info =>
          unmeasured (gaming (performance_stats gpu_info)) = false
          /\ FloatInfo.Contains info (gaming (performance_stats gpu_info))
             = true)
  /\ if_present (GpuBlacklistEntry.perf_overall_info_ e)
       (fun info =>
          unmeasured (overall (performance_stats gpu_info)) = false
          /\ FloatInfo.Contains info (overall (performance_stats gpu_info))
             = true).

(** The entry with the given exceptions in place of its own. *)
Definition with_exceptions (e : GpuBlacklistEntry.t)
    (exceptions : list GpuBlacklistEntry.t) : GpuBlacklistEntry.t :=
  let (id, disabled, description, cr_bugs, webkit_bugs, os_info, vendor_id,
       device_id_list, multi_gpu_style, driver_vendor_info,
       driver_version_info, driver_date_info, gl_vendor_info,
       gl_renderer_info, perf_graphics_info, perf_gaming_info,
       perf_overall_info, feature_type, _, unknown_fields,
       unknown_features) := e in
  GpuBlacklistEntry.Build id disabled description cr_bugs webkit_bugs os_info
    vendor_id device_id_list multi_gpu_style driver_vendor_info
    driver_version_info driver_date_info gl_vendor_info gl_renderer_info
    perf_graphics_info perf_gaming_info perf_overall_info feature_type
    exceptions unknown_fields unknown_features.

(** [if (!c) return false; k]: the next check of an AND chain. *)
Definition and_then (c k : option bool) : option bool :=
  match c with
  | Some true => k
  | Some false => Some false
  | None => None
  end.

(** The tests of [GpuBlacklistEntry::Contains], one after the other:
    what each returns, or the condition under which [Contains] returns
    false there. *)
Section ContainsTests.

Variables (os_type : OsType) (os_version : Version.t) (gpu_info : GPUInfo).

Definition os_check (e : GpuBlacklistEntry.t) : option bool :=
  match GpuBlacklistEntry.os_info_ e with
  | Some os_info => OsInfo.Contains os_info os_type os_version
  | None => Some true
  end.

Definition vendor_fails (e : GpuBlacklistEntry.t) : bool :=
  negb (GpuBlacklistEntry.vendor_id_ e =? 0)
  && negb (GpuBlacklistEntry.vendor_id_ e =? vendor_id (gpu gpu_info)).

Definition device_fails (e : GpuBlacklistEntry.t) : bool :=
  (0 <? List.length (GpuBlacklistEntry.device_id_list_ e))%nat
  && negb (existsb (fun d => d =? device_id (gpu gpu_info))
                   (GpuBlacklistEntry.device_id_list_ e)).

Definition multi_gpu_fails (e : GpuBlacklistEntry.t) : bool :=
  match GpuBlacklistEntry.multi_gpu_style_ e with
  | GpuBlacklistEntry.kMultiGpuStyleOptimus => negb (optimus gpu_info)
  | GpuBlacklistEntry.kMultiGpuStyleAMDSwitchable =>
      negb (amd_switchable gpu_info)
  | GpuBlacklistEntry.kMultiGpuStyleNone => false
  end.

Definition string_fails (info : option StringInfo.t) (s : string) : bool :=
  match info with
  | Some info => negb (StringInfo.Contains info s)
  | None => false
  end.

Definition driver_version_check (e : GpuBlacklistEntry.t) : option bool :=
  match GpuBlacklistEntry.driver_version_info_ e with
  | Some info =>
      match Version.GetVersionFromString
              (if VersionInfo.IsLexical info
               then NumericalToLexical (driver_version gpu_info)
               else driver_version gpu_info) with
      | None => Some false
      | Some v => VersionInfo.Contains info v
      end
  | None => Some true
  end.

Definition driver_date_check (e : GpuBlacklistEntry.t) : option bool :=
  match GpuBlacklistEntry.driver_date_info_ e with
  | Some info =>
      match GetDateFromString (driver_date gpu_info) with
      | None => Some false
      | Some d => VersionInfo.Contains info d
      end
  | None => Some true
  end.

Definition perf_criterion_fails (info : option FloatInfo.t) (stat : float)
  : bool :=
  match info with
  | Some info => GpuBlacklistEntry.perf_fails info stat
  | None => false
  end.

Definition passes (fails : bool) : option bool := Some (negb fails).

End ContainsTests.

(** ** Further sample inputs *)

Module Scenario.

Import Values.

(** An entry that only asks for a driver version, any version. *)
Definition any_driver_version_entry : GpuBlacklistEntry.t :=
  GpuBlacklistEntry.Build 3 false "" [] [] None 0 []
    GpuBlacklistEntry.kMultiGpuStyleNone None
    (Some (VersionInfo.Build kAny kVersionStyleNumerical None None))
    None None None None None None 4 [] false false.

(** Hardware whose driver reports a version that is no dotted number. *)
Definition odd_driver : GPUInfo := {|
  optimus := false;
  amd_switchable := false;
  gpu := {| vendor_id := 4318; device_id := 1 |};
  driver_vendor := "NVIDIA";
  driver_version := "8.17-beta";
  driver_date := "03-21-2013";
  gl_vendor := "";
  gl_renderer := "";
  performance_stats :=
    {| graphics := FloatInfo.zero_f;
       gaming := FloatInfo.zero_f;
       overall := FloatInfo.zero_f |}
|}.

(** The webgl entry for vendor 0x10de with two exceptions: one for
    device 0x1234, one with a key the parser does not know. *)
Definition item_with_exceptions : Dictionary :=
  [("id", IntegerValue 7);
   ("vendor_id", StringValue "0x10de");
   ("blacklist", ListValue [StringValue "webgl"]);
   ("exceptions",
    ListValue
      [DictionaryValue [("device_id", ListValue [StringValue "0x1234"])];
       DictionaryValue [("device_id", ListValue [StringValue "0x5678"]);
                        ("id", IntegerValue 9)]])].

(** An entry with no id, and one with an empty blacklist. *)
Definition item_without_id : Dictionary :=
  [("vendor_id", StringValue "0x10de");
   ("blacklist", ListValue [StringValue "webgl"])].

Definition item_with_empty_blacklist : Dictionary :=
  [("id", IntegerValue 1); ("blacklist", ListValue [])].

(** An entry for browser versions below 20, which is otherwise
    malformed (it has no id). *)
Definition item_for_old_browsers : Dictionary :=
  [("browser_version",
    DictionaryValue [("op", StringValue "<"); ("number", StringValue "20")]);
   ("blacklist", ListValue [StringValue "webgl"])].


(** An entry for Windows only. *)
Definition windows_item : Dictionary :=
  [("id", IntegerValue 5);
   ("os", DictionaryValue [("type", StringValue "win")]);
   ("blacklist", ListValue [StringValue "multisampling"])].

(** Entries with one criterion that is wrong each: a vendor id and a
    device id that are no hex numbers, an unknown multi-GPU style, an
    unknown string operator, a driver version with a number that is no
    version and one with an unknown style, a driver date whose "between"
    lacks its second date, and a performance value that is no number. *)
Definition with_criterion (key : string) (criterion : Value) : Dictionary :=
  [("id", IntegerValue 1);
   (key, criterion);
   ("blacklist", ListValue [StringValue "webgl"])].

Definition bad_driver_version_item : Dictionary :=
  with_criterion "driver_version"
    (DictionaryValue [("op", StringValue "<"); ("number", StringValue "8.x")]).

Definition items_with_bad_criterion : list Dictionary :=
  [with_criterion "vendor_id" (StringValue "nvidia");
   with_criterion "device_id"
     (ListValue [StringValue "0x1234"; StringValue "0x12g4"]);
   with_criterion "device_id" (ListValue [IntegerValue 4660]);
   with_criterion "multi_gpu_style" (StringValue "sli");
   with_criterion "driver_vendor"
     (DictionaryValue [("op", StringValue "like");
                       ("value", StringValue "NVIDIA")]);
   bad_driver_version_item;
   with_criterion "driver_version"
     (DictionaryValue [("op", StringValue "<"); ("style", StringValue "loose");
                       ("number", StringValue "8.17")]);
   with_criterion "driver_date"
     (DictionaryValue [("op", StringValue "between");
                       ("number", StringValue "2011.1")]);
   with_criterion "gl_renderer"
     (DictionaryValue [("value", StringValue "Mesa")]);
   with_criterion "perf_overall"
     (DictionaryValue [("op", StringValue "<");
                       ("value", StringValue "fast")])].

(** A JSON reader that parses nothing. *)
Definition no_json : string -> option Value := fun _ => None.

End Scenario.

(** An exception as the parser builds it: criteria only. It has no id,
    is not disabled, blacklists nothing, has no exceptions of its own and
    no unknown field. *)
Definition plain_exception (x : GpuBlacklistEntry.t) : Prop :=
  GpuBlacklistEntry.id_ x = 0
  /\ GpuBlacklistEntry.disabled_ x = false
  /\ GpuBlacklistEntry.feature_type_ x = 0
  /\ GpuBlacklistEntry.exceptions_ x = []
  /\ GpuBlacklistEntry.contains_unknown_fields_ x = false
  /\ GpuBlacklistEntry.contains_unknown_features_ x = false.

(** The dictionary lacks a field every top-level entry must have: an
    integer id that is not 0, or a blacklist that is a list with one
    element or more. *)
Definition lacks_mandatory_field (value : Values.Dictionary) : Prop :=
  Values.GetInteger value "id" = None
  \/ (exists i, Values.GetInteger value "id" = Some i
                /\ GpuBlacklistEntry.as_uint32 i = 0)
  \/ Values.GetList value "blacklist" = None
  \/ Values.GetList value "blacklist" = Some [].


(** The list item is processed and gives the entry: the browser version
    supports it and it parses. *)
Definition gives_entry `{Platform} (b : GpuBlacklist.t) (x : Values.Value)
    (e : GpuBlacklistEntry.t) : Prop :=
  exists d, x = Values.DictionaryValue d
            /\ GpuBlacklist.IsEntrySupportedByCurrentBrowserVersion b d
               = Some GpuBlacklist.kSupported
            /\ GpuBlacklistEntry.GetGpuBlacklistEntryFromValue d true = ok e.

(** What a reader of the list of [GetBlacklistReasons] finds in one of
    its elements: the description and the two lists of bug numbers. *)
Definition read_problem (v : Values.Value)
  : option (string * list Z * list Z) :=
  d <- Values.AsDictionary v ;;
  description <- Values.GetString d "description" ;;
  cr_bugs_value <- Values.GetList d "crBugs" ;;
  cr_bugs <- Values.GetAll Values.AsInteger cr_bugs_value ;;
  webkit_bugs_value <- Values.GetList d "webkitBugs" ;;
  webkit_bugs <- Values.GetAll Values.AsInteger webkit_bugs_value ;;
  Some (description, cr_bugs, webkit_bugs).

Module E := GpuBlacklistEntry.
Module B := GpuBlacklist.

(** * Properties *)

(** ** The version matcher *)

Section VersionEq.

Import VersionInfo.

(** A turn of the loop at a position where the candidate has the
    criterion's component goes on to the next position. *)
Lemma eq_loop_same (pre : list N) (r : N) (rest tail : list N) :
  eq_loop (List.length pre) (r :: rest) (pre ++ r :: tail)%list
  = eq_loop (List.length (pre ++ [r])%list) rest
            ((pre ++ [r]) ++ tail)%list.
Proof.
  cbn [eq_loop].
  assert (Hlen : (List.length (pre ++ r :: tail)%list
                  <=? List.length pre)%nat = false).
  { apply Nat.leb_gt. rewrite length_app. simpl. lia. }
  rewrite Hlen. cbn [andb].
  rewrite nth_error_app2 by lia. rewrite Nat.sub_diag. cbn [nth_error].
  rewrite N.eqb_refl. cbn [negb].
  rewrite length_app, <- app_assoc. cbn [List.length app].
  rewrite Nat.add_1_r. reflexivity.
Qed.

(** A candidate that extends the criterion's components passes every turn
    of the loop. *)
Lemma eq_loop_prefix (rest pre extra : list N) :
  eq_loop (List.length pre) rest (pre ++ rest ++ extra)%list = Some true.
Proof.
  revert pre; induction rest as [|r rest IH]; intros pre; [reflexivity|].
  change ((r :: rest) ++ extra)%list with (r :: rest ++ extra)%list.
  rewrite eq_loop_same. apply IH.
Qed.

(** A position present on both sides that differs ends the loop with
    false, at that turn or at an earlier one. *)
Lemma eq_loop_differs (rest : list N) :
  forall i k components r c,
    nth_error rest k = Some r ->
    nth_error components (i + k) = Some c ->
    c <> r ->
    eq_loop i rest components = Some false.
Proof.
  induction rest as [|r0 rest IH]; intros i k components r c Hr Hc Hne.
  - destruct k; discriminate.
  - simpl.
    destruct ((List.length components <=? i)%nat && negb (r0 =? 0)%N)
      eqn:Hguard; [reflexivity|].
    assert (Hi : (i < List.length components)%nat).
    { assert (Hs : nth_error components (i + k) <> None) by congruence.
      apply nth_error_Some in Hs. lia. }
    destruct (nth_error components i) as [c0|] eqn:Hc0.
    2:{ apply nth_error_None in Hc0. lia. }
    destruct k as [|k].
    + simpl in Hr. injection Hr as ->. rewrite Nat.add_0_r in Hc.
      rewrite Hc in Hc0. injection Hc0 as <-.
      apply N.eqb_neq in Hne. rewrite Hne. reflexivity.
    + destruct (c0 =? r0)%N; simpl; [|reflexivity].
      apply (IH (S i) k components r c); auto.
      rewrite <- Hc. f_equal. lia.
Qed.

(** Once the candidate is used up, a zero component of the criterion
    passes the guard of the loop and [components[i]] is read past the
    end. *)
Lemma eq_loop_past_end (zeros : nat) :
  forall pre rest,
    eq_loop (List.length pre) (rest ++ repeat 0%N (S zeros))%list
            (pre ++ rest)%list = None.
Proof.
  intros pre rest; revert pre; induction rest as [|r rest IH]; intros pre.
  - rewrite app_nil_r. simpl. rewrite andb_false_r.
    assert (H : nth_error pre (List.length pre) = None)
      by (apply nth_error_None; lia).
    rewrite H. reflexivity.
  - change ((r :: rest) ++ repeat 0%N (S zeros))%list
      with (r :: rest ++ repeat 0%N (S zeros))%list.
    rewrite eq_loop_same. apply IH.
Qed.

(** C4. An Eq criterion that is the candidate followed by zero
    components ("10.6.0" against "10.6") does not stay within the
    candidate's vector: the comparison loop reads [components[i]] one
    past its end, at the first position the candidate lacks. *)
Theorem C4_eq_longer_criterion_reads_past_end :
  forall style version2 (candidate : list N) (zeros : nat),
    Contains
      (Build kEQ style
             (Some (Version.Build (candidate ++ repeat 0%N (S zeros))%list))
             version2)
      (Version.Build candidate)
    = None.
Proof.
  intros style version2 candidate zeros. unfold Contains. simpl.
  exact (eq_loop_past_end zeros [] candidate).
Qed.

(** Criterion "10.6.0" against candidate "10.6", run. *)
Example eq_10_6_0_against_10_6 :
  Sample.eq_criterion "10.6.0"
  = Build kEQ kVersionStyleNumerical (Some (Sample.version [10; 6; 0]%N)) None
  /\ Version.GetVersionFromString "10.6" = Some (Sample.version [10; 6]%N)
  /\ Contains (Sample.eq_criterion "10.6.0") (Sample.version [10; 6]%N) = None.
Proof. repeat split. Qed.

(** C7. An Eq criterion whose components are a prefix of the candidate's
    (the candidate itself included) contains the candidate, and a
    candidate that differs from the criterion at a position both have is
    not contained. *)
Theorem C7_eq_prefix_criterion :
  forall style version2 (reference : list N),
    let criterion :=
      Build kEQ style (Some (Version.Build reference)) version2 in
    (forall extra,
        Contains criterion (Version.Build (reference ++ extra)%list)
        = Some true)
    /\ (forall candidate i r c,
           nth_error reference i = Some r ->
           nth_error candidate i = Some c ->
           c <> r ->
           Contains criterion (Version.Build candidate) = Some false).
Proof.
  intros style version2 reference criterion. split.
  - intros extra. unfold Contains, criterion. simpl.
    exact (eq_loop_prefix reference [] extra).
  - intros candidate i r c Hr Hc Hne. unfold Contains, criterion. simpl.
    exact (eq_loop_differs reference 0 i candidate r c Hr Hc Hne).
Qed.

(** Criterion "10.6" contains "10.6.3" and "10.6" but not "10.5". *)
Lemma C7_witness :
  Sample.eq_criterion "10.6"
  = Build kEQ kVersionStyleNumerical (Some (Sample.version [10; 6]%N)) None
  /\ Contains (Sample.eq_criterion "10.6") (Sample.version [10; 6; 3]%N)
     = Some true
  /\ Contains (Sample.eq_criterion "10.6") (Sample.version [10; 6]%N)
     = Some true
  /\ Contains (Sample.eq_criterion "10.6") (Sample.version [10; 5]%N)
     = Some false.
Proof.
  split; [reflexivity|].
  pose proof (C7_eq_prefix_criterion kVersionStyleNumerical None [10; 6]%N)
    as [Hprefix Hdiffers].
  split; [exact (Hprefix [3%N])|].
  split; [exact (Hprefix [])|].
  apply (Hdiffers [10; 5]%N 1%nat 6%N 5%N); [reflexivity|reflexivity|lia].
Defined.

End VersionEq.

(** ** Between: float ranges and versions *)

(** *** The order of [SFcompare] *)

(** Case analysis on every comparison of exponents and mantissas in
    sight. *)
Ltac cmp_facts :=
  repeat match goal with
  | H : context [Z.compare ?a ?b] |- _ => destruct (Z.compare_spec a b)
  | |- context [Z.compare ?a ?b] => destruct (Z.compare_spec a b)
  | H : context [Pos.compare_cont _ ?a ?b] |- _ =>
      change (Pos.compare_cont Eq a b) with (Pos.compare a b) in H
  | |- context [Pos.compare_cont _ ?a ?b] =>
      change (Pos.compare_cont Eq a b) with (Pos.compare a b)
  | H : context [Pos.compare ?a ?b] |- _ => destruct (Pos.compare_spec a b)
  | |- context [Pos.compare ?a ?b] => destruct (Pos.compare_spec a b)
  end.


(** [<=] is transitive and [<] is its strict part: no cycle
    [a <= b <= c < a]. *)
Lemma SFleb_chain (a b c : float) :
  SFleb a b = true -> SFleb b c = true -> SFltb c a = true -> False.
Proof.
  unfold SFleb, SFltb, SFcompare.
  destruct a as [sa|sa| |sa ma ea], b as [sb|sb| |sb mb eb],
           c as [sc|sc| |sc mc ec];
    try destruct sa; try destruct sb; try destruct sc;
    simpl; try discriminate;
    intros; cmp_facts; simpl in *; subst; try discriminate; try lia.
Qed.

(** Floats that compare equal compare alike with every float. *)
Lemma SFcompare_eq_left (a b v : float) :
  SFcompare a b = Some Eq ->
  SFcompare a v = SFcompare b v /\ SFcompare v a = SFcompare v b.
Proof.
  unfold SFcompare.
  destruct a as [sa|sa| |sa ma ea], b as [sb|sb| |sb mb eb],
           v as [sc|sc| |sc mc ec];
    try destruct sa; try destruct sb; try destruct sc;
    simpl; try discriminate; try (split; reflexivity);
    intros; cmp_facts; simpl in *; subst;
    try discriminate; try lia; try (split; reflexivity).
Qed.

Lemma SFcompare_antisym (a b : float) (c : comparison) :
  SFcompare a b = Some c -> SFcompare b a = Some (CompOpp c).
Proof.
  unfold SFcompare.
  destruct a as [sa|sa| |sa ma ea], b as [sb|sb| |sb mb eb];
    try destruct sa; try destruct sb; simpl; try discriminate;
    intros H; injection H as <-; try reflexivity;
    cmp_facts; simpl in *; subst; try reflexivity; try lia.
Qed.

Lemma SFcompare_defined (a b : float) :
  is_nan a = false -> is_nan b = false -> exists c, SFcompare a b = Some c.
Proof.
  destruct a, b; simpl; try discriminate; intros _ _; eexists; reflexivity.
Qed.

(** No float lies between a NaN and anything. *)
Lemma SFleb_nan_l (v : float) : SFleb S754_nan v = false.
Proof. reflexivity. Qed.

Lemma SFleb_nan_r (v : float) : SFleb v S754_nan = false.
Proof. destruct v; reflexivity. Qed.

Lemma between_float (b1 b2 v : float) :
  FloatInfo.Contains (FloatInfo.Build kBetween b1 b2) v
  = in_interval (SFmin b1 b2) (SFmax b1 b2) v.
Proof.
  unfold FloatInfo.Contains, in_interval, SFmin, SFmax. cbn [FloatInfo.op_
    FloatInfo.value_ FloatInfo.value2_].
  destruct (is_nan b1) eqn:H1.
  { destruct b1; try discriminate. cbn [orb].
    rewrite SFleb_nan_l, SFleb_nan_r, andb_false_r. reflexivity. }
  destruct (is_nan b2) eqn:H2.
  { destruct b2; try discriminate. cbn [orb].
    rewrite !SFleb_nan_l, SFleb_nan_r, andb_false_r. reflexivity. }
  cbn [orb].
  destruct (SFcompare_defined b1 b2 H1 H2) as [c Hc].
  pose proof (SFcompare_antisym _ _ _ Hc) as Hc'.
  unfold SFltb at 1 2. rewrite Hc, Hc'.
  destruct c; simpl.
  - destruct (SFcompare_eq_left b1 b2 v Hc) as [Hl Hr].
    unfold SFleb. rewrite <- Hl, <- Hr. apply orb_diag.
  - destruct (SFleb b2 v && SFleb v b1) eqn:Hswap; [|apply orb_false_r].
    apply andb_prop in Hswap as [Ha Hb]. exfalso.
    apply (SFleb_chain b2 v b1 Ha Hb). unfold SFltb. rewrite Hc. reflexivity.
  - destruct (SFleb b1 v && SFleb v b2) eqn:Hswap; [|reflexivity].
    apply andb_prop in Hswap as [Ha Hb]. exfalso.
    apply (SFleb_chain b1 v b2 Ha Hb). unfold SFltb. rewrite Hc'. reflexivity.
Qed.

Lemma compare_nil_l (b : list N) : Version.compare_components [] b <= 0.
Proof.
  destruct b; cbn [Version.compare_components];
    destruct (Version.any_positive _); lia.
Qed.

Lemma any_positive_cons (x : N) (a : list N) :
  Version.any_positive (x :: a) = (0 <? x)%N || Version.any_positive a.
Proof. reflexivity. Qed.

Lemma compare_nil_r (a : list N) :
  Version.compare_components a [] = if Version.any_positive a then 1 else 0.
Proof. destruct a; reflexivity. Qed.

Lemma compare_zeros_l (a : list N) :
  Version.any_positive a = false ->
  forall b, Version.compare_components a b <= 0.
Proof.
  induction a as [|x a IH]; intros Hz b; [apply compare_nil_l|].
  rewrite any_positive_cons in Hz. apply orb_false_elim in Hz as [Hx Ha].
  apply N.ltb_ge in Hx. assert (x = 0%N) by lia. subst x.
  destruct b as [|y b].
  - rewrite compare_nil_r, any_positive_cons, Ha. simpl. lia.
  - cbn [Version.compare_components].
    destruct (y <? 0)%N eqn:Hy; [apply N.ltb_lt in Hy; lia|].
    destruct (0 <? y)%N; [lia|]. apply IH; assumption.
Qed.

Lemma compare_components_chain (a : list N) :
  forall b c,
    0 <= Version.compare_components a b ->
    0 < Version.compare_components b c ->
    0 < Version.compare_components a c.
Proof.
  induction a as [|x a IH]; intros b c Hab Hbc.
  - assert (Hz : Version.any_positive b = false).
    { destruct b; [reflexivity|]. cbn [Version.compare_components] in Hab.
      destruct (Version.any_positive (n :: b)); [lia|reflexivity]. }
    pose proof (compare_zeros_l b Hz c). lia.
  - destruct b as [|y b].
    + pose proof (compare_nil_l c). lia.
    + destruct c as [|z c].
      * rewrite compare_nil_r in *. rewrite any_positive_cons in *.
        cbn [Version.compare_components] in Hab.
        destruct (y <? x)%N eqn:Hyx.
        { apply N.ltb_lt in Hyx.
          assert (Hx : (0 <? x)%N = true) by (apply N.ltb_lt; lia).
          rewrite Hx. simpl. lia. }
        destruct (x <? y)%N eqn:Hxy; [lia|].
        apply N.ltb_ge in Hyx, Hxy. assert (x = y) by lia. subst y.
        destruct (0 <? x)%N; simpl in *; [lia|].
        specialize (IH b [] Hab). rewrite !compare_nil_r in IH.
        destruct (Version.any_positive b); [|lia].
        specialize (IH ltac:(lia)).
        destruct (Version.any_positive a); lia.
      * cbn [Version.compare_components] in *.
        destruct (y <? x)%N eqn:Hyx, (z <? y)%N eqn:Hzy,
                 (x <? y)%N eqn:Hxy, (y <? z)%N eqn:Hyz;
          try lia;
          repeat match goal with
                 | H : (_ <? _)%N = true |- _ => apply N.ltb_lt in H
                 | H : (_ <? _)%N = false |- _ => apply N.ltb_ge in H
                 end; try lia.
        all: try (assert (Hzx : (z <? x)%N = true) by (apply N.ltb_lt; lia);
                  rewrite Hzx; lia).
        assert (x = y) by lia. assert (y = z) by lia. subst.
        rewrite N.ltb_irrefl. apply (IH b c); assumption.
Qed.

(** C6. For all floats, the float Between holds exactly when the value
    lies in the interval from the smaller to the larger bound, and so
    whichever way round the bounds are given; the version Between with
    the first bound above the second contains no candidate. *)
Theorem C6_between_float_ordered_version_not :
  forall (v b1 b2 : float) style (candidate bound1 bound2 : Version.t),
    FloatInfo.Contains (FloatInfo.Build kBetween b1 b2) v
    = in_interval (SFmin b1 b2) (SFmax b1 b2) v
    /\ FloatInfo.Contains (FloatInfo.Build kBetween b1 b2) v
       = FloatInfo.Contains (FloatInfo.Build kBetween b2 b1) v
    /\ (0 < Version.CompareTo bound1 bound2 ->
        VersionInfo.Contains
          (VersionInfo.Build kBetween style (Some bound1) (Some bound2))
          candidate
        = Some false).
Proof.
  intros v b1 b2 style candidate bound1 bound2. split; [|split].
  - apply between_float.
  - unfold FloatInfo.Contains. simpl. apply orb_comm.
  - intros Hgt. unfold VersionInfo.Contains. simpl.
    destruct (Version.CompareTo candidate bound1 <? 0) eqn:Hlow;
      [reflexivity|].
    apply Z.ltb_ge in Hlow. f_equal. apply Z.leb_gt.
    exact (compare_components_chain _ _ _ Hlow Hgt).
Qed.

(** The bounds (10, 1): the float range contains 5, as the range (1, 10)
    does; the version range contains neither 5 nor anything else. *)
Lemma C6_witness :
  FloatInfo.Contains (FloatInfo.Build kBetween Sample.f10 Sample.f1) Sample.f5
  = true
  /\ FloatInfo.Contains (FloatInfo.Build kBetween Sample.f1 Sample.f10)
                        Sample.f5
     = true
  /\ VersionInfo.Contains
       (VersionInfo.Build kBetween kVersionStyleNumerical
                          (Some (Sample.version [10%N]))
                          (Some (Sample.version [1%N])))
       (Sample.version [5%N])
     = Some false.
Proof.
  pose proof (C6_between_float_ordered_version_not
                Sample.f5 Sample.f10 Sample.f1 kVersionStyleNumerical
                (Sample.version [5%N]) (Sample.version [10%N])
                (Sample.version [1%N])) as [Hrange [Hswap Hversion]].
  split; [|split].
  - rewrite Hrange. reflexivity.
  - rewrite <- Hswap, Hrange. reflexivity.
  - apply Hversion. reflexivity.
Defined.

(** ** The entry evaluator *)

(** Case analysis on every test of [Contains] before the loop over the
    exceptions. *)
Ltac step_contains :=
  repeat match goal with
  | |- context [match ?x with _ => _ end] =>
      lazymatch x with
      | E.exceptions_loop _ _ => fail
      | _ => destruct x eqn:?; try reflexivity; try discriminate
      end
  end.

(** [Contains] is the entry's own criteria, then the loop. *)
Lemma Contains_exceptions (e : E.t) os_type os_version gpu_info :
  E.Contains e os_type os_version gpu_info
  = (hit <- E.Contains (criteria_only e) os_type os_version gpu_info ;;
     if hit
     then E.exceptions_loop
            (fun x => E.Contains x os_type os_version gpu_info)
            (E.exceptions_ e)
     else Some false).
Proof.
  destruct e. unfold criteria_only.
  cbn -[E.exceptions_loop OsInfo.Contains VersionInfo.Contains
        StringInfo.Contains E.perf_fails Version.GetVersionFromString
        GetDateFromString NumericalToLexical].
  cbn [E.exceptions_loop].
  step_contains.
Qed.

Lemma exceptions_loop_none_hit {A} (f : A -> option bool) (l : list A) :
  Forall (fun x => f x = Some false) l -> E.exceptions_loop f l = Some true.
Proof.
  induction 1 as [|x l Hx _ IH]; simpl; [reflexivity|].
  rewrite Hx. exact IH.
Qed.

Lemma exceptions_loop_hit {A} (f : A -> option bool) (pre post : list A) x :
  Forall (fun y => f y = Some false) pre ->
  f x = Some true ->
  E.exceptions_loop f (pre ++ x :: post)%list = Some false.
Proof.
  induction 1 as [|y pre Hy _ IH]; intros Hx; simpl.
  - rewrite Hx. reflexivity.
  - rewrite Hy. exact (IH Hx).
Qed.

(** With an unmeasured value under a performance criterion, [Contains]
    is the checks before the performance criteria, then false. *)
Lemma Contains_unmeasured (e : E.t) os_type os_version gpu_info :
  unmeasured_perf_criterion e gpu_info = true ->
  E.Contains e os_type os_version gpu_info
  = (hit <- E.Contains (before_perf e) os_type os_version gpu_info ;;
     Some false).
Proof.
  destruct e. unfold before_perf, unmeasured_perf_criterion, unmeasured.
  cbn -[E.exceptions_loop OsInfo.Contains VersionInfo.Contains
        StringInfo.Contains Version.GetVersionFromString GetDateFromString
        NumericalToLexical SFeqb FloatInfo.Contains].
  cbn [E.exceptions_loop]. unfold E.perf_fails.
  intros H.
  destruct perf_graphics_info_, perf_gaming_info_, perf_overall_info_;
    cbn [is_some andb orb] in H; try discriminate H;
    step_contains.
  all: repeat match goal with
       | H : (_ || _) = false |- _ => apply orb_false_elim in H as [? ?]
       end.
  all: repeat match goal with
       | H : SFeqb _ _ = false |- _ => rewrite H in *
       end; simpl in *; try discriminate.
Qed.

(** C5. When the entry's own criteria match, the first exception that
    matches (exceptions being evaluated in order, each by the same
    recursive [Contains]) makes the entry not match; when no exception
    matches, the entry matches. *)
Theorem C5_matching_exception_vetoes_parent :
  forall (e : E.t) os_type os_version gpu_info,
    E.Contains (criteria_only e) os_type os_version gpu_info = Some true ->
    (forall pre x post,
        E.exceptions_ e = (pre ++ x :: post)%list ->
        Forall (fun y => E.Contains y os_type os_version gpu_info
                         = Some false) pre ->
        E.Contains x os_type os_version gpu_info = Some true ->
        E.Contains e os_type os_version gpu_info = Some false)
    /\ (Forall (fun y => E.Contains y os_type os_version gpu_info
                         = Some false) (E.exceptions_ e) ->
        E.Contains e os_type os_version gpu_info = Some true).
Proof.
  intros e os_type os_version gpu_info Hcriteria.
  rewrite (Contains_exceptions e), Hcriteria. split.
  - intros pre x post -> Hpre Hx. apply exceptions_loop_hit; assumption.
  - apply exceptions_loop_none_hit.
Qed.

(** The entry for vendor 0x10de with device 0x1234 excepted: the excepted
    device is not caught, another device of the vendor is. *)
Lemma C5_witness :
  E.Contains Sample.webgl_entry kOsLinux (Sample.version [3; 2]%N)
             (Sample.nvidia 4660) = Some false
  /\ E.Contains Sample.webgl_entry kOsLinux (Sample.version [3; 2]%N)
                (Sample.nvidia 1) = Some true.
Proof.
  split.
  - apply (proj1 (C5_matching_exception_vetoes_parent
                    Sample.webgl_entry kOsLinux (Sample.version [3; 2]%N)
                    (Sample.nvidia 4660) eq_refl)
                 [] (Sample.exception 4660 []) []);
      [reflexivity|constructor|reflexivity].
  - apply (proj2 (C5_matching_exception_vetoes_parent
                    Sample.webgl_entry kOsLinux (Sample.version [3; 2]%N)
                    (Sample.nvidia 1) eq_refl)).
    repeat constructor.
Defined.

(** Two levels of exceptions: the exception for device 0x1234 is itself
    vetoed by its own exception, so the parent catches the device. *)
Example nested_exceptions :
  E.Contains
    (Sample.entry 1 false 4318 None 4
                  [Sample.exception 4660 [Sample.exception 4660 []]])
    kOsLinux (Sample.version [3; 2]%N) (Sample.nvidia 4660)
  = Some true.
Proof. reflexivity. Qed.

(** C8. An entry with a performance criterion whose hardware value is
    unmeasured never matches, whatever the criterion's operator: its
    [Contains] returns false as soon as the checks before the performance
    criteria return at all. *)
Theorem C8_unmeasured_performance_fails_closed :
  forall (e : E.t) os_type os_version gpu_info,
    unmeasured_perf_criterion e gpu_info = true ->
    E.Contains e os_type os_version gpu_info <> Some true
    /\ (forall hit,
           E.Contains (before_perf e) os_type os_version gpu_info = Some hit ->
           E.Contains e os_type os_version gpu_info = Some false).
Proof.
  intros e os_type os_version gpu_info H.
  rewrite (Contains_unmeasured e os_type os_version gpu_info H). split.
  - destruct (E.Contains (before_perf e) os_type os_version gpu_info);
      discriminate.
  - intros hit ->. reflexivity.
Qed.

(** With op "any" and the overall performance unmeasured, the entry does
    not match hardware that meets its other criteria. *)
Lemma C8_witness :
  unmeasured_perf_criterion Sample.any_perf_entry (Sample.nvidia 1) = true
  /\ E.Contains (before_perf Sample.any_perf_entry) kOsLinux
                (Sample.version [3; 2]%N) (Sample.nvidia 1) = Some true
  /\ E.Contains Sample.any_perf_entry kOsLinux (Sample.version [3; 2]%N)
                (Sample.nvidia 1) = Some false.
Proof.
  split; [reflexivity|]. split; [reflexivity|].
  apply (proj2 (C8_unmeasured_performance_fails_closed
                  Sample.any_perf_entry kOsLinux (Sample.version [3; 2]%N)
                  (Sample.nvidia 1) eq_refl) true).
  reflexivity.
Defined.

(** ** The feature aggregator *)

Section Aggregator.

Context `{Platform}.



End Aggregator.


(** ** The loader *)

Import Values.

Section Loader.

Context `{Platform}.

(** *** The parser runs without a fault

    The one dereference on its way, [version_info_->IsValid()], is of the
    [OsInfo] the parser has just constructed. *)

Lemma OsInfo_New_IsValid_defined os op s s2 :
  OsInfo.IsValid (OsInfo.New os op s s2) <> None.
Proof.
  unfold OsInfo.New, OsInfo.IsValid.
  destruct (OsInfo.StringToOsType os); simpl; discriminate.
Qed.

Lemma read_os_defined value : E.read_os value <> None.
Proof.
  unfold E.read_os, E.SetOsInfo.
  destruct (GetDictionary value "os"); [|discriminate].
  destruct (GetDictionary d "version");
  match goal with
  | |- context [OsInfo.IsValid (OsInfo.New ?a ?b ?c ?d)] =>
      pose proof (OsInfo_New_IsValid_defined a b c d) as Hv;
      destruct (OsInfo.IsValid (OsInfo.New a b c d)) as [[|]|]
  end; unfold ok, null; simpl; solve [discriminate | congruence].
Qed.

(** The other readers have no [None] branch. *)
Ltac reader_defined :=
  intros;
  cbv beta delta [E.read_id E.read_description E.read_bugs E.read_vendor_id
                  E.read_device_id E.read_multi_gpu_style E.read_string_info
                  E.read_driver_version E.read_driver_date E.read_float_info
                  E.read_blacklist ok null];
  cbv zeta;
  repeat match goal with
  | |- context [match ?x with _ => _ end] => destruct x
  end; intro; discriminate.

Lemma read_id_defined value top : E.read_id value top <> None.
Proof. reader_defined. Qed.
Lemma read_description_defined value : E.read_description value <> None.
Proof. reader_defined. Qed.
Lemma read_bugs_defined value key : E.read_bugs value key <> None.
Proof. reader_defined. Qed.
Lemma read_vendor_id_defined value : E.read_vendor_id value <> None.
Proof. reader_defined. Qed.
Lemma read_device_id_defined value : E.read_device_id value <> None.
Proof. reader_defined. Qed.
Lemma read_multi_gpu_style_defined value : E.read_multi_gpu_style value <> None.
Proof. reader_defined. Qed.
Lemma read_string_info_defined value key : E.read_string_info value key <> None.
Proof. reader_defined. Qed.
Lemma read_driver_version_defined value : E.read_driver_version value <> None.
Proof. reader_defined. Qed.
Lemma read_driver_date_defined value : E.read_driver_date value <> None.
Proof. reader_defined. Qed.
Lemma read_float_info_defined value key : E.read_float_info value key <> None.
Proof. reader_defined. Qed.
Lemma read_blacklist_defined value top : E.read_blacklist value top <> None.
Proof. reader_defined. Qed.

Lemma add_exceptions_defined recur :
  (forall d, recur d <> None) ->
  forall l exceptions unknown_fields,
    E.add_exceptions recur exceptions unknown_fields l <> None.
Proof.
  intros Hrecur; induction l as [|v l IH]; intros exceptions unknown_fields;
    simpl; [discriminate|].
  destruct (AsDictionary v) as [d|]; [|discriminate].
  specialize (Hrecur d).
  destruct (recur d) as [[e|]|]; try congruence; try discriminate.
  destruct (E.contains_unknown_fields_ e); apply IH.
Qed.

Lemma read_exceptions_defined recur value top :
  (forall d, recur d <> None) -> E.read_exceptions recur value top <> None.
Proof.
  intros Hrecur. unfold E.read_exceptions.
  destruct top; [|discriminate].
  destruct (GetList value "exceptions") as [l|]; [|discriminate].
  pose proof (add_exceptions_defined recur Hrecur l [] false) as Hd.
  destruct (E.add_exceptions recur [] false l) as [[[? ?]|]|];
    congruence || discriminate.
Qed.

(** Case analysis on the result of the next reader of [FromValue]. *)
Ltac next_reader :=
  match goal with
  | |- context [E.read_id ?v ?t] =>
      pose proof (read_id_defined v t);
      destruct (E.read_id v t) as [[[[? ?] ?]|]|]
  | |- context [E.read_description ?v] =>
      pose proof (read_description_defined v);
      destruct (E.read_description v) as [[[? ?]|]|]
  | |- context [E.read_bugs ?v ?k] =>
      pose proof (read_bugs_defined v k);
      destruct (E.read_bugs v k) as [[[? ?]|]|]
  | |- context [E.read_os ?v] =>
      pose proof (read_os_defined v);
      destruct (E.read_os v) as [[[? ?]|]|]
  | |- context [E.read_vendor_id ?v] =>
      pose proof (read_vendor_id_defined v);
      destruct (E.read_vendor_id v) as [[[? ?]|]|]
  | |- context [E.read_device_id ?v] =>
      pose proof (read_device_id_defined v);
      destruct (E.read_device_id v) as [[[? ?]|]|]
  | |- context [E.read_multi_gpu_style ?v] =>
      pose proof (read_multi_gpu_style_defined v);
      destruct (E.read_multi_gpu_style v) as [[[? ?]|]|]
  | |- context [E.read_string_info ?v ?k] =>
      pose proof (read_string_info_defined v k);
      destruct (E.read_string_info v k) as [[[? ?]|]|]
  | |- context [E.read_driver_version ?v] =>
      pose proof (read_driver_version_defined v);
      destruct (E.read_driver_version v) as [[[? ?]|]|]
  | |- context [E.read_driver_date ?v] =>
      pose proof (read_driver_date_defined v);
      destruct (E.read_driver_date v) as [[[? ?]|]|]
  | |- context [E.read_float_info ?v ?k] =>
      pose proof (read_float_info_defined v k);
      destruct (E.read_float_info v k) as [[[? ?]|]|]
  | |- context [E.read_blacklist ?v ?t] =>
      pose proof (read_blacklist_defined v t);
      destruct (E.read_blacklist v t) as [[[[? ?] ?]|]|]
  end; try congruence; try discriminate.

Lemma FromValue_defined recur value top_level :
  (forall d, recur d <> None) -> E.FromValue recur value top_level <> None.
Proof.
  intros Hrecur. unfold E.FromValue.
  repeat next_reader.
  pose proof (read_exceptions_defined recur value top_level Hrecur).
  destruct (E.read_exceptions recur value top_level) as [[[[? ?] ?]|]|];
    try congruence; discriminate.
Qed.

Lemma GetGpuBlacklistEntryFromValue_defined value top_level :
  E.GetGpuBlacklistEntryFromValue value top_level <> None.
Proof.
  apply FromValue_defined. intros d. apply FromValue_defined. discriminate.
Qed.

(** *** A criterion that fails to parse

    The criteria are read before the blacklist and the exceptions, so the
    first reader that gives up decides the result. *)


(** *** A criterion that the input gets wrong

    Each reader gives up on the block it reads when the strings of the
    block are wrong. *)























(** *** The loop of the loader *)

(** The loop reads the object only for [browser_version_]. *)
Lemma load_entries_set_version b v l :
  forall entries m unknown,
    B.load_entries (B.set_version b v) l entries m unknown
    = B.load_entries b l entries m unknown.
Proof.
  induction l as [|x l IH]; intros entries m unknown; simpl; [reflexivity|].
  destruct (AsDictionary x) as [item|]; [|reflexivity].
  change (B.IsEntrySupportedByCurrentBrowserVersion (B.set_version b v) item)
    with (B.IsEntrySupportedByCurrentBrowserVersion b item).
  destruct (B.IsEntrySupportedByCurrentBrowserVersion b item) as [[| |]|];
    auto.
  destruct (E.GetGpuBlacklistEntryFromValue item true) as [[e|]|]; auto.
  destruct (E.contains_unknown_fields e); apply IH.
Qed.

(** What a load that returns false leaves: the object as it was, but for
    [version_], which holds the version of the rejected tree. *)
Lemma LoadGpuBlacklist_failure b parsed_json os_filter b' :
  B.LoadGpuBlacklist b parsed_json os_filter = Some (false, b') ->
  b' = B.set_version b
         (Version.GetVersionFromString (GetStringOr parsed_json "version" "")).
Proof.
  unfold B.LoadGpuBlacklist.
  destruct (Version.GetVersionFromString _) as [v|]; simpl; [|congruence].
  destruct (GetList parsed_json "entries") as [l|]; [|congruence].
  destruct (B.load_entries _ l [] 0 false) as [[[[? ?] ?]|]|]; congruence.
Qed.

(** What a load that returns true leaves. *)
Lemma LoadGpuBlacklist_success b parsed_json os_filter b' :
  B.LoadGpuBlacklist b parsed_json os_filter = Some (true, b') ->
  exists v l entries m unknown,
    Version.GetVersionFromString (GetStringOr parsed_json "version" "")
    = Some v
    /\ GetList parsed_json "entries" = Some l
    /\ B.load_entries b l [] 0 false = ok (entries, m, unknown)
    /\ b' = B.Build (Some v) (B.browser_version_ b)
                    (filter (B.os_filter_keeps os_filter GetOsType) entries)
                    [] m unknown.
Proof.
  unfold B.LoadGpuBlacklist.
  destruct (Version.GetVersionFromString _) as [v|] eqn:Hv; simpl;
    [|congruence].
  destruct (GetList parsed_json "entries") as [l|]; [|congruence].
  rewrite load_entries_set_version.
  destruct (B.load_entries b l [] 0 false) as [[[[entries m] unknown]|]|]
    eqn:Hload; try congruence.
  intros Heq. injection Heq as <-.
  exists v, l, entries, m, unknown. repeat split; assumption.
Qed.





(** C10. After a load that succeeds, [GetVersion] gives "major.minor"
    when the version of the loaded tree has exactly two components and
    the empty string when it has any other number of them. *)
Theorem C10_GetVersion_two_components_only :
  forall (b : B.t) parsed_json os_filter b',
    B.LoadGpuBlacklist b parsed_json os_filter = Some (true, b') ->
    exists v,
      Version.GetVersionFromString (GetStringOr parsed_json "version" "")
      = Some v
      /\ B.version_ b' = Some v
      /\ B.GetVersion b'
         = match Version.components v with
           | [major; minor] =>
               (Str.UintToString major ++ "." ++ Str.UintToString minor)%string
           | _ => ""
           end.
Proof.
  intros b parsed_json os_filter b' Hload.
  destruct (LoadGpuBlacklist_success _ _ _ _ Hload)
    as (v & l & entries & m & unknown & Hv & _ & _ & ->).
  exists v. repeat split; assumption.
Qed.

End Loader.



(** Each of the entries has a criterion that is wrong, and the parser
    returns NULL on each. *)
Example bad_items_fail_to_parse :
  Forall (fun item =>
            @bad_criterion Sample.linux item = true
            /\ @E.GetGpuBlacklistEntryFromValue Sample.linux item true = null)
         (Sample.bad_os_type_item :: Sample.bad_os_version_item
          :: Scenario.items_with_bad_criterion).
Proof. repeat constructor. Qed.

(** The hex ids span the 32 bits of a [uint32]. *)
Example hex_ids_span_32_bits :
  E.SetVendorId "0xFFFFFFFF" = (4294967295, true)
  /\ E.SetVendorId "0x80000000" = (2147483648, true)
  /\ E.SetVendorId "0x100000000" = (0, false).
Proof. repeat split. Qed.



(** The version "1.2.3" is accepted by the load, and [GetVersion] is then
    the empty string; after the load of "1.2" it is "1.2". *)
Lemma C10_witness :
  (exists b',
      @B.LoadGpuBlacklist Sample.linux B.New (Sample.config "1.2.3" [])
                          B.kAllOs
      = Some (true, b')
      /\ B.GetVersion b' = "")
  /\ (exists b',
        @B.LoadGpuBlacklist Sample.linux B.New (Sample.config "1.2" [])
                            B.kAllOs
        = Some (true, b')
        /\ B.GetVersion b' = "1.2").
Proof.
  split.
  - eexists. split; [reflexivity|].
    destruct (@C10_GetVersion_two_components_only Sample.linux B.New
                (Sample.config "1.2.3" []) B.kAllOs _ eq_refl)
      as (v & Hv & _ & ->).
    injection Hv as <-. reflexivity.
  - eexists. split; [reflexivity|].
    destruct (@C10_GetVersion_two_components_only Sample.linux B.New
                (Sample.config "1.2" []) B.kAllOs _ eq_refl)
      as (v & Hv & _ & ->).
    injection Hv as <-. reflexivity.
Defined.

(** C2. A load that fails does not leave the object as it was: after a
    load of version "1.0", the load of a tree with version "2.0" and no
    entries list returns false and [GetVersion] is "2.0"; the load of a
    tree with no version returns false and [GetVersion] is empty. The
    other members are as before. *)
Theorem C2_failed_load_overwrites_version :
  exists loaded,
    @B.LoadGpuBlacklist Sample.linux (Sample.blacklist [])
      (Sample.config "1.0" [Sample.webgl_item]) B.kAllOs
    = Some (true, loaded)
    /\ B.GetVersion loaded = "1.0"
    /\ @B.LoadGpuBlacklist Sample.linux loaded
         [("version", StringValue "2.0")] B.kAllOs
       = Some (false, B.set_version loaded (Some (Sample.version [2; 0]%N)))
    /\ B.GetVersion (B.set_version loaded (Some (Sample.version [2; 0]%N)))
       = "2.0"
    /\ @B.LoadGpuBlacklist Sample.linux loaded [] B.kAllOs
       = Some (false, B.set_version loaded None)
    /\ B.GetVersion (B.set_version loaded None) = "".
Proof. eexists. repeat split. Qed.

(** * Further properties *)

(** ** The Eq loop, in full *)

Section VersionEqFull.

Import VersionInfo.

Lemma skipn_nth_error {A} (l : list A) (i : nat) (x : A) :
  nth_error l i = Some x -> skipn i l = x :: skipn (S i) l.
Proof.
  revert i; induction l as [|y l IH]; intros [|i] Hx; try discriminate.
  - injection Hx as ->. reflexivity.
  - simpl in Hx. rewrite (skipn_cons i y l). apply IH. exact Hx.
Qed.

(** The loop returns true only when the candidate goes on, from the
    current position, as the criterion does. *)
Lemma eq_loop_true (rest : list N) :
  forall i components,
    eq_loop i rest components = Some true ->
    exists extra, skipn i components = (rest ++ extra)%list.
Proof.
  induction rest as [|r rest IH]; intros i components Hloop.
  - exists (skipn i components). reflexivity.
  - cbn [eq_loop] in Hloop.
    destruct ((List.length components <=? i)%nat && negb (r =? 0)%N);
      [discriminate|].
    destruct (nth_error components i) as [c|] eqn:Hc; [|discriminate].
    destruct (c =? r)%N eqn:Hcr; [|discriminate]. cbn [negb] in Hloop.
    apply N.eqb_eq in Hcr. subst c.
    destruct (IH _ _ Hloop) as [extra Hextra].
    exists extra. rewrite (skipn_nth_error _ _ _ Hc), Hextra. reflexivity.
Qed.

(** The loop faults only when the candidate ends, from the current
    position, where the criterion has a zero. *)
Lemma eq_loop_fault (rest : list N) :
  forall i components,
    (i <= List.length components)%nat ->
    eq_loop i rest components = None ->
    exists tail, rest = (skipn i components ++ 0%N :: tail)%list.
Proof.
  induction rest as [|r rest IH]; intros i components Hi Hloop;
    [discriminate|].
  cbn [eq_loop] in Hloop.
  destruct ((List.length components <=? i)%nat && negb (r =? 0)%N) eqn:Hguard;
    [discriminate|].
  destruct (nth_error components i) as [c|] eqn:Hc.
  - destruct (c =? r)%N eqn:Hcr; [|discriminate]. cbn [negb] in Hloop.
    apply N.eqb_eq in Hcr. subst c.
    assert (Hlt : (i < List.length components)%nat)
      by (apply nth_error_Some; congruence).
    destruct (IH (S i) components Hlt Hloop) as [tail ->].
    exists tail. rewrite (skipn_nth_error _ _ _ Hc). reflexivity.
  - apply nth_error_None in Hc.
    assert (Hle : (List.length components <=? i)%nat = true)
      by (apply Nat.leb_le; exact Hc).
    rewrite Hle in Hguard. cbn [andb] in Hguard.
    apply negb_false_iff, N.eqb_eq in Hguard. subst r.
    exists rest. rewrite skipn_all2 by exact Hc. reflexivity.
Qed.

Lemma eq_loop_zero_past_end (tail : list N) :
  forall pre rest,
    eq_loop (List.length pre) (rest ++ 0%N :: tail)%list (pre ++ rest)%list
    = None.
Proof.
  intros pre rest; revert pre; induction rest as [|r rest IH]; intros pre.
  - rewrite app_nil_r. cbn [app eq_loop]. rewrite N.eqb_refl.
    cbn [negb]. rewrite andb_false_r.
    assert (H : nth_error pre (List.length pre) = None)
      by (apply nth_error_None; lia).
    rewrite H. reflexivity.
  - change ((r :: rest) ++ 0%N :: tail)%list
      with (r :: rest ++ 0%N :: tail)%list.
    rewrite eq_loop_same. apply IH.
Qed.

(** X1. An Eq criterion contains exactly the candidates whose components
    start with the criterion's: a true result never comes from a
    candidate that is shorter than the criterion. *)
Theorem X1_eq_true_iff_prefix :
  forall style version2 (reference candidate : list N),
    Contains (Build kEQ style (Some (Version.Build reference)) version2)
             (Version.Build candidate) = Some true
    <-> exists extra, candidate = (reference ++ extra)%list.
Proof.
  intros style version2 reference candidate. unfold Contains. simpl. split.
  - intros Hloop. exact (eq_loop_true reference 0 candidate Hloop).
  - intros [extra ->]. exact (eq_loop_prefix reference [] extra).
Qed.

(** X2. The Eq comparison reads past the end of the candidate exactly
    when the candidate is a proper prefix of the criterion and the
    criterion's next component is 0. *)
Theorem X2_eq_fault_iff_zero_after_candidate :
  forall style version2 (reference candidate : list N),
    Contains (Build kEQ style (Some (Version.Build reference)) version2)
             (Version.Build candidate) = None
    <-> exists tail, reference = (candidate ++ 0%N :: tail)%list.
Proof.
  intros style version2 reference candidate. unfold Contains. simpl. split.
  - intros Hloop.
    exact (eq_loop_fault reference 0 candidate (Nat.le_0_l _) Hloop).
  - intros [tail ->]. exact (eq_loop_zero_past_end tail [] candidate).
Qed.

Context `{Platform}.

(** X3. A criterion built by the constructor holds the versions its
    operator reads ([version_] unless the operator is unknown or any,
    [version2_] under Between), so [Contains] dereferences no NULL
    pointer; it faults exactly when the operator is Eq and the version
    of the criterion is the candidate followed by a component 0 and any
    further components: the read past the end in the Eq loop. *)
Theorem X3_constructed_criterion_faults_only_in_eq :
  forall version_op version_style version_string version_string2 version,
    (op_ (New version_op version_style version_string version_string2)
       <> kUnknown
     /\ op_ (New version_op version_style version_string version_string2)
          <> kAny
     <-> StringToNumericOp version_op <> kUnknown
         /\ StringToNumericOp version_op <> kAny
         /\ version_ (New version_op version_style version_string
                          version_string2) <> None
         /\ (StringToNumericOp version_op = kBetween ->
             version2_ (New version_op version_style version_string
                            version_string2) <> None))
    /\ (Contains (New version_op version_style version_string version_string2)
                 version = None
        <-> exists tail,
              op_ (New version_op version_style version_string
                       version_string2) = kEQ
              /\ version_ (New version_op version_style version_string
                               version_string2)
                 = Some (Version.Build
                           (Version.components version ++ 0%N :: tail))).
Proof.
  intros version_op version_style version_string version_string2 version.
  unfold New.
  destruct (StringToNumericOp version_op);
    repeat match goal with
    | |- context [Version.GetVersionFromString ?s] =>
        destruct (Version.GetVersionFromString s) as [[?]|]
    end;
    cbv zeta; unfold Contains;
    cbn [op_ version_ version2_ Version.components];
    (split; [intuition congruence|]);
    try (split; [discriminate|intros (? & ? & ?); discriminate]);
    try (destruct (Version.CompareTo version _ <? 0);
         (split; [discriminate|intros (? & ? & ?); discriminate])).
  destruct version as [candidate]. cbn [Version.components]. split.
  - intros Hloop.
    destruct (eq_loop_fault _ 0 candidate (Nat.le_0_l _) Hloop) as [tail ->].
    exists tail. split; reflexivity.
  - intros (tail & _ & Hreference). injection Hreference as ->.
    exact (eq_loop_zero_past_end tail [] candidate).
Qed.

End VersionEqFull.

Lemma X3_witness :
  VersionInfo.Contains (Sample.eq_criterion "10.6.0")
                       (Sample.version [10; 6]%N) = None
  /\ exists tail,
       VersionInfo.op_ (Sample.eq_criterion "10.6.0") = kEQ
       /\ VersionInfo.version_ (Sample.eq_criterion "10.6.0")
          = Some (Version.Build
                    (Version.components (Sample.version [10; 6]%N)
                     ++ 0%N :: tail)).
Proof.
  split; [reflexivity|].
  exact (proj1 (proj2 (@X3_constructed_criterion_faults_only_in_eq
                         Sample.linux "=" "" "10.6.0" ""
                         (Sample.version [10; 6]%N)))
               eq_refl).
Defined.

(** ** The helpers of the anonymous namespace *)

Section Lexical.

Local Open Scope string_scope.

Lemma find_first_of_app (c : ascii) (a b : string) :
  Str.find_first_of c a = None ->
  Str.find_first_of c (a ++ String c b) = Some (String.length a).
Proof.
  induction a as [|x a IH]; simpl.
  - intros _. rewrite Ascii.eqb_refl. reflexivity.
  - destruct (Ascii.eqb x c); [discriminate|].
    destruct (Str.find_first_of c a); [discriminate|].
    intros _. rewrite IH by reflexivity. reflexivity.
Qed.

Lemma find_first_of_split (c : ascii) (s : string) :
  forall pos,
    Str.find_first_of c s = Some pos ->
    exists a b,
      s = a ++ String c b
      /\ Str.find_first_of c a = None
      /\ String.length a = pos.
Proof.
  induction s as [|x s IH]; intros pos Hpos; [discriminate|].
  simpl in Hpos. destruct (Ascii.eqb x c) eqn:Hx.
  - apply Ascii.eqb_eq in Hx. subst x. injection Hpos as <-.
    exists EmptyString, s. repeat split.
  - destruct (Str.find_first_of c s) as [i|] eqn:Hi; [|discriminate].
    injection Hpos as <-.
    destruct (IH i eq_refl) as (a & b & -> & Ha & Hlen).
    exists (String x a), b. simpl. rewrite Hx, Ha, Hlen. repeat split.
Qed.

Lemma substr0_app (a b : string) :
  Str.substr0 (String.length a) (a ++ b) = a.
Proof.
  unfold Str.substr0. induction a as [|x a IH]; simpl.
  - destruct b; reflexivity.
  - rewrite IH. reflexivity.
Qed.

Lemma drop_app (a : string) (c : ascii) (b : string) :
  Str.drop (String.length a + 1) (a ++ String c b) = b.
Proof. induction a as [|x a IH]; simpl; [reflexivity|exact IH]. Qed.

Lemma length_app_dot (a : string) (c : ascii) (b : string) :
  String.length (a ++ String c b) = (String.length a + S (String.length b))%nat.
Proof. induction a as [|x a IH]; simpl; [reflexivity|rewrite IH; reflexivity]. Qed.

(** [NumericalToLexical] on a string cut at its first dot. *)
Lemma NumericalToLexical_at_dot (a b : string) :
  Str.find_first_of "."%char a = None ->
  NumericalToLexical (a ++ String "."%char b)
  = match b, lexical_tail b with
    | String _ _, Some t => a ++ t
    | _, _ => a ++ String "."%char b
    end.
Proof.
  intros Ha. unfold NumericalToLexical.
  rewrite (find_first_of_app _ a b Ha), length_app_dot, drop_app, substr0_app.
  destruct b as [|d b].
  - assert (Hlt : (String.length a + 1 <? String.length a + 1)%nat = false)
      by (apply Nat.ltb_irrefl).
    cbn [String.length]. rewrite Hlt. reflexivity.
  - assert (Hlt : (String.length a + 1
                   <? String.length a + S (String.length (String d b)))%nat
                  = true)
      by (apply Nat.ltb_lt; simpl; lia).
    rewrite Hlt. reflexivity.
Qed.

Lemma lexical_tail_digits (s : string) :
  lexical_tail s = if all_digits s then Some (dotted s) else None.
Proof.
  induction s as [|c s IH]; [reflexivity|]. simpl.
  destruct (Str.IsAsciiDigit c); [|reflexivity]. rewrite IH.
  destruct (all_digits s); reflexivity.
Qed.

(** A dotted string is empty or starts with a dot, which is no digit. *)
Lemma lexical_tail_dotted (s : string) :
  lexical_tail (dotted s) = match s with EmptyString => Some EmptyString
                                       | _ => None end.
Proof. destruct s; reflexivity. Qed.

(** X4. On a string of the shape major.digits (no dot in major, one or
    more digits after the dot and nothing else) [NumericalToLexical]
    makes every digit a component of its own. *)
Theorem X4_NumericalToLexical_splits_digits :
  forall major digits : string,
    Str.find_first_of "."%char major = None ->
    digits <> "" ->
    all_digits digits = true ->
    NumericalToLexical (major ++ "." ++ digits) = major ++ dotted digits.
Proof.
  intros major digits Hmajor Hne Hdigits.
  change (major ++ "." ++ digits) with (major ++ String "."%char digits).
  rewrite (NumericalToLexical_at_dot _ _ Hmajor).
  destruct digits as [|d digits]; [congruence|].
  rewrite lexical_tail_digits, Hdigits. reflexivity.
Qed.

(** X5. [NumericalToLexical] is idempotent: a string it has rewritten is
    returned unchanged, so a version that is re-encoded twice is the
    version re-encoded once. *)
Theorem X5_NumericalToLexical_idempotent :
  forall numerical : string,
    NumericalToLexical (NumericalToLexical numerical)
    = NumericalToLexical numerical.
Proof.
  intros numerical.
  destruct (Str.find_first_of "."%char numerical) as [pos|] eqn:Hpos.
  2:{ assert (Hsame : NumericalToLexical numerical = numerical)
        by (unfold NumericalToLexical; rewrite Hpos; reflexivity).
      rewrite !Hsame. reflexivity. }
  destruct (find_first_of_split _ _ _ Hpos) as (a & b & -> & Ha & _).
  rewrite (NumericalToLexical_at_dot a b Ha).
  destruct b as [|d b];
    [rewrite (NumericalToLexical_at_dot a _ Ha); reflexivity|].
  destruct (lexical_tail (String d b)) as [t|] eqn:Ht;
    [|rewrite (NumericalToLexical_at_dot a _ Ha), Ht; reflexivity].
  rewrite lexical_tail_digits in Ht.
  destruct (all_digits (String d b)) eqn:Hd; [|discriminate].
  injection Ht as <-. cbn [dotted].
  rewrite (NumericalToLexical_at_dot a _ Ha).
  simpl in Hd. apply andb_prop in Hd as [Hd _].
  cbn [lexical_tail]. rewrite Hd, lexical_tail_dotted.
  destruct b; reflexivity.
Qed.

(** X6. [NumericalToLexical] changes only strings of the shape
    major.digits: any other string (no dot, nothing after the first dot,
    or a character after it that is no digit) is returned as it is. *)
Theorem X6_NumericalToLexical_changes_only_major_digits :
  forall numerical : string,
    NumericalToLexical numerical = numerical
    \/ exists major digits,
         numerical = major ++ "." ++ digits
         /\ Str.find_first_of "."%char major = None
         /\ digits <> ""
         /\ all_digits digits = true.
Proof.
  intros numerical.
  destruct (Str.find_first_of "."%char numerical) as [pos|] eqn:Hpos.
  2:{ left. unfold NumericalToLexical. rewrite Hpos. reflexivity. }
  destruct (find_first_of_split _ _ _ Hpos) as (a & b & -> & Ha & _).
  rewrite (NumericalToLexical_at_dot a b Ha).
  destruct b as [|d b]; [left; reflexivity|].
  rewrite lexical_tail_digits.
  destruct (all_digits (String d b)) eqn:Hd; [|left; reflexivity].
  right. exists a, (String d b). repeat split; [exact Ha|discriminate|exact Hd].
Qed.

Lemma SplitString_acc_length (sep : ascii) (s : string) :
  forall cur,
    List.length (Str.SplitString_acc sep s cur) = S (occurrences sep s).
Proof.
  induction s as [|c s IH]; intros cur; simpl; [reflexivity|].
  destruct (Ascii.eqb c sep); simpl; rewrite IH; reflexivity.
Qed.

(** X7. [GetDateFromString] gives NULL for every string that does not
    have exactly two hyphens. *)
Theorem X7_GetDateFromString_needs_two_hyphens :
  forall date_string : string,
    occurrences "-"%char date_string <> 2%nat ->
    GetDateFromString date_string = None.
Proof.
  intros date_string Hcount. unfold GetDateFromString.
  pose proof (SplitString_acc_length "-"%char date_string EmptyString) as Hlen.
  unfold Str.SplitString.
  destruct (Str.SplitString_acc "-"%char date_string EmptyString)
    as [|p0 [|p1 [|p2 [|p3 pieces]]]]; try reflexivity.
  simpl in Hlen. congruence.
Qed.

End Lexical.

(** "8.103" becomes "8.1.0.3". *)
Lemma X4_witness : NumericalToLexical "8.103" = "8.1.0.3".
Proof.
  apply (X4_NumericalToLexical_splits_digits "8" "103");
    [reflexivity|discriminate|reflexivity].
Defined.

(** A date with one hyphen, and one with three. *)
Lemma X7_witness :
  GetDateFromString "03-2013" = None
  /\ GetDateFromString "03-21-20-13" = None.
Proof.
  split; apply X7_GetDateFromString_needs_two_hyphens; simpl; lia.
Defined.

(** ** The string and the float matcher *)

Section Matchers.

Lemma ToLowerASCII_idempotent (c : ascii) :
  Str.ToLowerASCII (Str.ToLowerASCII c) = Str.ToLowerASCII c.
Proof. destruct c as [[] [] [] [] [] [] [] []]; reflexivity. Qed.

Lemma StringToLowerASCII_idempotent (s : string) :
  Str.StringToLowerASCII (Str.StringToLowerASCII s) = Str.StringToLowerASCII s.
Proof.
  induction s as [|c s IH]; [reflexivity|].
  simpl. rewrite ToLowerASCII_idempotent, IH. reflexivity.
Qed.

(** X8. String matching ignores the case of ASCII letters on both sides:
    putting the criterion's value or the matched string in lower case
    beforehand changes no result, whatever the operator. *)
Theorem X8_string_match_ignores_case :
  forall op value s : string,
    StringInfo.Contains (StringInfo.New op value) s
    = StringInfo.Contains
        (StringInfo.New op (Str.StringToLowerASCII value))
        (Str.StringToLowerASCII s).
Proof.
  intros op value s.
  unfold StringInfo.Contains, StringInfo.New.
  cbn [StringInfo.op_ StringInfo.value_].
  rewrite !StringToLowerASCII_idempotent. reflexivity.
Qed.

Lemma prefix_refl (s : string) : prefix s s = true.
Proof.
  induction s as [|c s IH]; [reflexivity|].
  simpl. destruct (ascii_dec c c); [exact IH|congruence].
Qed.

Lemma strstr_refl (s : string) : Str.strstr s s = true.
Proof. destruct s; simpl; [reflexivity|]. 
  destruct (ascii_dec a a); [|congruence]. rewrite prefix_refl. reflexivity.
Qed.

(** X9. Equality is the strongest string operator: a string that the
    "=" criterion contains is contained by the criterion with the same
    value under "contains", "beginwith" and "endwith". *)
Theorem X9_string_eq_implies_other_operators :
  forall op value s : string,
    StringInfo.Contains (StringInfo.New "=" value) s = true ->
    StringInfo.IsValid (StringInfo.New op value) = true ->
    StringInfo.Contains (StringInfo.New op value) s = true.
Proof.
  intros op value s Heq Hvalid.
  unfold StringInfo.Contains, StringInfo.New, StringInfo.IsValid in *.
  cbn [StringInfo.op_ StringInfo.value_] in *.
  change (StringInfo.StringToOp "=") with StringInfo.kEQ in Heq.
  cbv iota in Heq. apply String.eqb_eq in Heq. rewrite <- Heq.
  destruct (StringInfo.StringToOp op); try discriminate.
  - apply strstr_refl.
  - unfold Str.StartsWithASCII. apply prefix_refl.
  - unfold Str.EndsWith. apply prefix_refl.
  - apply String.eqb_refl.
Qed.

Lemma SFcompare_nan_r (v : float) : SFcompare v S754_nan = None.
Proof. destruct v; reflexivity. Qed.

(** X10. A NaN is contained by no float criterion but "any": every
    comparison with it fails, Between included. *)
Theorem X10_float_nan_only_any :
  forall fi : FloatInfo.t,
    FloatInfo.Contains fi S754_nan = true <-> FloatInfo.op_ fi = kAny.
Proof.
  intros [op value value2]. unfold FloatInfo.Contains.
  cbn [FloatInfo.op_ FloatInfo.value_ FloatInfo.value2_].
  unfold SFeqb, SFltb, SFleb. rewrite !SFcompare_nan_r.
  destruct op; simpl; split; intros Hx; try discriminate; reflexivity.
Qed.

(** X11. A float Between whose bounds are the same value is the
    equality test with that value. *)
Theorem X11_float_between_equal_bounds_is_eq :
  forall (bound other v : float),
    FloatInfo.Contains (FloatInfo.Build kBetween bound bound) v
    = FloatInfo.Contains (FloatInfo.Build kEQ bound other) v.
Proof.
  intros bound other v. unfold FloatInfo.Contains.
  cbn [FloatInfo.op_ FloatInfo.value_ FloatInfo.value2_].
  rewrite orb_diag. unfold SFleb, SFeqb.
  destruct (SFcompare v bound) as [c|] eqn:Hc.
  - rewrite (SFcompare_antisym _ _ _ Hc). destruct c; reflexivity.
  - destruct (SFcompare bound v) as [c|] eqn:Hc'; [|reflexivity].
    rewrite (SFcompare_antisym _ _ _ Hc') in Hc. discriminate.
Qed.

Context `{Platform}.

(** X12. A float criterion is valid exactly when its operator is known,
    its value parses and, for Between, its second value parses: under
    "any", too, the value must parse. *)
Theorem X12_float_criterion_valid_iff :
  forall float_op float_value float_value2 : string,
    FloatInfo.IsValid (FloatInfo.New float_op float_value float_value2) = true
    <-> StringToDouble float_value <> None
        /\ StringToNumericOp float_op <> kUnknown
        /\ (StringToNumericOp float_op = kBetween ->
            StringToDouble float_value2 <> None).
Proof.
  intros float_op float_value float_value2.
  unfold FloatInfo.New, FloatInfo.IsValid.
  destruct (StringToDouble float_value) as [d|];
    [|simpl; split; [discriminate|intros [Hd _]; congruence]].
  destruct (StringToNumericOp float_op) eqn:Hop;
    try (destruct (StringToDouble float_value2) as [d2|]);
    cbn [FloatInfo.op_]; split; intros Hx;
    try discriminate; try reflexivity;
    try (repeat split; discriminate);
    try (destruct Hx as (_ & Hu & Hb); solve [congruence | now destruct Hb]).
Qed.

End Matchers.

(** "NVIDIA" under "=" against "nvidia", and so under the other three. *)
Lemma X9_witness :
  StringInfo.Contains (StringInfo.New "contains" "NVIDIA") "nvidia" = true
  /\ StringInfo.Contains (StringInfo.New "beginwith" "NVIDIA") "nvidia" = true
  /\ StringInfo.Contains (StringInfo.New "endwith" "NVIDIA") "nvidia" = true.
Proof.
  split; [|split].
  - exact (X9_string_eq_implies_other_operators "contains" "NVIDIA" "nvidia"
             eq_refl eq_refl).
  - exact (X9_string_eq_implies_other_operators "beginwith" "NVIDIA" "nvidia"
             eq_refl eq_refl).
  - exact (X9_string_eq_implies_other_operators "endwith" "NVIDIA" "nvidia"
             eq_refl eq_refl).
Defined.

(** ** The entry evaluator, in full *)

Section Evaluator.

Variables (os_type : OsType) (os_version : Version.t) (gpu_info : GPUInfo).

Lemma exceptions_loop_true_iff {A} (f : A -> option bool) (l : list A) :
  E.exceptions_loop f l = Some true <-> Forall (fun x => f x = Some false) l.
Proof.
  split; [|apply exceptions_loop_none_hit].
  induction l as [|x l IH]; intros Hloop; [constructor|].
  cbn [E.exceptions_loop] in Hloop.
  destruct (f x) as [[|]|] eqn:Hx; try discriminate.
  constructor; [exact Hx|exact (IH Hloop)].
Qed.

Lemma and_then_true_iff (c k : option bool) :
  and_then c k = Some true <-> c = Some true /\ k = Some true.
Proof.
  destruct c as [[|]|]; simpl; split; try tauto; try discriminate;
    intros [? ?]; discriminate.
Qed.

(** [Contains] without the exceptions is the chain of its tests. *)
Lemma criteria_only_chain (e : E.t) :
  E.Contains (criteria_only e) os_type os_version gpu_info
  = and_then (os_check os_type os_version e)
     (and_then (passes (vendor_fails gpu_info e))
     (and_then (passes (device_fails gpu_info e))
     (and_then (passes (multi_gpu_fails gpu_info e))
     (and_then (passes (string_fails (E.driver_vendor_info_ e)
                                     (driver_vendor gpu_info)))
     (and_then (driver_version_check gpu_info e)
     (and_then (driver_date_check gpu_info e)
     (and_then (passes (string_fails (E.gl_vendor_info_ e)
                                     (gl_vendor gpu_info)))
     (and_then (passes (string_fails (E.gl_renderer_info_ e)
                                     (gl_renderer gpu_info)))
     (and_then (passes (perf_criterion_fails
                          (E.perf_graphics_info_ e)
                          (graphics (performance_stats gpu_info))))
     (and_then (passes (perf_criterion_fails
                          (E.perf_gaming_info_ e)
                          (gaming (performance_stats gpu_info))))
     (and_then (passes (perf_criterion_fails
                          (E.perf_overall_info_ e)
                          (overall (performance_stats gpu_info))))
               (Some true)))))))))))).
Proof.
  destruct e.
  unfold criteria_only, os_check, driver_version_check, driver_date_check,
    string_fails, perf_criterion_fails, multi_gpu_fails, vendor_fails,
    device_fails, passes, and_then.
  cbn -[E.exceptions_loop OsInfo.Contains VersionInfo.Contains
        StringInfo.Contains E.perf_fails Version.GetVersionFromString
        GetDateFromString NumericalToLexical].
  cbn [E.exceptions_loop].
  step_contains.
Qed.

Lemma passes_true_iff (fails : bool) :
  passes fails = Some true <-> fails = false.
Proof. unfold passes. destruct fails; simpl; split; intros; congruence. Qed.

Lemma os_check_iff (e : E.t) :
  os_check os_type os_version e = Some true
  <-> if_present (E.os_info_ e)
        (fun info => OsInfo.Contains info os_type os_version = Some true).
Proof. unfold os_check. destruct (E.os_info_ e); simpl; tauto. Qed.

Lemma vendor_fails_iff (e : E.t) :
  vendor_fails gpu_info e = false
  <-> E.vendor_id_ e = 0 \/ E.vendor_id_ e = vendor_id (gpu gpu_info).
Proof.
  unfold vendor_fails.
  destruct (Z.eqb_spec (E.vendor_id_ e) 0),
           (Z.eqb_spec (E.vendor_id_ e) (vendor_id (gpu gpu_info)));
    simpl; split; intros; auto; try discriminate; tauto.
Qed.

Lemma existsb_device (d : Z) (l : list Z) :
  existsb (fun x => x =? d) l = true <-> In d l.
Proof.
  rewrite existsb_exists. split.
  - intros (x & Hin & Hx). apply Z.eqb_eq in Hx. subst. exact Hin.
  - intros Hin. exists d. split; [exact Hin|apply Z.eqb_refl].
Qed.

Lemma device_fails_iff (e : E.t) :
  device_fails gpu_info e = false
  <-> E.device_id_list_ e = []
      \/ In (device_id (gpu gpu_info)) (E.device_id_list_ e).
Proof.
  unfold device_fails.
  destruct (E.device_id_list_ e) as [|d l] eqn:Hl; [simpl; tauto|].
  rewrite <- existsb_device. cbn [List.length Nat.ltb Nat.leb andb].
  destruct (existsb _ (d :: l)); simpl; split; intros; auto;
    try discriminate.
  destruct H as [H|H]; discriminate.
Qed.

Lemma multi_gpu_fails_iff (e : E.t) :
  multi_gpu_fails gpu_info e = false
  <-> match E.multi_gpu_style_ e with
      | E.kMultiGpuStyleOptimus => optimus gpu_info = true
      | E.kMultiGpuStyleAMDSwitchable => amd_switchable gpu_info = true
      | E.kMultiGpuStyleNone => True
      end.
Proof.
  unfold multi_gpu_fails.
  destruct (E.multi_gpu_style_ e); [| |tauto];
    rewrite negb_false_iff; tauto.
Qed.

Lemma string_fails_iff (info : option StringInfo.t) (s : string) :
  string_fails info s = false
  <-> if_present info (fun info => StringInfo.Contains info s = true).
Proof.
  destruct info; simpl; [rewrite negb_false_iff|]; tauto.
Qed.

Lemma driver_version_check_iff (e : E.t) :
  driver_version_check gpu_info e = Some true
  <-> if_present (E.driver_version_info_ e)
        (fun info =>
           exists version,
             Version.GetVersionFromString
               (if VersionInfo.IsLexical info
                then NumericalToLexical (driver_version gpu_info)
                else driver_version gpu_info) = Some version
             /\ VersionInfo.Contains info version = Some true).
Proof.
  unfold driver_version_check.
  destruct (E.driver_version_info_ e) as [info|]; simpl; [|tauto].
  destruct (Version.GetVersionFromString _) as [v|]; split.
  - intros Hv. exists v. split; [reflexivity|exact Hv].
  - intros (v' & Hv & Hc). injection Hv as <-. exact Hc.
  - discriminate.
  - intros (v' & Hv & _). discriminate.
Qed.

Lemma driver_date_check_iff (e : E.t) :
  driver_date_check gpu_info e = Some true
  <-> if_present (E.driver_date_info_ e)
        (fun info =>
           exists date,
             GetDateFromString (driver_date gpu_info) = Some date
             /\ VersionInfo.Contains info date = Some true).
Proof.
  unfold driver_date_check.
  destruct (E.driver_date_info_ e) as [info|]; simpl; [|tauto].
  destruct (GetDateFromString _) as [d|]; split.
  - intros Hd. exists d. split; [reflexivity|exact Hd].
  - intros (d' & Hd & Hc). injection Hd as <-. exact Hc.
  - discriminate.
  - intros (d' & Hd & _). discriminate.
Qed.

Lemma perf_criterion_fails_iff (info : option FloatInfo.t) (stat : float) :
  perf_criterion_fails info stat = false
  <-> if_present info
        (fun info =>
           unmeasured stat = false /\ FloatInfo.Contains info stat = true).
Proof.
  destruct info as [info|]; simpl; [|tauto].
  unfold E.perf_fails, unmeasured.
  rewrite orb_false_iff, negb_false_iff. tauto.
Qed.

Lemma criteria_only_true_iff (e : E.t) :
  E.Contains (criteria_only e) os_type os_version gpu_info = Some true
  <-> criteria_hold e os_type os_version gpu_info.
Proof.
  rewrite criteria_only_chain. unfold criteria_hold.
  rewrite !and_then_true_iff, !passes_true_iff, os_check_iff,
    vendor_fails_iff, device_fails_iff, multi_gpu_fails_iff,
    !string_fails_iff, driver_version_check_iff, driver_date_check_iff,
    !perf_criterion_fails_iff.
  tauto.
Qed.

(** X13. An entry matches exactly when every criterion it specifies is
    met by the hardware and each of its exceptions returns false. *)
Theorem X13_entry_matches_iff_criteria_and_no_exception :
  forall e : E.t,
    E.Contains e os_type os_version gpu_info = Some true
    <-> criteria_hold e os_type os_version gpu_info
        /\ Forall (fun x => E.Contains x os_type os_version gpu_info = Some false)
                  (E.exceptions_ e).
Proof.
  intros e. rewrite (Contains_exceptions e).
  rewrite <- criteria_only_true_iff, <- exceptions_loop_true_iff.
  destruct (E.Contains (criteria_only e) os_type os_version gpu_info) as [[|]|]; split;
    try tauto; try discriminate; intros [? ?]; discriminate.
Qed.

(** X14. An entry with a driver version criterion never matches hardware
    whose driver version string does not parse, and an entry with a
    driver date criterion never matches hardware whose driver date does
    not parse, whatever the criterion's operator. *)
Theorem X14_unparsable_driver_version_or_date_never_matches :
  forall (e : E.t) (info : VersionInfo.t),
    (E.driver_version_info_ e = Some info
     /\ Version.GetVersionFromString
          (if VersionInfo.IsLexical info
           then NumericalToLexical (driver_version gpu_info)
           else driver_version gpu_info) = None)
    \/ (E.driver_date_info_ e = Some info
        /\ GetDateFromString (driver_date gpu_info) = None) ->
    E.Contains e os_type os_version gpu_info <> Some true.
Proof.
  intros e info Hbad Hhit.
  rewrite (Contains_exceptions e) in Hhit.
  destruct (E.Contains (criteria_only e) os_type os_version gpu_info)
    as [[|]|] eqn:Hc; try discriminate.
  apply criteria_only_true_iff in Hc.
  destruct Hc as (_ & _ & _ & _ & _ & Hversion & Hdate & _).
  destruct Hbad as [[Hinfo Hparse]|[Hinfo Hparse]].
  - rewrite Hinfo in Hversion. destruct Hversion as (v & Hv & _). congruence.
  - rewrite Hinfo in Hdate. destruct Hdate as (d & Hd & _). congruence.
Qed.

Lemma criteria_only_with_exceptions (e : E.t) (l : list E.t) :
  criteria_only (with_exceptions e l) = criteria_only e
  /\ E.exceptions_ (with_exceptions e l) = l.
Proof. destruct e. split; reflexivity. Qed.

(** X15. Exceptions only narrow an entry: if the entry matches with a
    list of exceptions, it matches with any prefix of the list, and in
    particular with none. *)
Theorem X15_exceptions_only_narrow :
  forall (e : E.t) (exceptions more : list E.t),
    E.Contains (with_exceptions e (exceptions ++ more)%list)
               os_type os_version gpu_info = Some true ->
    E.Contains (with_exceptions e exceptions) os_type os_version gpu_info
    = Some true.
Proof.
  intros e exceptions more.
  rewrite (Contains_exceptions (with_exceptions e (exceptions ++ more)%list)),
    (Contains_exceptions (with_exceptions e exceptions)).
  destruct (criteria_only_with_exceptions e (exceptions ++ more)%list)
    as [-> ->].
  destruct (criteria_only_with_exceptions e exceptions) as [-> ->].
  destruct (E.Contains (criteria_only e) os_type os_version gpu_info)
    as [[|]|]; try discriminate.
  rewrite !exceptions_loop_true_iff. intros Hall.
  apply Forall_app in Hall. tauto.
Qed.

End Evaluator.

(** A driver version "8.17-beta" under a criterion with op "any". *)
Lemma X14_witness :
  E.Contains Scenario.any_driver_version_entry kOsLinux
             (Sample.version [3; 2]%N) Scenario.odd_driver <> Some true
  /\ E.Contains Scenario.any_driver_version_entry kOsLinux
                (Sample.version [3; 2]%N) Scenario.odd_driver = Some false.
Proof.
  split; [|reflexivity].
  apply (X14_unparsable_driver_version_or_date_never_matches
           kOsLinux (Sample.version [3; 2]%N) Scenario.odd_driver
           Scenario.any_driver_version_entry
           (VersionInfo.Build kAny kVersionStyleNumerical None None)).
  left. split; reflexivity.
Defined.

(** The entry for vendor 0x10de with its exception for device 0x1234
    matches device 1, and so does the entry without the exception. *)
Lemma X15_witness :
  E.Contains (with_exceptions Sample.webgl_entry []) kOsLinux
             (Sample.version [3; 2]%N) (Sample.nvidia 1) = Some true.
Proof.
  apply (X15_exceptions_only_narrow
           kOsLinux (Sample.version [3; 2]%N) (Sample.nvidia 1)
           Sample.webgl_entry [] [Sample.exception 4660 []]).
  reflexivity.
Defined.

(** ** The parser, in full *)

Section Parser.

Context `{Platform}.

(** Case analysis on every reader the hypothesis goes through. *)
Ltac parse_cases H :=
  repeat match type of H with
  | context [match ?r with _ => _ end] => destruct r eqn:?; try discriminate H
  end.

(** What a parse that succeeds has read. *)
Lemma FromValue_ok recur value top_level (e : E.t) :
  E.FromValue recur value top_level = ok e ->
  exists n_id n_blacklist unknown_fields n_exceptions,
    E.read_id value top_level = ok (E.id_ e, E.disabled_ e, n_id)
    /\ E.read_blacklist value top_level
       = ok (E.feature_type_ e, E.contains_unknown_features_ e, n_blacklist)
    /\ E.read_exceptions recur value top_level
       = ok (E.exceptions_ e, unknown_fields, n_exceptions)
    /\ (unknown_fields = true -> E.contains_unknown_fields_ e = true).
Proof.
  unfold E.FromValue. intros Hparse.
  parse_cases Hparse.
  unfold ok in Hparse. injection Hparse as <-.
  cbn [E.id_ E.disabled_ E.feature_type_ E.contains_unknown_features_
       E.exceptions_ E.contains_unknown_fields_].
  do 4 eexists. repeat split. intros ->. reflexivity.
Qed.

Lemma read_id_ok value top_level id disabled n :
  E.read_id value top_level = ok (id, disabled, n) ->
  if top_level
  then exists i, GetInteger value "id" = Some i
                 /\ id = E.as_uint32 i /\ id <> 0
  else id = 0 /\ disabled = false.
Proof.
  unfold E.read_id, E.SetId. destruct top_level.
  - destruct (GetInteger value "id") as [i|]; [|discriminate].
    destruct (Z.eqb_spec (E.as_uint32 i) 0) as [Hz|Hz]; [discriminate|].
    cbn [negb].
    destruct (GetBoolean value "disabled"); intros Hok; injection Hok as <- _ _;
      exists i; auto.
  - intros Hok. injection Hok as <- <- _. auto.
Qed.

Lemma lor_small (a b : Z) :
  0 <= a < 64 -> 0 <= b < 64 -> 0 <= Z.lor a b < 64.
Proof.
  intros Ha Hb.
  assert (Hnn : 0 <= Z.lor a b) by (apply Z.lor_nonneg; lia).
  split; [exact Hnn|].
  destruct (Z.eq_dec (Z.lor a b) 0) as [->|Hne]; [lia|].
  change 64 with (2 ^ 6). apply Z.log2_lt_pow2; [lia|].
  rewrite Z.log2_lor by lia.
  assert (Hla : Z.log2 a < 6).
  { destruct (Z.eq_dec a 0) as [->|]; [reflexivity|].
    apply Z.log2_lt_pow2; lia. }
  assert (Hlb : Z.log2 b < 6).
  { destruct (Z.eq_dec b 0) as [->|]; [reflexivity|].
    apply Z.log2_lt_pow2; lia. }
  lia.
Qed.

Lemma GpuFeatureType_bits_small (f : GpuFeatureType) :
  0 <= GpuFeatureType_bits f < 64
  /\ (f <> GPU_FEATURE_TYPE_UNKNOWN -> GpuFeatureType_bits f <> 0).
Proof. destruct f; simpl; split; (lia || congruence). Qed.

(** The loop of [SetBlacklistedFeatures] keeps the mask within ALL, and
    a mask that is empty after a turn has met an unknown feature. *)
Lemma add_feature_invariant (acc : Z * bool) (feature : string) :
  0 <= fst acc < 64 ->
  0 <= fst (E.add_feature acc feature) < 64
  /\ (fst (E.add_feature acc feature) = 0 ->
      snd (E.add_feature acc feature) = true).
Proof.
  intros Hacc. unfold E.add_feature.
  pose proof (GpuFeatureType_bits_small (StringToGpuFeatureType feature))
    as [Hbits Hnz].
  destruct (StringToGpuFeatureType feature) eqn:Hf; cbn [fst snd];
    try (split; [exact Hacc|reflexivity]);
    (split; [apply lor_small; assumption|]);
    intros Hz; apply Z.lor_eq_0_iff in Hz as [_ Hz];
    exfalso; exact (Hnz ltac:(discriminate) Hz).
Qed.

Lemma fold_add_feature_invariant (l : list string) :
  forall acc,
    0 <= fst acc < 64 ->
    (fst acc = 0 -> snd acc = true) ->
    0 <= fst (fold_left E.add_feature l acc) < 64
    /\ (fst (fold_left E.add_feature l acc) = 0 ->
        snd (fold_left E.add_feature l acc) = true).
Proof.
  induction l as [|feature l IH]; intros acc Hacc Hflag; [auto|].
  cbn [fold_left].
  destruct (add_feature_invariant acc feature Hacc) as [Hacc' Hflag'].
  apply IH; assumption.
Qed.

Lemma SetBlacklistedFeatures_ok l feature_type unknown_features :
  E.SetBlacklistedFeatures l = Some (feature_type, unknown_features) ->
  l <> []
  /\ 0 <= feature_type < 64
  /\ (feature_type = 0 -> unknown_features = true).
Proof.
  unfold E.SetBlacklistedFeatures.
  destruct l as [|feature l]; [discriminate|].
  intros Hset. injection Hset as Hset.
  split; [discriminate|].
  assert (Hinit : 0 <= fst (GpuFeatureType_bits GPU_FEATURE_TYPE_UNKNOWN,
                            false) < 64) by (simpl; lia).
  destruct (add_feature_invariant _ feature Hinit) as [Hacc Hflag].
  destruct (fold_add_feature_invariant l _ Hacc Hflag) as [Hr Hf].
  pose proof (f_equal fst Hset) as Hfst.
  pose proof (f_equal snd Hset) as Hsnd.
  cbn [fst snd] in Hfst, Hsnd. subst feature_type unknown_features.
  exact (conj Hr Hf).
Qed.

Lemma read_blacklist_ok value feature_type unknown_features n :
  E.read_blacklist value true = ok (feature_type, unknown_features, n) ->
  (exists l, GetList value "blacklist" = Some l /\ l <> [])
  /\ 0 <= feature_type < 64
  /\ (feature_type = 0 -> unknown_features = true).
Proof.
  unfold E.read_blacklist.
  destruct (GetList value "blacklist") as [l|]; [|discriminate].
  destruct (GetAll AsString l) as [names|] eqn:Hnames; [|discriminate].
  destruct (E.SetBlacklistedFeatures names) as [[ft unk]|] eqn:Hset;
    [|discriminate].
  intros Hok. injection Hok as <- <- _.
  destruct (SetBlacklistedFeatures_ok _ _ _ Hset) as (Hne & Hr & Hf).
  split; [|exact (conj Hr Hf)].
  exists l. split; [reflexivity|].
  intros ->. simpl in Hnames. injection Hnames as <-. congruence.
Qed.

(** X17. A top-level entry that parses has an id from 1 to 2^32 - 1 and
    a feature mask within ALL, and its mask is empty only if one of its
    feature names is unknown. *)
Theorem X17_parsed_entry_id_and_mask :
  forall (value : Dictionary) (e : E.t),
    E.GetGpuBlacklistEntryFromValue value true = ok e ->
    0 < E.id e < 2 ^ 32
    /\ 0 <= E.GetGpuFeatureType e < 64
    /\ (E.GetGpuFeatureType e = 0 -> E.contains_unknown_features e = true).
Proof.
  intros value e Hparse.
  destruct (FromValue_ok _ _ _ _ Hparse)
    as (n_id & n_bl & unk & n_ex & Hid & Hbl & _ & _).
  apply read_id_ok in Hid as (i & _ & Hi & Hnz).
  apply read_blacklist_ok in Hbl as (_ & Hr & Hf).
  unfold E.id, E.GetGpuFeatureType, E.contains_unknown_features.
  split; [|exact (conj Hr Hf)].
  assert (Hrange : 0 <= E.as_uint32 i < 2 ^ 32)
    by (apply Z.mod_pos_bound; lia).
  rewrite <- Hi in Hrange. lia.
Qed.

(** X18. A top-level entry without an integer id other than 0, or without
    a blacklist of one feature name or more, is rejected: the parser
    returns NULL. *)
Theorem X18_mandatory_fields :
  forall value : Dictionary,
    lacks_mandatory_field value ->
    E.GetGpuBlacklistEntryFromValue value true = null.
Proof.
  intros value Hlacks.
  pose proof (GetGpuBlacklistEntryFromValue_defined value true) as Hdef.
  destruct (E.GetGpuBlacklistEntryFromValue value true) as [[e|]|] eqn:Hparse;
    [|reflexivity|congruence].
  exfalso.
  destruct (FromValue_ok _ _ _ _ Hparse)
    as (n_id & n_bl & unk & n_ex & Hid & Hbl & _ & _).
  apply read_id_ok in Hid as (i & Hi & Hid & Hnz).
  apply read_blacklist_ok in Hbl as ((l & Hl & Hne) & _).
  destruct Hlacks as [Hno|[(i' & Hi' & Hz)|[Hno|Hempty]]]; congruence.
Qed.

(** The loop over the exceptions keeps what the recursive call returns,
    but for the exceptions with an unknown field. *)
Lemma add_exceptions_ok (P : E.t -> Prop) recur :
  (forall d x, recur d = ok x -> P x) ->
  forall l exceptions unknown exceptions' unknown',
    E.add_exceptions recur exceptions unknown l = ok (exceptions', unknown') ->
    Forall (fun x => P x /\ E.contains_unknown_fields_ x = false) exceptions ->
    Forall (fun x => P x /\ E.contains_unknown_fields_ x = false) exceptions'.
Proof.
  intros Hrecur. induction l as [|v l IH];
    intros exceptions unknown exceptions' unknown' Hadd Hall.
  - injection Hadd as <- _. exact Hall.
  - cbn [E.add_exceptions] in Hadd.
    destruct (AsDictionary v) as [d|]; [|discriminate].
    destruct (recur d) as [[x|]|] eqn:Hx; try discriminate.
    destruct (E.contains_unknown_fields_ x) eqn:Hunk.
    + exact (IH _ _ _ _ Hadd Hall).
    + apply (IH _ _ _ _ Hadd). apply Forall_app. split; [exact Hall|].
      constructor; [|constructor]. split; [|exact Hunk].
      exact (Hrecur d x Hx).
Qed.

(** An entry read with [top_level] false has criteria only. *)
Lemma FromValue_exception recur value (x : E.t) :
  E.FromValue recur value false = ok x ->
  E.id_ x = 0 /\ E.disabled_ x = false /\ E.feature_type_ x = 0
  /\ E.exceptions_ x = [] /\ E.contains_unknown_features_ x = false.
Proof.
  intros Hparse.
  destruct (FromValue_ok _ _ _ _ Hparse)
    as (n_id & n_bl & unk & n_ex & Hid & Hbl & Hex & _).
  apply read_id_ok in Hid as [Hid Hdis].
  unfold E.read_blacklist in Hbl. injection Hbl as Hft Hunk _.
  unfold E.read_exceptions in Hex. injection Hex as Hexc _ _.
  simpl in Hft. auto.
Qed.

(** X16. The exceptions of a top-level entry that parses are criteria
    only: each has no id, is not disabled, blacklists nothing, has no
    exceptions of its own (the tree is two levels deep at most) and no
    unknown field. *)
Theorem X16_parsed_exceptions_are_plain :
  forall (value : Dictionary) (e : E.t),
    E.GetGpuBlacklistEntryFromValue value true = ok e ->
    Forall plain_exception (E.exceptions_ e).
Proof.
  intros value e Hparse.
  destruct (FromValue_ok _ _ _ _ Hparse)
    as (n_id & n_bl & unk & n_ex & _ & _ & Hex & _).
  unfold E.read_exceptions in Hex.
  destruct (GetList value "exceptions") as [l|];
    [|injection Hex as <- _ _; constructor].
  destruct (E.add_exceptions _ [] false l) as [[[exceptions unknown]|]|]
    eqn:Hadd; try discriminate.
  injection Hex as <- _ _.
  pose proof (add_exceptions_ok
                (fun x => E.id_ x = 0 /\ E.disabled_ x = false
                          /\ E.feature_type_ x = 0 /\ E.exceptions_ x = []
                          /\ E.contains_unknown_features_ x = false)
                _ (fun d x => FromValue_exception _ d x)
                _ _ _ _ _ Hadd (Forall_nil _)) as Hall.
  eapply Forall_impl; [|exact Hall].
  intros x [(? & ? & ? & ? & ?) ?]. unfold plain_exception. auto 10.
Qed.




Lemma add_feature_comm (acc : Z * bool) (a b : string) :
  E.add_feature (E.add_feature acc a) b
  = E.add_feature (E.add_feature acc b) a.
Proof.
  unfold E.add_feature.
  destruct (StringToGpuFeatureType a), (StringToGpuFeatureType b);
    cbn [fst snd]; try reflexivity;
    f_equal; rewrite <- !Z.lor_assoc; f_equal; apply Z.lor_comm.
Qed.

Lemma fold_add_feature_permutation (l l' : list string) :
  Permutation l l' ->
  forall acc, fold_left E.add_feature l acc = fold_left E.add_feature l' acc.
Proof.
  induction 1 as [|x l l' _ IH|x y l|l l' l'' _ IH1 _ IH2]; intros acc.
  - reflexivity.
  - cbn [fold_left]. apply IH.
  - cbn [fold_left]. rewrite add_feature_comm. reflexivity.
  - rewrite IH1. apply IH2.
Qed.

(** X20. The mask and the unknown-features flag of an entry do not depend
    on the order of the names in its blacklist. *)
Theorem X20_blacklisted_features_order :
  forall l l' : list string,
    Permutation l l' ->
    E.SetBlacklistedFeatures l = E.SetBlacklistedFeatures l'.
Proof.
  intros l l' Hperm. unfold E.SetBlacklistedFeatures.
  destruct l as [|a l], l' as [|a' l'].
  - reflexivity.
  - apply Permutation_nil in Hperm. discriminate.
  - apply Permutation_sym, Permutation_nil in Hperm. discriminate.
  - rewrite (fold_add_feature_permutation _ _ Hperm). reflexivity.
Qed.

End Parser.


(** ["webgl", "nonsense", "multisampling"] and its reverse. *)
Lemma X20_witness :
  E.SetBlacklistedFeatures ["webgl"; "nonsense"; "multisampling"]
  = E.SetBlacklistedFeatures ["multisampling"; "nonsense"; "webgl"]
  /\ E.SetBlacklistedFeatures ["webgl"; "nonsense"; "multisampling"]
     = Some (12, true).
Proof.
  split; [|reflexivity].
  apply X20_blacklisted_features_order.
  apply (Permutation_rev ["webgl"; "nonsense"; "multisampling"]).
Defined.

(** The entry with two exceptions, one of them with an unknown key: the
    first is kept, plain; the second is dropped. *)
Lemma X16_witness :
  exists e,
    @E.GetGpuBlacklistEntryFromValue Sample.linux
      Scenario.item_with_exceptions true = ok e
    /\ map E.device_id_list_ (E.exceptions_ e) = [[4660]]
    /\ Forall plain_exception (E.exceptions_ e).
Proof.
  eexists. split; [reflexivity|]. split; [reflexivity|].
  exact (@X16_parsed_exceptions_are_plain Sample.linux
           Scenario.item_with_exceptions _ eq_refl).
Defined.

Lemma X17_witness :
  0 < E.id Sample.unknown_key_entry < 2 ^ 32
  /\ 0 <= E.GetGpuFeatureType Sample.unknown_key_entry < 64
  /\ (E.GetGpuFeatureType Sample.unknown_key_entry = 0 ->
      E.contains_unknown_features Sample.unknown_key_entry = true).
Proof.
  exact (@X17_parsed_entry_id_and_mask Sample.linux
           Sample.unknown_key_item Sample.unknown_key_entry eq_refl).
Defined.

(** No id, and an empty blacklist. *)
Lemma X18_witness :
  @E.GetGpuBlacklistEntryFromValue Sample.linux Scenario.item_without_id true
  = null
  /\ @E.GetGpuBlacklistEntryFromValue Sample.linux
       Scenario.item_with_empty_blacklist true = null.
Proof.
  split; apply X18_mandatory_fields.
  - left. reflexivity.
  - right. right. right. reflexivity.
Defined.

(** ** The loader, in full *)

Section LoaderFull.

Context `{Platform}.

(** The loop reads the object only for [browser_version_]. *)
Lemma load_entries_browser_version (b1 b2 : B.t) l :
  B.browser_version_ b1 = B.browser_version_ b2 ->
  forall entries m unknown,
    B.load_entries b1 l entries m unknown
    = B.load_entries b2 l entries m unknown.
Proof.
  intros Hbv. induction l as [|x l IH]; intros entries m unknown;
    cbn [B.load_entries]; [reflexivity|].
  destruct (AsDictionary x) as [item|]; [|reflexivity].
  unfold B.IsEntrySupportedByCurrentBrowserVersion. rewrite Hbv.
  fold (B.IsEntrySupportedByCurrentBrowserVersion b2 item).
  destruct (B.IsEntrySupportedByCurrentBrowserVersion b2 item) as [[| |]|];
    auto.
  destruct (E.GetGpuBlacklistEntryFromValue item true) as [[e|]|]; auto.
  destruct (E.contains_unknown_fields e); apply IH.
Qed.

(** X21. A load that fails leaves the rule set in force: the entries,
    the active entries, the maximal id, the unknown-fields flag and the
    browser version are as before, and every evaluation returns the mask
    it returned before. *)
Theorem X21_failed_load_keeps_rule_set :
  forall (b : B.t) parsed_json os_filter b',
    B.LoadGpuBlacklist b parsed_json os_filter = Some (false, b') ->
    B.blacklist_ b' = B.blacklist_ b
    /\ B.active_entries_ b' = B.active_entries_ b
    /\ B.max_entry_id_ b' = B.max_entry_id_ b
    /\ B.contains_unknown_fields_ b' = B.contains_unknown_fields_ b
    /\ B.browser_version_ b' = B.browser_version_ b
    /\ forall os os_version gpu_info,
         option_map fst (B.DetermineGpuFeatureType b' os os_version gpu_info)
         = option_map fst (B.DetermineGpuFeatureType b os os_version gpu_info).
Proof.
  intros b parsed_json os_filter b' Hload.
  rewrite (LoadGpuBlacklist_failure _ _ _ _ Hload).
  repeat split. intros os os_version gpu_info.
  unfold B.DetermineGpuFeatureType. cbn [B.set_version B.blacklist_].
  destruct (B.determine_loop _ _ _ _ _ _); reflexivity.
Qed.

(** X22. A load that succeeds replaces the rule set wholesale: what it
    leaves depends on the object before only through the browser
    version, and loading the same tree again changes nothing. *)
Theorem X22_successful_load_replaces_rule_set :
  forall (b1 b2 : B.t) parsed_json os_filter b',
    B.browser_version_ b2 = B.browser_version_ b1 ->
    B.LoadGpuBlacklist b1 parsed_json os_filter = Some (true, b') ->
    B.LoadGpuBlacklist b2 parsed_json os_filter = Some (true, b')
    /\ B.LoadGpuBlacklist b' parsed_json os_filter = Some (true, b').
Proof.
  intros b1 b2 parsed_json os_filter b' Hbv Hload.
  destruct (LoadGpuBlacklist_success _ _ _ _ Hload)
    as (v & l & entries & m & unknown & Hv & Hl & Hentries & ->).
  assert (Hany : forall b, B.browser_version_ b = B.browser_version_ b1 ->
                   B.LoadGpuBlacklist b parsed_json os_filter
                   = Some (true,
                           B.Build (Some v) (B.browser_version_ b1)
                             (filter (B.os_filter_keeps os_filter GetOsType)
                                     entries) [] m unknown)).
  { intros b Hb. unfold B.LoadGpuBlacklist. rewrite Hv.
    cbn [B.set_version B.version_]. rewrite Hl.
    rewrite (load_entries_browser_version _ b1) by exact Hb.
    rewrite Hentries. cbn [B.Clear B.version_ B.browser_version_
      B.active_entries_ B.set_version]. rewrite Hb. reflexivity. }
  split; apply Hany; [exact Hbv|reflexivity].
Qed.

(** The loop never lowers the maximal id and raises it to the id of
    every entry it parses; an entry is in its list afterwards exactly
    when it was there before or is given, without unknown fields, by an
    item of the list. *)
Lemma load_entries_ok b l :
  forall entries m unknown entries' m' unknown',
    B.load_entries b l entries m unknown = ok (entries', m', unknown') ->
    m <= m'
    /\ (forall x e, In x l -> gives_entry b x e -> E.id e <= m')
    /\ (forall e, In e entries'
                  <-> In e entries
                      \/ exists x, In x l /\ gives_entry b x e
                                   /\ E.contains_unknown_fields e = false).
Proof.
  induction l as [|x l IH]; intros entries m unknown entries' m' unknown' Hload;
    cbn [B.load_entries] in Hload.
  - injection Hload as <- <- <-.
    split; [lia|]. split; [intros ? ? []|].
    intros e. split; [auto|]. intros [Hin|(x & [] & _)]. exact Hin.
  - destruct (AsDictionary x) as [d|] eqn:Hx; [|discriminate].
    destruct x; try discriminate. injection Hx as ->.
    destruct (B.IsEntrySupportedByCurrentBrowserVersion b d) as [[| |]|]
      eqn:Hsup; try discriminate.
    + destruct (E.GetGpuBlacklistEntryFromValue d true) as [[e0|]|] eqn:Hparse;
        try discriminate.
      set (m0 := if m <? E.id e0 then E.id e0 else m) in Hload.
      assert (Hm0 : m <= m0 /\ E.id e0 <= m0)
        by (unfold m0; destruct (Z.ltb_spec m (E.id e0)); lia).
      assert (Hhead : forall e, gives_entry b (DictionaryValue d) e -> e = e0).
      { intros e (d' & Heq & _ & Hp). injection Heq as <-.
        unfold ok in *. congruence. }
      assert (Hgives : gives_entry b (DictionaryValue d) e0)
        by (exists d; auto).
      destruct (E.contains_unknown_fields e0) eqn:Hunk;
        destruct (IH _ _ _ _ _ _ Hload) as (Hmax & Hids & Hmem);
        (split; [lia|]);
        (split;
         [intros x e [<-|Hin] Hg;
          [rewrite (Hhead e Hg); lia|exact (Hids x e Hin Hg)]|]);
        intros e; rewrite Hmem.
      * split.
        -- intros [Hin|(x & Hin & Hg & Hk)]; [auto|].
           right. exists x. auto with datatypes.
        -- intros [Hin|(x & [<-|Hin] & Hg & Hk)]; [auto| |].
           ++ rewrite (Hhead e Hg) in Hk. congruence.
           ++ right. exists x. auto.
      * rewrite in_app_iff. cbn [In]. split.
        -- intros [[Hin|[<-|[]]]|(x & Hin & Hg & Hk)]; [auto| |].
           ++ right. exists (DictionaryValue d). auto with datatypes.
           ++ right. exists x. auto with datatypes.
        -- intros [Hin|(x & [<-|Hin] & Hg & Hk)]; [auto| |].
           ++ left. right. left. symmetry. exact (Hhead e Hg).
           ++ right. exists x. auto.
    + destruct (IH _ _ _ _ _ _ Hload) as (Hmax & Hids & Hmem).
      assert (Hhead : forall e, ~ gives_entry b (DictionaryValue d) e).
      { intros e (d' & Heq & Hs & _). injection Heq as <-. congruence. }
      split; [exact Hmax|]. split.
      * intros x e [<-|Hin] Hg; [destruct (Hhead e Hg)|eauto].
      * intros e. rewrite Hmem. split.
        -- intros [Hin|(x & Hin & Hg & Hk)]; [auto|].
           right. exists x. auto with datatypes.
        -- intros [Hin|(x & [<-|Hin] & Hg & Hk)]; [auto| |].
           ++ destruct (Hhead e Hg).
           ++ right. exists x. auto.
Qed.

(** X23. After a load that succeeds, the maximal id is at least the id
    of every entry the load parsed, those it then skipped for their
    unknown fields or filtered out by their OS included. *)
Theorem X23_max_entry_id_bounds_parsed_ids :
  forall (b : B.t) parsed_json os_filter b' l x e,
    B.LoadGpuBlacklist b parsed_json os_filter = Some (true, b') ->
    GetList parsed_json "entries" = Some l ->
    In x l ->
    gives_entry b x e ->
    E.id e <= B.max_entry_id b'.
Proof.
  intros b parsed_json os_filter b' l x e Hload Hl Hin Hgives.
  destruct (LoadGpuBlacklist_success _ _ _ _ Hload)
    as (v & l' & entries & m & unknown & _ & Hl' & Hentries & ->).
  rewrite Hl in Hl'. injection Hl' as <-.
  destruct (load_entries_ok _ _ _ _ _ _ _ _ Hentries) as (_ & Hids & _).
  exact (Hids x e Hin Hgives).
Qed.

(** X24. After a load that succeeds, the blacklist holds exactly the
    entries that an item of the entries list gives (the browser version
    supports the item and it parses), that have no unknown field and
    that the OS filter keeps. *)
Theorem X24_loaded_entries :
  forall (b : B.t) parsed_json os_filter b',
    B.LoadGpuBlacklist b parsed_json os_filter = Some (true, b') ->
    exists l,
      GetList parsed_json "entries" = Some l
      /\ forall e,
           In e (B.blacklist_ b')
           <-> (exists x, In x l /\ gives_entry b x e)
               /\ E.contains_unknown_fields e = false
               /\ B.os_filter_keeps os_filter GetOsType e = true.
Proof.
  intros b parsed_json os_filter b' Hload.
  destruct (LoadGpuBlacklist_success _ _ _ _ Hload)
    as (v & l & entries & m & unknown & _ & Hl & Hentries & ->).
  exists l. split; [exact Hl|]. intros e. cbn [B.blacklist_].
  destruct (load_entries_ok _ _ _ _ _ _ _ _ Hentries) as (_ & _ & Hmem).
  rewrite filter_In, Hmem. split.
  - intros [[[]|(x & Hin & Hg & Hk)] Hos]. eauto.
  - intros ((x & Hin & Hg) & Hk & Hos). split; [|exact Hos].
    right. exists x. auto.
Qed.

(** An item the browser version does not support is skipped. *)
Lemma load_entries_unsupported b item pre post :
  B.IsEntrySupportedByCurrentBrowserVersion b item = Some B.kUnsupported ->
  forall entries m unknown,
    B.load_entries b (pre ++ DictionaryValue item :: post)%list
                   entries m unknown
    = B.load_entries b (pre ++ post)%list entries m unknown.
Proof.
  intros Hunsup. induction pre as [|x pre IH]; intros entries m unknown.
  - cbn [app B.load_entries AsDictionary]. rewrite Hunsup. reflexivity.
  - cbn [app B.load_entries].
    destruct (AsDictionary x) as [d|]; [|reflexivity].
    destruct (B.IsEntrySupportedByCurrentBrowserVersion b d) as [[| |]|];
      auto.
    destruct (E.GetGpuBlacklistEntryFromValue d true) as [[e|]|]; auto.
    destruct (E.contains_unknown_fields e); apply IH.
Qed.

(** X25. An entry for another browser version is not looked at: the load
    of a tree gives what the load of the tree without the entry gives,
    whatever else the entry holds. *)
Theorem X25_unsupported_entry_is_ignored :
  forall (b : B.t) parsed_json parsed_json' os_filter item pre post,
    GetStringOr parsed_json "version" ""
    = GetStringOr parsed_json' "version" "" ->
    GetList parsed_json "entries"
    = Some (pre ++ DictionaryValue item :: post)%list ->
    GetList parsed_json' "entries" = Some (pre ++ post)%list ->
    B.IsEntrySupportedByCurrentBrowserVersion b item = Some B.kUnsupported ->
    B.LoadGpuBlacklist b parsed_json os_filter
    = B.LoadGpuBlacklist b parsed_json' os_filter.
Proof.
  intros b parsed_json parsed_json' os_filter item pre post Hv Hl Hl' Hunsup.
  unfold B.LoadGpuBlacklist. rewrite Hv, Hl, Hl'.
  destruct (Version.GetVersionFromString _) as [v|]; cbn [B.set_version
    B.version_]; [|reflexivity].
  rewrite (load_entries_unsupported _ item pre post); [reflexivity|].
  exact Hunsup.
Qed.



End LoaderFull.

(** After a load of one entry, the load of a tree without an entries list
    fails; the entry is still there. *)
Lemma X21_witness :
  let b := Sample.blacklist [Sample.webgl_entry] in
  let b' := B.set_version b (Some (Sample.version [2; 0]%N)) in
  B.blacklist_ b' = B.blacklist_ b
  /\ B.active_entries_ b' = B.active_entries_ b
  /\ B.max_entry_id_ b' = B.max_entry_id_ b
  /\ B.contains_unknown_fields_ b' = B.contains_unknown_fields_ b
  /\ B.browser_version_ b' = B.browser_version_ b
  /\ forall os os_version gpu_info,
       option_map fst
         (@B.DetermineGpuFeatureType Sample.linux b' os os_version gpu_info)
       = option_map fst
           (@B.DetermineGpuFeatureType Sample.linux b os os_version gpu_info).
Proof.
  exact (@X21_failed_load_keeps_rule_set Sample.linux
           (Sample.blacklist [Sample.webgl_entry])
           [("version", StringValue "2.0")] B.kAllOs _ eq_refl).
Defined.

(** The same tree loaded into an empty object, into an object that holds
    an entry, and a second time. *)
Lemma X22_witness :
  exists b',
    @B.LoadGpuBlacklist Sample.linux (Sample.blacklist [])
      (Sample.config "1.0" [Sample.webgl_item]) B.kAllOs = Some (true, b')
    /\ @B.LoadGpuBlacklist Sample.linux
         (Sample.blacklist [Sample.webgl_entry])
         (Sample.config "1.0" [Sample.webgl_item]) B.kAllOs = Some (true, b')
    /\ @B.LoadGpuBlacklist Sample.linux b'
         (Sample.config "1.0" [Sample.webgl_item]) B.kAllOs = Some (true, b').
Proof.
  eexists. split; [reflexivity|].
  exact (@X22_successful_load_replaces_rule_set Sample.linux
           (Sample.blacklist []) (Sample.blacklist [Sample.webgl_entry])
           (Sample.config "1.0" [Sample.webgl_item]) B.kAllOs _
           eq_refl eq_refl).
Defined.

(** The entry with the unknown key is skipped, and its id counts. *)
Lemma X23_witness :
  E.id Sample.unknown_key_entry
  <= B.max_entry_id
       (B.Build (Some (Sample.version [1; 0]%N))
                (Some (Sample.version [25]%N)) [] [] 1 true).
Proof.
  apply (@X23_max_entry_id_bounds_parsed_ids Sample.linux
           (Sample.blacklist [])
           (Sample.config "1.0" [Sample.unknown_key_item]) B.kAllOs _
           [DictionaryValue Sample.unknown_key_item]
           (DictionaryValue Sample.unknown_key_item)
           Sample.unknown_key_entry);
    [reflexivity|reflexivity|left; reflexivity|].
  exists Sample.unknown_key_item. repeat split.
Defined.

(** A Linux build loads an entry for Linux and one for Windows, for the
    current OS only: the first is kept. *)
Lemma X24_witness :
  exists b',
    @B.LoadGpuBlacklist Sample.linux (Sample.blacklist [])
      (Sample.config "1.0" [Sample.webgl_item; Scenario.windows_item])
      B.kCurrentOsOnly = Some (true, b')
    /\ map E.id (B.blacklist_ b') = [1]
    /\ exists l,
         GetList (Sample.config "1.0"
                    [Sample.webgl_item; Scenario.windows_item]) "entries"
         = Some l
         /\ forall e,
              In e (B.blacklist_ b')
              <-> (exists x, In x l
                             /\ @gives_entry Sample.linux
                                  (Sample.blacklist []) x e)
                  /\ E.contains_unknown_fields e = false
                  /\ B.os_filter_keeps B.kCurrentOsOnly kOsLinux e = true.
Proof.
  eexists. split; [reflexivity|]. split; [reflexivity|].
  exact (@X24_loaded_entries Sample.linux (Sample.blacklist [])
           (Sample.config "1.0" [Sample.webgl_item; Scenario.windows_item])
           B.kCurrentOsOnly _ eq_refl).
Defined.

(** Browser version 25 and an entry for versions below 20 that has no
    id: the load succeeds as if the entry were not there. *)
Lemma X25_witness :
  @B.LoadGpuBlacklist Sample.linux (Sample.blacklist [])
    (Sample.config "1.0" [Sample.webgl_item; Scenario.item_for_old_browsers])
    B.kAllOs
  = @B.LoadGpuBlacklist Sample.linux (Sample.blacklist [])
      (Sample.config "1.0" [Sample.webgl_item]) B.kAllOs.
Proof.
  apply (@X25_unsupported_entry_is_ignored Sample.linux
           (Sample.blacklist [])
           (Sample.config "1.0"
              [Sample.webgl_item; Scenario.item_for_old_browsers])
           (Sample.config "1.0" [Sample.webgl_item]) B.kAllOs
           Scenario.item_for_old_browsers
           [DictionaryValue Sample.webgl_item] []);
    reflexivity.
Defined.


(** ** The evaluation and its reports *)

Section Reports.

Context `{Platform}.

(** What the loop of the evaluation returns, whenever it returns: the
    entries it appends come from the blacklist, and the mask is the OR
    over those of them that are not disabled. *)
Lemma determine_loop_some (blacklist : list E.t) os os_version gpu_info :
  forall type active type' active',
    B.determine_loop blacklist os os_version gpu_info type active
    = Some (type', active') ->
    exists hits,
      active' = (active ++ hits)%list
      /\ type' = or_features type (filter enabled hits)
      /\ incl hits blacklist.
Proof.
  induction blacklist as [|e blacklist IH];
    intros type active type' active' Hloop; cbn [B.determine_loop] in Hloop.
  - injection Hloop as <- <-. exists []. rewrite app_nil_r.
    repeat split. intros ? [].
  - destruct os_version as [version|]; [|discriminate].
    destruct (E.Contains e os version gpu_info) as [[|]|];
      [| |discriminate].
    + destruct (IH _ _ _ _ Hloop) as (hits & -> & -> & Hincl).
      exists (e :: hits). rewrite <- app_assoc. split; [reflexivity|].
      split; [|apply incl_cons; [left; reflexivity|apply incl_tl; exact Hincl]].
      cbn [filter]. unfold enabled at 2.
      destruct (negb (E.disabled e)); reflexivity.
    + destruct (IH _ _ _ _ Hloop) as (hits & -> & -> & Hincl).
      exists hits. repeat split. apply incl_tl. exact Hincl.
Qed.

Lemma or_features_land (feature : Z) (entries : list E.t) :
  forall type,
    Z.land feature (or_features type entries) <> 0
    <-> Z.land feature type <> 0
        \/ exists e, In e entries
                     /\ Z.land feature (E.GetGpuFeatureType e) <> 0.
Proof.
  induction entries as [|e entries IH]; intros type.
  - cbn. split; [auto|]. intros [Ht|(e & [] & _)]. exact Ht.
  - unfold or_features in *. cbn [fold_left]. rewrite IH.
    rewrite Z.land_lor_distr_r, Z.lor_eq_0_iff. split.
    + intros [Hor|(x & Hin & Hx)].
      * destruct (Z.eq_dec (Z.land feature type) 0) as [Hz|Hnz]; [|auto].
        right. exists e. split; [left; reflexivity|]. tauto.
      * right. exists x. auto with datatypes.
    + intros [Ht|(x & [<-|Hin] & Hx)]; [tauto|tauto|].
      right. exists x. auto.
Qed.

(** X27. After an evaluation, a feature is in the returned mask exactly
    when the list of active entries that are not disabled and blacklist
    the feature, as [GetGpuFeatureTypeEntries] gives it, is not empty. *)
Theorem X27_mask_bit_iff_enabled_active_entry :
  forall (b : B.t) os os_version gpu_info mask b' feature,
    B.DetermineGpuFeatureType b os os_version gpu_info = Some (mask, b') ->
    Z.land feature mask <> 0
    <-> B.GetGpuFeatureTypeEntries b' feature false <> [].
Proof.
  intros b os os_version gpu_info mask b' feature Heval.
  unfold B.DetermineGpuFeatureType in Heval.
  destruct (B.determine_loop _ _ _ _ _ _) as [[type active]|] eqn:Hloop;
    [|discriminate].
  injection Heval as <- <-. cbn [fst snd].
  destruct (determine_loop_some _ _ _ _ _ _ _ _ Hloop)
    as (hits & -> & -> & _).
  cbn [app]. unfold B.GetGpuFeatureTypeEntries.
  cbn [B.set_active_entries B.active_entries_].
  rewrite or_features_land. rewrite Z.land_0_r. split.
  - intros [Hz|(e & Hin & He)]; [exfalso; apply Hz; reflexivity|].
    apply filter_In in Hin as [Hin Hen].
    intros Hnil. apply map_eq_nil in Hnil.
    assert (Hmem : In e (filter
                           (fun e0 => negb (Z.land feature
                                              (E.GetGpuFeatureType e0) =? 0)
                                      && Bool.eqb false (E.disabled e0))
                           hits)).
    { apply filter_In. split; [exact Hin|].
      apply andb_true_intro. split.
      - apply negb_true_iff, Z.eqb_neq. exact He.
      - unfold enabled in Hen. apply negb_true_iff in Hen. rewrite Hen.
        reflexivity. }
    rewrite Hnil in Hmem. exact Hmem.
  - intros Hne. right.
    destruct (filter (fun e0 => negb (Z.land feature
                                        (E.GetGpuFeatureType e0) =? 0)
                                && Bool.eqb false (E.disabled e0)) hits)
      as [|e rest] eqn:Hf; [exfalso; apply Hne; reflexivity|].
    assert (Hmem : In e (e :: rest)) by (left; reflexivity).
    rewrite <- Hf in Hmem. apply filter_In in Hmem as [Hin Hp].
    apply andb_prop in Hp as [Hland Hdis].
    exists e. split.
    + apply filter_In. split; [exact Hin|].
      unfold enabled. destruct (E.disabled e); [discriminate|reflexivity].
    + apply negb_true_iff, Z.eqb_neq in Hland. exact Hland.
Qed.

Lemma or_features_small (entries : list E.t) :
  forall type,
    0 <= type < 64 ->
    Forall (fun e => 0 <= E.GetGpuFeatureType e < 64) entries ->
    0 <= or_features type entries < 64.
Proof.
  induction entries as [|e entries IH]; intros type Htype Hall;
    [exact Htype|].
  inversion Hall as [|? ? He Hrest]; subst.
  unfold or_features in *. cbn [fold_left].
  apply IH; [apply lor_small; assumption|exact Hrest].
Qed.

(** X28. An evaluation of a rule set that a load has left returns a mask
    within ALL, and its active entries are entries of the rule set. *)
Theorem X28_loaded_rule_set_evaluates_within_all :
  forall (b : B.t) parsed_json os_filter loaded os os_version gpu_info
         mask evaluated,
    B.LoadGpuBlacklist b parsed_json os_filter = Some (true, loaded) ->
    B.DetermineGpuFeatureType loaded os os_version gpu_info
    = Some (mask, evaluated) ->
    0 <= mask < 64
    /\ incl (B.active_entries_ evaluated) (B.blacklist_ loaded).
Proof.
  intros b parsed_json os_filter loaded os os_version gpu_info mask evaluated
         Hload Heval.
  assert (Hsmall : Forall (fun e => 0 <= E.GetGpuFeatureType e < 64)
                          (B.blacklist_ loaded)).
  { destruct (LoadGpuBlacklist_success _ _ _ _ Hload)
      as (v & l & entries & m & unknown & _ & _ & Hentries & ->).
    cbn [B.blacklist_]. apply Forall_forall. intros e Hin.
    apply filter_In in Hin as [Hin _].
    apply (load_entries_ok _ _ _ _ _ _ _ _ Hentries) in Hin
      as [[]|(x & _ & (d & _ & _ & Hparse) & _)].
    destruct (FromValue_ok _ _ _ _ Hparse)
      as (n_id & n_bl & unk & n_ex & _ & Hbl & _ & _).
    apply read_blacklist_ok in Hbl as (_ & Hr & _). exact Hr. }
  unfold B.DetermineGpuFeatureType in Heval.
  destruct (B.determine_loop _ _ _ _ _ _) as [[type active]|] eqn:Hloop;
    [|discriminate].
  injection Heval as <- <-. cbn [fst snd].
  destruct (determine_loop_some _ _ _ _ _ _ _ _ Hloop)
    as (hits & -> & -> & Hincl).
  cbn [app B.set_active_entries B.active_entries_ B.blacklist_].
  split; [|exact Hincl].
  apply or_features_small; [lia|].
  apply Forall_forall. intros e Hin. apply filter_In in Hin as [Hin _].
  rewrite Forall_forall in Hsmall. apply Hsmall, Hincl, Hin.
Qed.

End Reports.

Lemma X27_witness :
  exists mask b',
    B.DetermineGpuFeatureType (H := Sample.linux)
      (Sample.blacklist [Sample.webgl_entry]) kOsLinux
      (Some (Sample.version [3; 2]%N)) (Sample.nvidia 1)
    = Some (mask, b')
    /\ (Z.land 4 mask <> 0
        <-> B.GetGpuFeatureTypeEntries b' 4 false <> []).
Proof.
  eexists. eexists. split; [reflexivity|].
  exact (X27_mask_bit_iff_enabled_active_entry (H := Sample.linux)
           (Sample.blacklist [Sample.webgl_entry]) kOsLinux
           (Some (Sample.version [3; 2]%N)) (Sample.nvidia 1) _ _ 4 eq_refl).
Defined.

Lemma X28_witness :
  exists loaded evaluated mask,
    B.LoadGpuBlacklist (H := Sample.linux) (Sample.blacklist [])
      (Sample.config "1.0" [Sample.webgl_item]) B.kAllOs
    = Some (true, loaded)
    /\ B.DetermineGpuFeatureType (H := Sample.linux) loaded kOsLinux
         (Some (Sample.version [3; 2]%N)) (Sample.nvidia 1)
       = Some (mask, evaluated)
    /\ 0 <= mask < 64
    /\ incl (B.active_entries_ evaluated) (B.blacklist_ loaded).
Proof.
  eexists. eexists. eexists.
  split; [reflexivity|]. split; [reflexivity|].
  exact (X28_loaded_rule_set_evaluates_within_all (H := Sample.linux)
           (Sample.blacklist []) (Sample.config "1.0" [Sample.webgl_item])
           B.kAllOs _ kOsLinux (Some (Sample.version [3; 2]%N))
           (Sample.nvidia 1) _ _ eq_refl eq_refl).
Defined.

Lemma reasons_loop_app (active : list E.t) :
  forall problem_list,
    B.reasons_loop active problem_list
    = (problem_list ++ map B.problem_of (filter enabled active))%list.
Proof.
  induction active as [|e active IH]; intros problem_list;
    cbn [B.reasons_loop filter map].
  - rewrite app_nil_r. reflexivity.
  - unfold enabled at 1. destruct (E.disabled e); cbn [negb].
    + apply IH.
    + rewrite IH, <- app_assoc. reflexivity.
Qed.

Lemma GetAll_integers (l : list Z) :
  Values.GetAll Values.AsInteger (map Values.IntegerValue l) = Some l.
Proof.
  induction l as [|i l IH]; [reflexivity|].
  cbn. cbn in IH. rewrite IH. reflexivity.
Qed.

Lemma read_problem_of (e : E.t) :
  read_problem (B.problem_of e)
  = Some (E.description_ e, E.cr_bugs_ e, E.webkit_bugs_ e).
Proof.
  unfold read_problem, B.problem_of. cbn.
  rewrite !GetAll_integers. reflexivity.
Qed.

(** X29. [GetBlacklistReasons] leaves the problems that the list already
    held and appends one problem per active entry that is not disabled,
    in the order of the active entries; reading a problem back gives the
    description and the bug numbers of its entry. *)
Theorem X29_reasons_read_back :
  forall (b : B.t) (problem_list : list Values.Value),
    exists problems,
      B.GetBlacklistReasons b problem_list = (problem_list ++ problems)%list
      /\ map read_problem problems
         = map (fun e => Some (E.description_ e, E.cr_bugs_ e,
                               E.webkit_bugs_ e))
               (filter enabled (B.active_entries_ b)).
Proof.
  intros b problem_list.
  exists (map B.problem_of (filter enabled (B.active_entries_ b))).
  split; [apply reasons_loop_app|].
  rewrite map_map. apply map_ext. intros e. apply read_problem_of.
Qed.

Section Overloads.

Context `{Platform}.

Variable JSONReader_Read : string -> option Values.Value.

(** X30. A load from a JSON string that returns false leaves the entries,
    the active entries, the largest id and the flag as they were, but has
    already replaced the browser version by the one passed. *)
Theorem X30_failed_json_load_keeps_rule_set :
  forall (b : B.t) browser_version_string json_context os_filter b',
    B.LoadGpuBlacklist_json JSONReader_Read b browser_version_string
      json_context os_filter = Some (false, b') ->
    B.blacklist_ b' = B.blacklist_ b
    /\ B.active_entries_ b' = B.active_entries_ b
    /\ B.max_entry_id_ b' = B.max_entry_id_ b
    /\ B.contains_unknown_fields_ b' = B.contains_unknown_fields_ b
    /\ B.browser_version_ b'
       = Version.GetVersionFromString browser_version_string.
Proof.
  intros b bvs json os_filter b' Hload.
  unfold B.LoadGpuBlacklist_json in Hload. cbv zeta in Hload.
  destruct (JSONReader_Read json) as [[| ? | ? | ? | ? | ? |root_dictionary]|];
    try (injection Hload as <-; repeat split; reflexivity).
  apply LoadGpuBlacklist_failure in Hload. subst b'.
  repeat split; reflexivity.
Qed.

End Overloads.

Lemma X30_witness :
  exists b',
    B.LoadGpuBlacklist_json (H := Sample.linux) Scenario.no_json
      (Sample.blacklist [Sample.webgl_entry]) "26.0" "{" B.kAllOs
    = Some (false, b')
    /\ B.blacklist_ b' = [Sample.webgl_entry]
    /\ B.browser_version_ b' = Some (Sample.version [26; 0]%N).
Proof.
  eexists. split; [reflexivity|].
  destruct (X30_failed_json_load_keeps_rule_set (H := Sample.linux)
              Scenario.no_json (Sample.blacklist [Sample.webgl_entry])
              "26.0" "{" B.kAllOs _ eq_refl)
    as (Hentries & _ & _ & _ & Hversion).
  split; [exact Hentries|exact Hversion].
Defined.
